(** * promkv: a key-value store kept in a Prometheus time-series backend

    A shallow embedding of [promkv.go].  A value is written as three time
    series (start instant, size, content: one sample per byte, one second
    apart) and read back with three range queries.

    The embedding follows the Go source function by function:
    [buildWriteRequest], [KV.Set], [KV.Get], [getValues], [getLastValue].
    What the source takes from its libraries and from the network (the
    clock, the HTTP round trip, the query API, protobuf and snappy) is
    modelled by its documented behaviour or taken as a parameter. *)

From Stdlib Require Import ZArith QArith Qround List String Ascii Bool Lia.
From Stdlib Require Strings.Byte.
From Stdlib Require Import DecimalString.
Import ListNotations.
Local Open Scope Z_scope.

(** ** Machine integers

    Go's [int], [int64] and [time.Duration] are 64-bit two's complement
    integers (the target is a 64-bit platform); arithmetic wraps around. *)

Definition min_int64 : Z := - 2 ^ 63.
Definition max_int64 : Z := 2 ^ 63 - 1.
Definition min_int32 : Z := - 2 ^ 31.
Definition max_int32 : Z := 2 ^ 31 - 1.

Definition wrap64 (z : Z) : Z := (z + 2 ^ 63) mod 2 ^ 64 - 2 ^ 63.

Definition int64_mul (a b : Z) : Z := wrap64 (a * b).
Definition int64_neg (a : Z) : Z := wrap64 (- a).

(** Go's [/] on integers truncates toward zero. *)
Definition int_div (a b : Z) : Z := Z.quot a b.

(** ** Bytes *)

Definition byte_to_Z (b : Byte.byte) : Z := Z.of_N (Byte.to_N b).

(** The low eight bits of an integer, as a byte. *)
Definition byte_of_Z (z : Z) : Byte.byte :=
  match Byte.of_N (Z.to_N (z mod 256)) with
  | Some b => b
  | None => Byte.x00
  end.

(** ** float64

    A [float64] is modelled by the number it denotes: a rational for a
    finite value, and the two infinities and NaN.  Only conversions are
    used by the program, no floating-point arithmetic. *)

Inductive float64 : Type :=
| FNum (q : Q)
| FInf (negative : bool)
| FNaN.

(** Rounding of an integer to 53 significant bits, ties to even: the
    conversion [float64(x)] of an integer [x].  It is the identity below
    [2^53]. *)
Definition round53 (z : Z) : Z :=
  let a := Z.abs z in
  if a <? 2 ^ 53 then z
  else
    let e := Z.log2 a - 52 in
    let q := a / 2 ^ e in
    let r := a mod 2 ^ e in
    let half := 2 ^ (e - 1) in
    let q' := if r <? half then q
              else if half <? r then q + 1
              else if Z.even q then q else q + 1 in
    Z.sgn z * (q' * 2 ^ e).

Definition float64_of_int (z : Z) : float64 := FNum (inject_Z (round53 z)).

(** Truncation toward zero. *)
Definition truncQ (q : Q) : Z := Z.quot (Qnum q) (Z.pos (Qden q)).

(** [int64(f)] and [int(f)] and [time.Duration(f)].  The language leaves
    the result open when the truncated value does not fit; the model takes
    what the gc compiler does on amd64 (the "integer indefinite" value). *)
Definition int64_of_float64 (f : float64) : Z :=
  match f with
  | FNum q =>
      let t := truncQ q in
      if (min_int64 <=? t) && (t <=? max_int64) then t else min_int64
  | _ => min_int64
  end.

Definition int32_of_float64 (f : float64) : Z :=
  match f with
  | FNum q =>
      let t := truncQ q in
      if (min_int32 <=? t) && (t <=? max_int32) then t else min_int32
  | _ => min_int32
  end.

(** [byte(f)]: conversion to a 32-bit integer, then the low eight bits. *)
Definition uint8_of_float64 (f : float64) : Byte.byte :=
  byte_of_Z (int32_of_float64 f).

(** ** Package time and Prometheus' package timestamp

    A [time.Time] is the instant it denotes, in nanoseconds since the Unix
    epoch ([UTC()] changes the location, not the instant).  A
    [time.Duration] is an [int64] count of nanoseconds. *)

Definition Time : Type := Z.
Definition Duration : Type := Z.

Definition Millisecond : Duration := 1000000.
Definition Second : Duration := 1000 * Millisecond.
Definition Minute : Duration := 60 * Second.
Definition Hour : Duration := 60 * Minute.

Definition UTC (t : Time) : Time := t.
Definition Time_Add (t : Time) (d : Duration) : Time := t + d.
Definition Time_Unix (t : Time) : Z := t / Second.
Definition Time_Nanosecond (t : Time) : Z := t mod Second.
Definition time_Unix (sec nsec : Z) : Time := sec * Second + nsec.

(** [timestamp.FromTime]: milliseconds since the epoch. *)
Definition FromTime (t : Time) : Z :=
  Time_Unix t * 1000 + int_div (Time_Nanosecond t) Millisecond.

(** [timestamp.Time]: the instant of a millisecond timestamp. *)
Definition timestamp_Time (ts : Z) : Time :=
  UTC (time_Unix (int_div ts 1000) (Z.rem ts 1000 * Millisecond)).

(** ** Errors and readers *)

Inductive error : Type :=
| ErrOpaque (what : string)   (* an error value made elsewhere, passed on as it is *)
| Errorf (msg : string).      (* fmt.Errorf: the formatted message *)

(** An [io.Reader], by what reading it to the end yields: the bytes read
    and, unless the end was reached cleanly, the error that stopped it. *)
Record Reader : Type := {
  rdBytes : list Byte.byte;
  rdErr : option error
}.

Definition io_ReadAll (r : Reader) : list Byte.byte * option error :=
  (rdBytes r, rdErr r).

Definition bytes_NewReader (b : list Byte.byte) : Reader :=
  {| rdBytes := b; rdErr := None |}.

(** ** package prompb: the remote-write structures *)

Module Label.
Record t : Type := { Name : string; Value : string }.
End Label.

Module Sample.
Record t : Type := { Value : float64; Timestamp : Z }.
End Sample.

Module TimeSeries.
Record t : Type := { Labels : list Label.t; Samples : list Sample.t }.
End TimeSeries.

Inductive MetricType : Type :=
| UNKNOWN | COUNTER | GAUGE | HISTOGRAM | GAUGEHISTOGRAM | SUMMARY | INFO | STATESET.

Module MetricMetadata.
Record t : Type := {
  Type_ : MetricType;
  MetricFamilyName : string;
  Help : string;
  Unit : string
}.
End MetricMetadata.

Module WriteRequest.
Record t : Type := {
  Timeseries : list TimeSeries.t;
  Metadata : list MetricMetadata.t
}.
End WriteRequest.

(** ** package model: what a range query returns *)

Module SamplePair.
Record t : Type := { Timestamp : Z; Value : float64 }.
End SamplePair.

Module SampleStream.
Record t : Type := { Metric : list Label.t; Values : list SamplePair.t }.
End SampleStream.

Definition Matrix : Type := list SampleStream.t.

(** [model.Value] is an interface; a range query answers with a [Matrix],
    the other implementations are what the type switches reject. *)
Inductive model_Value : Type :=
| ValMatrix (m : Matrix)
| ValVector (v : list (list Label.t * SamplePair.t))
| ValScalar (s : SamplePair.t)
| ValString (s : string)
| ValNil.

Module Range.
Record t : Type := { Start : Time; End_ : Time; Step : Duration }.
End Range.

(** The PromQL text [metric{key=%q}] built with [fmt.Sprintf], kept as its
    abstract syntax: a metric name and an exact match on the label [key]. *)
Record Query : Type := { qMetric : string; qKey : string }.

(** A series answers a query when it carries the metric name and the key. *)
Definition hasLabel (n v : string) (ls : list Label.t) : bool :=
  existsb (fun l => String.eqb (Label.Name l) n && String.eqb (Label.Value l) v) ls.

Definition selects (q : Query) (ts : TimeSeries.t) : bool :=
  hasLabel "__name__" (qMetric q) (TimeSeries.Labels ts)
  && hasLabel "key" (qKey q) (TimeSeries.Labels ts).

(** ** HTTP *)

(** The bytes of a marshalled and compressed request are kept symbolic:
    both encodings are injective, and nothing here looks inside them. *)
Inductive ProtoBytes : Type := proto_Marshalled (req : WriteRequest.t).
Inductive SnappyBlock : Type := snappy_Encode (src : ProtoBytes).

Module Request.
Record t : Type := {
  Method : string;
  URL : string;
  Header : list (string * list string);
  Body : SnappyBlock
}.
End Request.

(** The body of a response, an [io.ReadCloser], as its reads hand it over:
    the bytes delivered before the end of the stream is reported ([io.EOF]
    or a read error, which a scanner treats alike), and whether the end is
    reported together with the last bytes or by a read of its own that
    delivers none. *)
Record BodyReader : Type := {
  delivered : string;
  endsWithData : bool
}.

Module Response.
Record t : Type := {
  Status : string;       (* for instance "500 Internal Server Error" *)
  StatusCode : Z;
  Body : BodyReader
}.
End Response.

Inductive result (A : Type) : Type :=
| Ok (a : A)
| Err (e : error).
Arguments Ok {A} a.
Arguments Err {A} e.

Fixpoint Header_lookup (h : list (string * list string)) (k : string) : list string :=
  match h with
  | [] => []
  | (k', vs) :: h' => if String.eqb k k' then vs else Header_lookup h' k
  end.

Fixpoint Header_put (h : list (string * list string)) (k : string) (vs : list string)
  : list (string * list string) :=
  match h with
  | [] => [(k, vs)]
  | (k', vs') :: h' =>
      if String.eqb k k' then (k, vs) :: h' else (k', vs') :: Header_put h' k vs
  end.

(** [Header.Add] appends a value to those of the key, [Header.Set] replaces
    them. *)
Definition Header_Add (req : Request.t) (k v : string) : Request.t :=
  {| Request.Method := Request.Method req;
     Request.URL := Request.URL req;
     Request.Header :=
       Header_put (Request.Header req) k (Header_lookup (Request.Header req) k ++ [v]);
     Request.Body := Request.Body req |}.

Definition Header_Set (req : Request.t) (k v : string) : Request.t :=
  {| Request.Method := Request.Method req;
     Request.URL := Request.URL req;
     Request.Header := Header_put (Request.Header req) k [v];
     Request.Body := Request.Body req |}.

(** *** bufio.Scanner with the default split function, ScanLines

    [bufio.NewScanner(r)] gives a scanner whose buffer grows up to
    [MaxScanTokenSize] bytes.  [Scan] reads into the buffer until
    [ScanLines] finds a token in it: the bytes before the first line feed,
    without a carriage return at their end; at the end of the stream, what
    is left if anything is.  When the buffer is full, holds no token and the
    end of the stream was not reported, [Scan] fails with [ErrTooLong] and
    returns false. *)

Definition LF : ascii := ascii_of_nat 10.
Definition CR : ascii := ascii_of_nat 13.

Definition MaxScanTokenSize : Z := 64 * 1024.

(** [bytes.IndexByte(data, LF) >= 0] *)
Fixpoint hasLF (s : string) : bool :=
  match s with
  | EmptyString => false
  | String c s' => if Ascii.eqb c LF then true else hasLF s'
  end.

(** [data[0:i]] for the index [i] of the first line feed. *)
Fixpoint untilLF (s : string) : string :=
  match s with
  | EmptyString => EmptyString
  | String c s' => if Ascii.eqb c LF then EmptyString else String c (untilLF s')
  end.

Fixpoint dropCR (s : string) : string :=
  match s with
  | EmptyString => EmptyString
  | String c EmptyString => if Ascii.eqb c CR then EmptyString else s
  | String c s' => String c (dropCR s')
  end.

(** The first [n] bytes of the stream: what a buffer of [n] bytes holds
    when it is full or the stream has ended. *)
Fixpoint buffered (n : Z) (s : string) : string :=
  match s with
  | EmptyString => EmptyString
  | String c s' => if n <=? 0 then EmptyString else String c (buffered (n - 1) s')
  end.

(** The first [scanner.Scan()] on a body, followed by [scanner.Text()]:
    [None] when [Scan] returns false. *)
Definition Scanner_Scan (body : BodyReader) : option string :=
  let data := buffered MaxScanTokenSize (delivered body) in
  if hasLF data then
    Some (dropCR (untilLF data))
  else if Z.of_nat (String.length (delivered body)) <? MaxScanTokenSize then
    (* the end of the stream is reached before the buffer is full *)
    match delivered body with
    | EmptyString => None
    | _ => Some (dropCR (delivered body))
    end
  else if (Z.of_nat (String.length (delivered body)) =? MaxScanTokenSize)
          && endsWithData body then
    (* the read that fills the buffer reports the end as well *)
    Some (dropCR (delivered body))
  else
    (* bufio.ErrTooLong *)
    None.

(** ** The outside of the program

    The services the program calls but does not implement: URL parsing,
    protobuf marshalling, the HTTP client that reaches the ingestion
    endpoint, the Prometheus query API, and the capacity the Go runtime
    gives a slice grown by [append]. *)

Inductive IOEvent : Type :=
| EvPost (req : Request.t)
| EvQueryRange (q : Query) (r : Range.t).

Class Env : Type := {
  Backend : Type;
  HTTPClient : Type;
  http_DefaultClient : HTTPClient;
  url_Parse : string -> option error;
  proto_Marshal : WriteRequest.t -> result ProtoBytes;
  (* cli.Do(req): a response, or a network-level error *)
  http_Do : HTTPClient -> Request.t -> Backend -> result Response.t * Backend;
  (* api.QueryRange(ctx, query, range), warnings dropped *)
  api_QueryRange : option HTTPClient -> string -> Query -> Range.t -> Backend
                   -> result model_Value;
  (* cap of a slice grown from nil by n appends of one element, n > 0 *)
  append_cap : nat -> nat;
  append_cap_ge : forall n : nat, (n <= append_cap n)%nat
}.

(** ** Effects: the clock, the network, and panics *)

Inductive outcome (A : Type) : Type :=
| Done (a : A)
| Panic (msg : string).
Arguments Done {A} a.
Arguments Panic {A} msg.

Definition Go (W A : Type) : Type := W -> outcome A * W.

Definition ret {W A : Type} (a : A) : Go W A := fun w => (Done a, w).

Definition bind {W A B : Type} (m : Go W A) (k : A -> Go W B) : Go W B :=
  fun w =>
    match m w with
    | (Done a, w') => k a w'
    | (Panic msg, w') => (Panic msg, w')
    end.

Definition lift {W A : Type} (o : outcome A) : Go W A := fun w => (o, w).

Notation "x <- c ;; k" := (bind c (fun x => k))
  (at level 61, c at next level, right associativity).

Record World {E : Env} : Type := {
  clock : nat -> Time;      (* the successive readings of time.Now() *)
  ticks : nat;              (* how many were taken *)
  backend : Backend;        (* the state of the metrics backend *)
  trace : list IOEvent      (* the network calls made so far *)
}.

Section Program.
Context {E : Env}.

Definition time_Now : Go World Time :=
  fun w =>
    (Done (clock w (ticks w)),
     {| clock := clock w; ticks := S (ticks w);
        backend := backend w; trace := trace w |}).

Definition client_Do (cli : HTTPClient) (req : Request.t) : Go World (result Response.t) :=
  fun w =>
    let '(r, b) := http_Do cli req (backend w) in
    (Done r,
     {| clock := clock w; ticks := ticks w;
        backend := b; trace := trace w ++ [EvPost req] |}).

Definition QueryRange (cli : option HTTPClient) (addr : string) (q : Query) (r : Range.t)
  : Go World (result model_Value) :=
  fun w =>
    (Done (api_QueryRange cli addr q r (backend w)),
     {| clock := clock w; ticks := ticks w;
        backend := backend w; trace := trace w ++ [EvQueryRange q r] |}).

(** ** promkv.go *)

Record Options : Type := {
  APIURL : string;
  WriteURL : string;
  Client : option HTTPClient
}.

Record KV : Type := { opts : Options }.

Record BasicAuth : Type := { Username : string; Password : string }.

Definition New (o : Options) : KV := {| opts := o |}.

(** [for i, x := range l { s = body i x s }] *)
Fixpoint range_loop {A S : Type} (i : nat) (l : list A) (body : nat -> A -> S -> S) (s : S) : S :=
  match l with
  | [] => s
  | x :: l' => range_loop (Datatypes.S i) l' body (body i x s)
  end.

Definition nameLabels (metric name : string) : list Label.t :=
  [ {| Label.Name := "__name__"; Label.Value := metric |};
    {| Label.Name := "key"; Label.Value := name |} ].

(** [buildWriteRequest(name, r)]: the pair it returns, [(req, nil)] or
    [(nil, err)]. *)
Definition buildWriteRequest (name : string) (r : Reader)
  : Go World (option WriteRequest.t * option error) :=
  let Metadata :=
    [ {| MetricMetadata.Type_ := GAUGE;
         MetricMetadata.MetricFamilyName := "promkv_file_timestamp_seconds";
         MetricMetadata.Help := "Last timestamp when file was written.";
         MetricMetadata.Unit := "seconds" |};
      {| MetricMetadata.Type_ := GAUGE;
         MetricMetadata.MetricFamilyName := "promkv_file_size_bytes";
         MetricMetadata.Help := "Size of file.";
         MetricMetadata.Unit := "bytes" |};
      {| MetricMetadata.Type_ := GAUGE;
         MetricMetadata.MetricFamilyName := "promkv_file_content";
         MetricMetadata.Help := "Content of file.";
         MetricMetadata.Unit := EmptyString |} ] in
  let '(bb, err) := io_ReadAll r in
  match err with
  | Some e => ret (None, Some e)
  | None =>
      now <- time_Now ;;
      let dataOffset := int64_mul Second (Z.of_nat (List.length bb)) in
      (* The startTimestamp is the timestamp of the very first byte written. *)
      let startTimestamp := Time_Add (UTC now) (int64_neg dataOffset) in
      let Timeseries :=
        [] ++
        [ {| TimeSeries.Labels := nameLabels "promkv_file_timestamp_seconds" name;
             TimeSeries.Samples :=
               [ {| Sample.Value := float64_of_int (FromTime startTimestamp);
                    Sample.Timestamp := FromTime startTimestamp |} ] |};
          {| TimeSeries.Labels := nameLabels "promkv_file_size_bytes" name;
             TimeSeries.Samples :=
               [ {| Sample.Value := float64_of_int (Z.of_nat (List.length bb));
                    Sample.Timestamp := FromTime startTimestamp |} ] |} ] in
      let contentSeries :=
        range_loop 0 bb
          (fun i b cs =>
             let offset := int64_mul Second (Z.of_nat i) in
             {| TimeSeries.Labels := TimeSeries.Labels cs;
                TimeSeries.Samples :=
                  TimeSeries.Samples cs ++
                  [ {| Sample.Value := float64_of_int (byte_to_Z b);
                       Sample.Timestamp := FromTime (Time_Add startTimestamp offset) |} ] |})
          {| TimeSeries.Labels := nameLabels "promkv_file_content" name;
             TimeSeries.Samples := [] |} in
      ret (Some {| WriteRequest.Timeseries := Timeseries ++ [contentSeries];
                   WriteRequest.Metadata := Metadata |},
           None)
  end.

(** [http.NewRequestWithContext(ctx, http.MethodPost, url, body)] with a
    non-nil context: it fails when the URL does not parse. *)
Definition http_NewRequest (method url : string) (body : SnappyBlock) : result Request.t :=
  match url_Parse url with
  | Some e => Err e
  | None => Ok {| Request.Method := method; Request.URL := url;
                  Request.Header := []; Request.Body := body |}
  end.

(** [(db *KV) Set(ctx, name, r)].  The context only carries cancellation,
    which shows as an error of the round trip; it is left out. *)
Definition KV_Set (db : KV) (name : string) (r : Reader) : Go World (option error) :=
  p <- buildWriteRequest name r ;;
  match p with
  | (_, Some err) => ret (Some err)
  | (None, None) => ret (Some (ErrOpaque "proto: Marshal called with nil"))
  | (Some req, None) =>
      match proto_Marshal req with
      | Err err => ret (Some err)
      | Ok pBuf =>
          let compressed := snappy_Encode pBuf in
          match http_NewRequest "POST" (WriteURL (opts db)) compressed with
          | Err err => ret (Some err)
          | Ok httpReq =>
              let httpReq := Header_Add httpReq "Content-Encoding" "snappy" in
              let httpReq := Header_Add httpReq "Content-Type" "application/x-protobuf" in
              let httpReq := Header_Set httpReq "User-Agent" "promkv/v0.0.0" in
              let httpReq := Header_Set httpReq "X-Prometheus-Remote-Write-Version" "0.1.0" in
              let cli := match Client (opts db) with
                         | None => http_DefaultClient
                         | Some c => c
                         end in
              resp <- client_Do cli httpReq ;;
              match resp with
              | Err err => ret (Some err)
              | Ok httpResp =>
                  (* deferred: the body is drained and closed on return *)
                  if negb (int_div (Response.StatusCode httpResp) 100 =? 2) then
                    let line := match Scanner_Scan (Response.Body httpResp) with
                                | Some text => text
                                | None => EmptyString
                                end in
                    ret (Some (Errorf ("server returned HTTP status "
                                         ++ Response.Status httpResp ++ ": " ++ line)))
                  else ret None
              end
          end
      end
  end.

(** [l[i]]: panics outside [0 <= i < len(l)]. *)
Definition go_index {A : Type} (l : list A) (i : Z) : outcome A :=
  if (i <? 0) || (Z.of_nat (List.length l) <=? i) then
    Panic "index out of range"
  else
    match nth_error l (Z.to_nat i) with
    | Some x => Done x
    | None => Panic "index out of range"
    end.

(** A slice built by [append] from nil: its elements and its capacity; the
    room past the length holds zero values. *)
Definition cap_of (n : nat) : nat :=
  match n with
  | O => O
  | _ => append_cap n
  end.

(** [s[:k]]: panics outside [0 <= k <= cap(s)]. *)
Definition go_slice_to (s : list float64) (k : Z) : outcome (list float64) :=
  if (k <? 0) || (Z.of_nat (cap_of (List.length s)) <? k) then
    Panic "slice bounds out of range"
  else
    Done (firstn (Z.to_nat k) (s ++ repeat (FNum 0) (cap_of (List.length s) - List.length s))).

Definition getValues (val : model_Value) : outcome (list float64) :=
  match val with
  | ValMatrix val =>
      match go_index val (Z.of_nat (List.length val) - 1) with
      | Panic msg => Panic msg
      | Done stream =>
          let samples := SampleStream.Values stream in
          Done (fold_left (fun points sample => points ++ [SamplePair.Value sample])
                          samples [])
      end
  | _ => Panic "Unrecognized type"
  end.

Definition getLastValue (val : model_Value) : outcome float64 :=
  match val with
  | ValMatrix val =>
      match go_index val (Z.of_nat (List.length val) - 1) with
      | Panic msg => Panic msg
      | Done stream =>
          let samples := SampleStream.Values stream in
          match go_index samples (Z.of_nat (List.length samples) - 1) with
          | Panic msg => Panic msg
          | Done sample => Done (SamplePair.Value sample)
          end
      end
  | _ => Panic "Unrecognized type"
  end.

(** The last stage of [Get] (from [floatBytes := ...] to the end of the
    loop): the values of the content answer, cut to the first
    [int(fileSizeBytes)], each converted to a byte. *)
Definition Get_bytes (val : model_Value) (fileSizeBytes : float64)
  : outcome (list Byte.byte) :=
  match getValues val with
  | Panic msg => Panic msg
  | Done points =>
      match go_slice_to points (int64_of_float64 fileSizeBytes) with
      | Panic msg => Panic msg
      | Done floatBytes =>
          Done (fold_left (fun bb fb => bb ++ [uint8_of_float64 fb]) floatBytes [])
      end
  end.

(** [api.NewClient(api.Config{Address, Client})]: fails when the address
    does not parse. *)
Definition api_NewClient (address : string) (cli : option HTTPClient)
  : result (option HTTPClient * string) :=
  match url_Parse address with
  | Some e => Err e
  | None => Ok (cli, address)
  end.

(** [(db *KV) Get(ctx, name)]: the bytes, or the error returned with a nil
    slice.  Each range literal reads the clock twice, for [Start] and for
    [End], before its query is sent. *)
Definition KV_Get (db : KV) (name : string) : Go World (result (list Byte.byte)) :=
  match api_NewClient (APIURL (opts db)) (Client (opts db)) with
  | Err err => ret (Err err)
  | Ok (cli, addr) =>
      start1 <- time_Now ;;
      end1 <- time_Now ;;
      r <- QueryRange cli addr
             {| qMetric := "promkv_file_size_bytes"; qKey := name |}
             {| Range.Start := Time_Add (UTC start1) (- Hour);
                Range.End_ := UTC end1;
                Range.Step := Minute |} ;;
      match r with
      | Err err => ret (Err err)
      | Ok val =>
          fileSizeBytes <- lift (getLastValue val) ;;
          start2 <- time_Now ;;
          end2 <- time_Now ;;
          r <- QueryRange cli addr
                 {| qMetric := "promkv_file_timestamp_seconds"; qKey := name |}
                 {| Range.Start := Time_Add (UTC start2) (- Hour);
                    Range.End_ := UTC end2;
                    Range.Step := Minute |} ;;
          match r with
          | Err err => ret (Err err)
          | Ok val =>
              timestampSeconds <- lift (getLastValue val) ;;
              let dataRange :=
                {| Range.Start := timestamp_Time (int64_of_float64 timestampSeconds);
                   Range.End_ :=
                     Time_Add (timestamp_Time (int64_of_float64 timestampSeconds))
                              (int64_mul Second (int64_of_float64 fileSizeBytes));
                   Range.Step := Second |} in
              r <- QueryRange cli addr
                     {| qMetric := "promkv_file_content"; qKey := name |}
                     dataRange ;;
              match r with
              | Err err => ret (Err err)
              | Ok val =>
                  bb <- lift (Get_bytes val fileSizeBytes) ;;
                  ret (Ok bb)
              end
          end
      end
  end.

End Program.

(** ** The command-line front end (package main)

    The two commands of the program, as [cobra] runs them: the positional
    arguments are validated by [cobra.ExactArgs(1)], then the command's
    [RunE] closure is called, and [main] exits with status 1 when it
    returns an error.  A panic ends the process with status 2. *)

(** Standard output: what was written to it, and how many more bytes it
    takes before writing fails ([None]: any number). *)
Record Stdout : Type := {
  written : list Byte.byte;
  room : option nat
}.

(** [io.Copy(os.Stdout, bytes.NewReader(bb))]: the count of bytes copied
    and the error of the write, if any.  Standard output is a file: a write
    fails for lack of room only; a closed pipe, on which the runtime ends
    the process, is not among the states of [Stdout]. *)
Definition io_Copy_Stdout (bb : list Byte.byte) (out : Stdout)
  : (Z * option error) * Stdout :=
  match room out with
  | None =>
      ((Z.of_nat (List.length bb), None),
       {| written := written out ++ bb; room := None |})
  | Some k =>
      if (List.length bb <=? k)%nat then
        ((Z.of_nat (List.length bb), None),
         {| written := written out ++ bb; room := Some (k - List.length bb)%nat |})
      else
        ((Z.of_nat k, Some (ErrOpaque "write /dev/stdout: no space left on device")),
         {| written := written out ++ firstn k bb; room := Some O |})
  end.

(** [fmt.Sprintf("%d", n)] *)
Definition decimal (n : nat) : string := NilZero.string_of_uint (Nat.to_uint n).

(** [cobra.ExactArgs(n)] *)
Definition cobra_ExactArgs (n : nat) (args : list string) : option error :=
  if (List.length args =? n)%nat then None
  else Some (Errorf ("accepts " ++ decimal n ++ " arg(s), received "
                       ++ decimal (List.length args))).

Section CommandLine.
Context {E : Env}.

(** [os.Getenv], and the client [main] builds: an [http.Client] whose
    transport adds basic authentication to the default transport. *)
Variable os_Getenv : string -> string.
Variable basicAuthClient : string -> string -> HTTPClient.

(** The state of the process: the world and standard output. *)
Definition Proc : Type := (World * Stdout)%type.

Definition onWorld {A : Type} (m : Go World A) : Go Proc A :=
  fun p => let '(o, w) := m (fst p) in (o, (w, snd p)).

Definition onStdout {A : Type} (f : Stdout -> A * Stdout) : Go Proc A :=
  fun p => let '(a, out) := f (snd p) in (Done a, (fst p, out)).

(** The store [main] builds from the environment. *)
Definition main_db : KV :=
  New {| APIURL := os_Getenv "PROMETHEUS_URL";
         WriteURL := os_Getenv "PROMETHEUS_REMOTE_WRITE_URL";
         Client := Some (basicAuthClient (os_Getenv "PROMETHEUS_USERNAME")
                                         (os_Getenv "PROMETHEUS_PASSWORD")) |}.

(** The [RunE] of the command [get [name]]. *)
Definition getCmd_RunE (db : KV) (args : list string) : Go Proc (option error) :=
  name <- lift (go_index args 0) ;;
  r <- onWorld (KV_Get db name) ;;
  match r with
  | Err err => ret (Some err)
  | Ok bb =>
      _ <- onStdout (io_Copy_Stdout bb) ;;
      ret None
  end.

(** The [RunE] of the command [set [name]]; the value is read from standard
    input. *)
Definition setCmd_RunE (db : KV) (os_Stdin : Reader) (args : list string)
  : Go Proc (option error) :=
  name <- lift (go_index args 0) ;;
  onWorld (KV_Set db name os_Stdin).

(** A command with [Args: cobra.ExactArgs(1)], run on its positional
    arguments: [args] is what [cobra] passes to [Args] and to [RunE] once
    the flags are parsed, for a command line without flags. *)
Definition runCommand (RunE : list string -> Go Proc (option error)) (args : list string)
  : Go Proc (option error) :=
  match cobra_ExactArgs 1 args with
  | Some err => ret (Some err)
  | None => RunE args
  end.

(** The exit status of the process for what the command did. *)
Definition exitStatus (o : outcome (option error)) : Z :=
  match o with
  | Done None => 0
  | Done (Some _) => 1
  | Panic _ => 2
  end.

(** [promkv get <args>] and [promkv set <args>]: the exit status and the
    state of the process at exit. *)
Definition promkv_get (args : list string) (p : Proc) : Z * Proc :=
  let '(o, p') := runCommand (getCmd_RunE main_db) args p in (exitStatus o, p').

Definition promkv_set (os_Stdin : Reader) (args : list string) (p : Proc) : Z * Proc :=
  let '(o, p') := runCommand (setCmd_RunE main_db os_Stdin) args p in (exitStatus o, p').

End CommandLine.

(** ** A backend that stores what it is sent

    A model of the metrics backend, used to run [KV_Set] and [KV_Get]
    end to end.  The ingestion endpoint keeps every series of a write
    request.  A range query evaluates the selector at [Start],
    [Start + Step], ... up to [End]: the value at an instant is that of the
    most recent stored sample not older than the look-back window, and a
    series without any point is left out of the answer. *)

Module Prom.

Definition TSDB : Type := list TimeSeries.t.

Definition samplesOf (db : TSDB) (q : Query) : list Sample.t :=
  flat_map TimeSeries.Samples (filter (selects q) db).

(** Five minutes, in milliseconds. *)
Definition lookbackDelta : Z := 300000.

Definition visible (t : Z) (s : Sample.t) : bool :=
  (t - lookbackDelta <? Sample.Timestamp s) && (Sample.Timestamp s <=? t).

Definition later (best : option Sample.t) (s : Sample.t) : option Sample.t :=
  match best with
  | Some b => if Sample.Timestamp b <=? Sample.Timestamp s then Some s else best
  | None => Some s
  end.

Definition instantValue (ss : list Sample.t) (t : Z) : option Sample.t :=
  fold_left (fun best s => if visible t s then later best s else best) ss None.

Definition steps (start end_ step : Z) : list Z :=
  map (fun j => start + Z.of_nat j * step)
      (seq 0 (S (Z.to_nat ((end_ - start) / step)))).

Definition evalRange (ss : list Sample.t) (start end_ step : Z) : list SamplePair.t :=
  flat_map
    (fun t => match instantValue ss t with
              | Some s => [ {| SamplePair.Timestamp := t;
                               SamplePair.Value := Sample.Value s |} ]
              | None => []
              end)
    (steps start end_ step).

Definition queryRange (q : Query) (r : Range.t) (db : TSDB) : result model_Value :=
  let start := FromTime (Range.Start r) in
  let end_ := FromTime (Range.End_ r) in
  let step := int_div (Range.Step r) Millisecond in
  if step <=? 0 then
    Err (ErrOpaque "bad_data: zero or negative query resolution step widths are not accepted")
  else if end_ <? start then
    Err (ErrOpaque "bad_data: end timestamp must not be before start time")
  else
    match evalRange (samplesOf db q) start end_ step with
    | [] => Ok (ValMatrix [])
    | points =>
        Ok (ValMatrix [ {| SampleStream.Metric :=
                             [ {| Label.Name := "__name__"; Label.Value := qMetric q |};
                               {| Label.Name := "key"; Label.Value := qKey q |} ];
                           SampleStream.Values := points |} ])
    end.

Definition receive (req : Request.t) (db : TSDB) : result Response.t * TSDB :=
  match Request.Body req with
  | snappy_Encode (proto_Marshalled wr) =>
      (Ok {| Response.Status := "204 No Content";
             Response.StatusCode := 204;
             Response.Body := {| delivered := EmptyString; endsWithData := false |} |},
       db ++ WriteRequest.Timeseries wr)
  end.

(** Capacity after [n] appends to a nil slice, doubling when full. *)
Fixpoint grow (n : nat) : nat :=
  match n with
  | O => O
  | S m => let c := grow m in
           if (c <? S m)%nat then (if (c =? 0)%nat then 1%nat else (2 * c)%nat) else c
  end.

Lemma grow_ge (n : nat) : (n <= grow n)%nat.
Proof.
  induction n as [|m IH]; simpl; [lia|].
  destruct (grow m <? S m)%nat eqn:Hlt.
  - apply Nat.ltb_lt in Hlt.
    destruct (grow m =? 0)%nat eqn:Hz.
    + apply Nat.eqb_eq in Hz. lia.
    + apply Nat.eqb_neq in Hz. lia.
  - apply Nat.ltb_ge in Hlt. lia.
Qed.

(** The environment, for a given behaviour of the ingestion endpoint. *)
Definition envWith (endpoint : Request.t -> TSDB -> result Response.t * TSDB) : Env := {|
  Backend := TSDB;
  HTTPClient := unit;
  http_DefaultClient := tt;
  url_Parse := fun _ => None;
  proto_Marshal := fun req => Ok (proto_Marshalled req);
  http_Do := fun _ req db => endpoint req db;
  api_QueryRange := fun _ _ q r db => queryRange q r db;
  append_cap := grow;
  append_cap_ge := grow_ge
|}.

#[export] Instance env : Env := envWith receive.

(** An endpoint that refuses every request; the end of the body comes
    with its last bytes, as for a body of known length. *)
Definition refuse (status : string) (code : Z) (body : string)
  (req : Request.t) (db : TSDB) : result Response.t * TSDB :=
  (Ok {| Response.Status := status; Response.StatusCode := code;
         Response.Body := {| delivered := body; endsWithData := true |} |}, db).

(** An endpoint that cannot be reached. *)
Definition unreachable (e : error) (req : Request.t) (db : TSDB)
  : result Response.t * TSDB := (Err e, db).

(** The world at the start of a run: what the backend holds, and a clock. *)
Definition worldWith (db : TSDB) (clk : nat -> Time) : World :=
  {| clock := clk; ticks := O; backend := db; trace := [] |}.

Definition world (clk : nat -> Time) : World := worldWith [] clk.

Definition kv : KV := New {| APIURL := "http://localhost:9090";
                             WriteURL := "http://localhost:9090/api/v1/write";
                             Client := None |}.

(** [KV_Set] followed by [KV_Get] of the same key, from a backend that
    holds [db]: the error of [Set] and the result of [Get]. *)
Definition setThenGetFrom (db : TSDB) (clk : nat -> Time) (name : string)
  (bb : list Byte.byte) : option error * outcome (result (list Byte.byte)) :=
  match KV_Set kv name (bytes_NewReader bb) (worldWith db clk) with
  | (Done err, w) => (err, fst (KV_Get kv name w))
  | (Panic msg, _) => (None, Panic msg)
  end.

Definition setThenGet (clk : nat -> Time) (name : string) (bb : list Byte.byte)
  : option error * outcome (result (list Byte.byte)) :=
  setThenGetFrom [] clk name bb.

(** Two writes to one key, then a read of it, from an empty backend: the
    errors of the two [Set] and the result of [Get]. *)
Definition setSetGet (clk : nat -> Time) (name : string) (first second : list Byte.byte)
  : option error * option error * outcome (result (list Byte.byte)) :=
  match KV_Set kv name (bytes_NewReader first) (world clk) with
  | (Done err1, w1) =>
      match KV_Set kv name (bytes_NewReader second) w1 with
      | (Done err2, w2) => (err1, err2, fst (KV_Get kv name w2))
      | (Panic msg, _) => (err1, None, Panic msg)
      end
  | (Panic msg, _) => (None, None, Panic msg)
  end.

Definition setSetGetFrom (db : TSDB) (clk : nat -> Time) (name : string)
  (first second : list Byte.byte)
  : option error * option error * outcome (result (list Byte.byte)) :=
  match KV_Set kv name (bytes_NewReader first) (worldWith db clk) with
  | (Done err1, w1) =>
      match KV_Set kv name (bytes_NewReader second) w1 with
      | (Done err2, w2) => (err1, err2, fst (KV_Get kv name w2))
      | (Panic msg, _) => (err1, None, Panic msg)
      end
  | (Panic msg, _) => (None, None, Panic msg)
  end.

(** The command line against this backend: the environment names the two
    URLs, and the client with basic authentication is the only client. *)
Definition getenv (name : string) : string :=
  if String.eqb name "PROMETHEUS_URL" then "http://localhost:9090"
  else if String.eqb name "PROMETHEUS_REMOTE_WRITE_URL"
       then "http://localhost:9090/api/v1/write"
  else EmptyString.

Definition basicAuth (user password : string) : @HTTPClient env := tt.

(** [promkv set name < value] followed by [promkv get name]: the two exit
    statuses and what standard output holds at the end. *)
Definition setThenGetCommands (db : TSDB) (clk : nat -> Time) (name : string)
  (value : list Byte.byte) : Z * Z * list Byte.byte :=
  let p0 := (worldWith db clk, {| written := []; room := None |}) in
  let '(status1, p1) :=
    promkv_set getenv basicAuth (bytes_NewReader value) [name] p0 in
  let '(status2, p2) := promkv_get getenv basicAuth [name] p1 in
  (status1, status2, written (snd p2)).

(** The backend holds no series of the key. *)
Definition holdsNoSeriesOf (name : string) (db : TSDB) : Prop :=
  Forall (fun ts => hasLabel "key" name (TimeSeries.Labels ts) = false) db.

End Prom.


(** ** Concrete inputs *)

(** A clock that shows 2023-11-14 22:13:20 UTC, 1700000000 seconds after
    the epoch. *)
Definition clock1700 : nat -> Time := fun _ => 1700000000 * Second.

Definition hi : list Byte.byte := [Byte.x68; Byte.x69].

(** Two worlds that differ in everything but the instant their clocks show
    next. *)
Definition worldA : @World Prom.env := Prom.world clock1700.

Definition worldB : @World Prom.env :=
  @Build_World Prom.env
    (fun n => if (n =? 3)%nat then 1700000000 * Second else 5)
    3%nat
    [ {| TimeSeries.Labels := nameLabels "promkv_file_content" "other";
         TimeSeries.Samples := [] |} ]
    [ EvQueryRange {| qMetric := "promkv_file_content"; qKey := "other" |}
                   {| Range.Start := 0; Range.End_ := 1; Range.Step := Second |} ].

(** A first write at 1700000000.5 s, a second one 9.5 s later, and a read
    one second after that. *)
Definition clockTwoWrites : nat -> Time :=
  fun n => match n with
           | O => 1700000000 * Second + 500 * Millisecond
           | S O => 1700000010 * Second
           | _ => 1700000011 * Second
           end.

(** A clock that shows 1700000000 s at first and 4000 s more at each
    reading. *)
Definition clockSlow : nat -> Time :=
  fun n => (1700000000 + 4000 * Z.of_nat n) * Second.

(** "hello, world" *)
Definition helloWorld : list Byte.byte :=
  [ Byte.x68; Byte.x65; Byte.x6c; Byte.x6c; Byte.x6f; Byte.x2c; Byte.x20;
    Byte.x77; Byte.x6f; Byte.x72; Byte.x6c; Byte.x64 ].

(** An ingestion endpoint that cannot be reached. *)
Definition envDown : Env :=
  Prom.envWith (Prom.unreachable (ErrOpaque "dial tcp: connection refused")).

(** What a backend holds after one byte was written under the key "other"
    ten minutes earlier. *)
Definition otherData : Prom.TSDB :=
  [ {| TimeSeries.Labels := nameLabels "promkv_file_timestamp_seconds" "other";
       TimeSeries.Samples :=
         [ {| Sample.Value := FNum 1699999399000; Sample.Timestamp := 1699999399000 |} ] |};
    {| TimeSeries.Labels := nameLabels "promkv_file_size_bytes" "other";
       TimeSeries.Samples :=
         [ {| Sample.Value := FNum 1; Sample.Timestamp := 1699999399000 |} ] |};
    {| TimeSeries.Labels := nameLabels "promkv_file_content" "other";
       TimeSeries.Samples :=
         [ {| Sample.Value := FNum 97; Sample.Timestamp := 1699999399000 |} ] |} ].

(** An ingestion endpoint that answers every request with status 500 and
    the body "out of memory", and the store and world that talk to it. *)
Definition env500 : Env :=
  Prom.envWith (Prom.refuse "500 Internal Server Error" 500 "out of memory").

Definition kv500 : @KV env500 :=
  @New env500 (@Build_Options env500 "http://localhost:9090"
                              "http://localhost:9090/api/v1/write" None).

Definition world500 : @World env500 :=
  @Build_World env500 clock1700 O [] [].

(** A body of one line of 65537 bytes, without a line feed, and the
    endpoint, store and world that answer 500 with it. *)
Fixpoint doubled (k : nat) (s : string) : string :=
  match k with
  | O => s
  | S k' => doubled k' (s ++ s)
  end.

Definition longLine : string := String "a" (doubled 16 "a").

Definition envLongLine : Env :=
  Prom.envWith (Prom.refuse "500 Internal Server Error" 500 longLine).

Definition kvLongLine : @KV envLongLine :=
  @New envLongLine (@Build_Options envLongLine "http://localhost:9090"
                                   "http://localhost:9090/api/v1/write" None).

Definition worldLongLine : @World envLongLine :=
  @Build_World envLongLine clock1700 O [] [].

(** An answer with one point more than the two bytes written. *)
Definition hiStream : SampleStream.t :=
  {| SampleStream.Metric := nameLabels "promkv_file_content" "greeting";
     SampleStream.Values :=
       [ {| SamplePair.Timestamp := 1699999998000; SamplePair.Value := FNum 104 |};
         {| SamplePair.Timestamp := 1699999999000; SamplePair.Value := FNum 105 |};
         {| SamplePair.Timestamp := 1700000000000; SamplePair.Value := FNum 105 |} ] |}.

(** The world after "hi" was written under the key "greeting", and the
    answers of the backend to the size and start queries of a [Get] then. *)
Definition hiWorld : @World Prom.env :=
  snd (KV_Set Prom.kv "greeting" (bytes_NewReader hi) (Prom.world clock1700)).

Definition hiSizeVal : model_Value :=
  ValMatrix [ {| SampleStream.Metric := nameLabels "promkv_file_size_bytes" "greeting";
                 SampleStream.Values :=
                   [ {| SamplePair.Timestamp := 1700000000000;
                        SamplePair.Value := FNum 2 |} ] |} ].

Definition hiStartVal : model_Value :=
  ValMatrix [ {| SampleStream.Metric := nameLabels "promkv_file_timestamp_seconds" "greeting";
                 SampleStream.Values :=
                   [ {| SamplePair.Timestamp := 1700000000000;
                        SamplePair.Value := FNum 1699999998000 |} ] |} ].

(** A backend that holds, for the key "greeting", a size of three bytes
    and a start three seconds before 1700000000 s, but of the content only
    the sample of the third byte; the world that reads it at 1700000000 s,
    and the answers to the three queries of a [Get] then. *)
Definition shortData : Prom.TSDB :=
  [ {| TimeSeries.Labels := nameLabels "promkv_file_timestamp_seconds" "greeting";
       TimeSeries.Samples :=
         [ {| Sample.Value := FNum 1699999997000; Sample.Timestamp := 1699999997000 |} ] |};
    {| TimeSeries.Labels := nameLabels "promkv_file_size_bytes" "greeting";
       TimeSeries.Samples :=
         [ {| Sample.Value := FNum 3; Sample.Timestamp := 1699999997000 |} ] |};
    {| TimeSeries.Labels := nameLabels "promkv_file_content" "greeting";
       TimeSeries.Samples :=
         [ {| Sample.Value := FNum 97; Sample.Timestamp := 1699999999000 |} ] |} ].

Definition shortWorld : @World Prom.env := Prom.worldWith shortData clock1700.

Definition shortSizeVal : model_Value :=
  ValMatrix [ {| SampleStream.Metric := nameLabels "promkv_file_size_bytes" "greeting";
                 SampleStream.Values :=
                   [ {| SamplePair.Timestamp := 1700000000000;
                        SamplePair.Value := FNum 3 |} ] |} ].

Definition shortStartVal : model_Value :=
  ValMatrix [ {| SampleStream.Metric := nameLabels "promkv_file_timestamp_seconds" "greeting";
                 SampleStream.Values :=
                   [ {| SamplePair.Timestamp := 1700000000000;
                        SamplePair.Value := FNum 1699999997000 |} ] |} ].

Definition shortStream : SampleStream.t :=
  {| SampleStream.Metric := nameLabels "promkv_file_content" "greeting";
     SampleStream.Values :=
       [ {| SamplePair.Timestamp := 1699999999000; SamplePair.Value := FNum 97 |};
         {| SamplePair.Timestamp := 1700000000000; SamplePair.Value := FNum 97 |} ] |}.

(** ** Vocabulary of the statements *)

(** The series of a write request that a selector [metric{key="..."}]
    matches. *)
Definition seriesOf (metric key : string) (req : WriteRequest.t) : list TimeSeries.t :=
  filter (selects {| qMetric := metric; qKey := key |}) (WriteRequest.Timeseries req).

(** A count of seconds whose [Duration] fits [int64]:
    [time.Second * time.Duration(n)] does not wrap around. *)
Definition fitsDuration (n : nat) : Prop := Z.of_nat n * Second <= max_int64.

(** The reading [time.Now()] returns next, and the world once it was read. *)
Definition now {E : Env} (w : World) : Time := clock w (ticks w).

Definition tick {E : Env} (w : World) : World :=
  {| clock := clock w; ticks := S (ticks w); backend := backend w; trace := trace w |}.

(** The instant at which byte 0 is anchored: [now - len seconds]. *)
Definition startOf (t : Time) (len : nat) : Time :=
  Time_Add (UTC t) (int64_neg (int64_mul Second (Z.of_nat len))).

(** The sample of byte [b] at offset [i]. *)
Definition contentSample (start : Time) (i : nat) (b : Byte.byte) : Sample.t :=
  {| Sample.Value := float64_of_int (byte_to_Z b);
     Sample.Timestamp := FromTime (Time_Add start (int64_mul Second (Z.of_nat i))) |}.

Definition contentSamples (start : Time) (bb : list Byte.byte) : list Sample.t :=
  map (fun p => contentSample start (fst p) (snd p)) (combine (seq 0 (List.length bb)) bb).

(** What [buildWriteRequest] builds from the bytes [bb] at the instant [t]. *)
Definition requestAt (name : string) (bb : list Byte.byte) (t : Time) : WriteRequest.t :=
  let start := startOf t (List.length bb) in
  {| WriteRequest.Timeseries :=
       [ {| TimeSeries.Labels := nameLabels "promkv_file_timestamp_seconds" name;
            TimeSeries.Samples :=
              [ {| Sample.Value := float64_of_int (FromTime start);
                   Sample.Timestamp := FromTime start |} ] |};
         {| TimeSeries.Labels := nameLabels "promkv_file_size_bytes" name;
            TimeSeries.Samples :=
              [ {| Sample.Value := float64_of_int (Z.of_nat (List.length bb));
                   Sample.Timestamp := FromTime start |} ] |};
         {| TimeSeries.Labels := nameLabels "promkv_file_content" name;
            TimeSeries.Samples := contentSamples start bb |} ];
     WriteRequest.Metadata :=
       [ {| MetricMetadata.Type_ := GAUGE;
            MetricMetadata.MetricFamilyName := "promkv_file_timestamp_seconds";
            MetricMetadata.Help := "Last timestamp when file was written.";
            MetricMetadata.Unit := "seconds" |};
         {| MetricMetadata.Type_ := GAUGE;
            MetricMetadata.MetricFamilyName := "promkv_file_size_bytes";
            MetricMetadata.Help := "Size of file.";
            MetricMetadata.Unit := "bytes" |};
         {| MetricMetadata.Type_ := GAUGE;
            MetricMetadata.MetricFamilyName := "promkv_file_content";
            MetricMetadata.Help := "Content of file.";
            MetricMetadata.Unit := EmptyString |} ] |}.

(** The HTTP request [Set] sends: a POST of the compressed request with
    the four headers. *)
Definition postOf (url : string) (body : SnappyBlock) : Request.t :=
  {| Request.Method := "POST";
     Request.URL := url;
     Request.Header :=
       [ ("Content-Encoding", ["snappy"]);
         ("Content-Type", ["application/x-protobuf"]);
         ("User-Agent", ["promkv/v0.0.0"]);
         ("X-Prometheus-Remote-Write-Version", ["0.1.0"]) ]%string;
     Request.Body := body |}.

(** The client [Set] uses: the configured one, the default one without. *)
Definition clientOf {E : Env} (db : KV) : HTTPClient :=
  match Client (opts db) with
  | None => http_DefaultClient
  | Some c => c
  end.

(** The two kinds of range [Get] queries: the last hour up to now by
    steps of a minute, and the seconds of the value written. *)
Definition lookback (start end_ : Time) : Range.t :=
  {| Range.Start := Time_Add (UTC start) (- Hour);
     Range.End_ := UTC end_;
     Range.Step := Minute |}.

Definition dataRangeOf (timestampSeconds fileSizeBytes : float64) : Range.t :=
  {| Range.Start := timestamp_Time (int64_of_float64 timestampSeconds);
     Range.End_ :=
       Time_Add (timestamp_Time (int64_of_float64 timestampSeconds))
                (int64_mul Second (int64_of_float64 fileSizeBytes));
     Range.Step := Second |}.

Definition sizeQuery (name : string) : Query :=
  {| qMetric := "promkv_file_size_bytes"; qKey := name |}.
Definition startQuery (name : string) : Query :=
  {| qMetric := "promkv_file_timestamp_seconds"; qKey := name |}.
Definition contentQuery (name : string) : Query :=
  {| qMetric := "promkv_file_content"; qKey := name |}.

(** The world after [n] more readings of the clock and the network calls
    [evs], the backend as it was. *)
Definition advance {E : Env} (w : World) (n : nat) (evs : list IOEvent) : World :=
  {| clock := clock w; ticks := (n + ticks w)%nat;
     backend := backend w; trace := trace w ++ evs |}.

(** The three queries of a [Get] that starts in the world [w]; the range of
    the third one depends on the answers to the first two. *)
Definition sizeEvent {E : Env} (name : string) (w : World) : IOEvent :=
  EvQueryRange (sizeQuery name) (lookback (clock w (ticks w)) (clock w (1 + ticks w))).

Definition startEvent {E : Env} (name : string) (w : World) : IOEvent :=
  EvQueryRange (startQuery name)
               (lookback (clock w (2 + ticks w)) (clock w (3 + ticks w))).

Definition contentEvent (name : string) (timestampSeconds fileSizeBytes : float64)
  : IOEvent :=
  EvQueryRange (contentQuery name) (dataRangeOf timestampSeconds fileSizeBytes).

(** The sample [s] is the most recently stamped of the samples [ss]; a
    sample with the same stamp carries the same value. *)
Definition latestIn (ss : list Sample.t) (s : Sample.t) : Prop :=
  In s ss
  /\ (forall s', In s' ss -> Sample.Timestamp s' <= Sample.Timestamp s)
  /\ (forall s', In s' ss -> Sample.Timestamp s' = Sample.Timestamp s ->
                  Sample.Value s' = Sample.Value s).

(** The samples [ss] hold the content samples of the bytes [bb] written
    from [start] on, and no other value at the instants of these bytes. *)
Definition showsContent (ss : list Sample.t) (start : Time) (bb : list Byte.byte) : Prop :=
  (forall (i : nat) (b : Byte.byte),
      nth_error bb i = Some b -> In (contentSample start i b) ss)
  /\ (forall (s' : Sample.t) (j : nat) (b : Byte.byte),
         In s' ss -> nth_error bb j = Some b ->
         Sample.Timestamp s' = FromTime start + Z.of_nat j * 1000 ->
         Sample.Value s' = float64_of_int (byte_to_Z b)).

(** A look-back window whose clock readings are [first] and [second] sees
    the timestamp [ts]: it is at most sixty-five minutes before the first
    reading, and not after it. *)
Definition seenFrom (ts : Z) (first second : Time) : Prop :=
  first <= second /\ FromTime first - 3900000 < ts <= FromTime first.

(** The timestamp at which a write of [len] bytes at the instant [t]
    starts, when [len] seconds fit a [Duration]. *)
Definition startMillis (t : Time) (len : nat) : Z := FromTime t - Z.of_nat len * 1000.

Definition isSubstring (sub s : string) : Prop :=
  exists pre post : string, s = (pre ++ sub ++ post)%string.

(** The line [Set] puts in its error: the text of the first token of the
    scanner, nothing when there is none. *)
Definition diagnosticLine (body : BodyReader) : string :=
  match Scanner_Scan body with
  | Some text => text
  | None => EmptyString
  end.

(** The text holds no line feed. *)
Definition noLineFeed (s : string) : Prop :=
  forall a b : string, s <> (a ++ String LF b)%string.

(** [line] is [s] without the carriage return at its end, if it has one. *)
Definition withoutFinalCR (s line : string) : Prop :=
  s = (line ++ String CR EmptyString)%string
  \/ (s = line /\ forall a : string, s <> (a ++ String CR EmptyString)%string).

(** [line] is the first line of the body, and the scanner can hold it: the
    bytes before the first line feed, fewer than [MaxScanTokenSize] of
    them, or the whole body when it holds no line feed and is shorter than
    [MaxScanTokenSize] bytes (or just as long, its end reported with its
    last bytes); in each case without a carriage return at its end. *)
Definition firstLineOf (body : BodyReader) (line : string) : Prop :=
  exists s : string,
    noLineFeed s
    /\ withoutFinalCR s line
    /\ ((exists rest : string,
            delivered body = (s ++ String LF rest)%string
            /\ Z.of_nat (String.length s) < MaxScanTokenSize)
        \/ (delivered body = s
            /\ (Z.of_nat (String.length s) < MaxScanTokenSize
                \/ (Z.of_nat (String.length s) = MaxScanTokenSize
                    /\ endsWithData body = true)))).

(** The first line of the body is too long for the scanner: the first
    [MaxScanTokenSize] bytes hold no line feed, and either more bytes follow
    or the end of the body is reported by a read of its own. *)
Definition firstLineTooLong (body : BodyReader) : Prop :=
  exists s rest : string,
    delivered body = (s ++ rest)%string
    /\ Z.of_nat (String.length s) = MaxScanTokenSize
    /\ noLineFeed s
    /\ (rest <> EmptyString \/ endsWithData body = false).

Definition is2xx (code : Z) : Prop := 200 <= code <= 299.

(** * Properties *)

(** ** Integers, floats and instants *)

Lemma wrap64_small (z : Z) : min_int64 <= z <= max_int64 -> wrap64 z = z.
Proof.
  unfold wrap64, min_int64, max_int64. intros H.
  rewrite Z.mod_small; lia.
Qed.

Lemma round53_small (z : Z) : Z.abs z < 2 ^ 53 -> round53 z = z.
Proof.
  intros H. unfold round53.
  destruct (Z.ltb_spec (Z.abs z) (2 ^ 53)); [reflexivity | lia].
Qed.

Lemma float64_of_int_exact (z : Z) :
  Z.abs z < 2 ^ 53 -> float64_of_int z = FNum (inject_Z z).
Proof. intros H. unfold float64_of_int. now rewrite round53_small. Qed.

Lemma truncQ_inject_Z (z : Z) : truncQ (inject_Z z) = z.
Proof. unfold truncQ, inject_Z. simpl. apply Z.quot_1_r. Qed.

Lemma byte_to_Z_range (b : Byte.byte) : 0 <= byte_to_Z b <= 255.
Proof.
  unfold byte_to_Z. pose proof (Byte.to_N_bounded b). lia.
Qed.

Lemma byte_of_to_Z (b : Byte.byte) : byte_of_Z (byte_to_Z b) = b.
Proof.
  pose proof (byte_to_Z_range b) as H.
  unfold byte_of_Z. rewrite Z.mod_small by lia.
  unfold byte_to_Z. rewrite N2Z.id, Byte.of_to_N. reflexivity.
Qed.

(** A byte survives [byte(float64(b))]. *)
Lemma uint8_of_float64_of_byte (b : Byte.byte) :
  uint8_of_float64 (float64_of_int (byte_to_Z b)) = b.
Proof.
  pose proof (byte_to_Z_range b) as H.
  rewrite float64_of_int_exact by lia.
  unfold uint8_of_float64, int32_of_float64. rewrite truncQ_inject_Z.
  unfold min_int32, max_int32.
  destruct (Z.leb_spec (- 2 ^ 31) (byte_to_Z b)); [|lia].
  destruct (Z.leb_spec (byte_to_Z b) (2 ^ 31 - 1)); [|lia].
  simpl. apply byte_of_to_Z.
Qed.

Lemma int64_of_float64_of_int (z : Z) :
  Z.abs z < 2 ^ 53 -> int64_of_float64 (float64_of_int z) = z.
Proof.
  intros H. rewrite float64_of_int_exact by exact H.
  unfold int64_of_float64. rewrite truncQ_inject_Z.
  unfold min_int64, max_int64.
  destruct (Z.leb_spec (- 2 ^ 63) z); [|lia].
  destruct (Z.leb_spec z (2 ^ 63 - 1)); [|lia].
  reflexivity.
Qed.

Lemma FromTime_millis (t : Time) : FromTime t = t / Millisecond.
Proof.
  unfold FromTime, Time_Unix, Time_Nanosecond, int_div, Second, Millisecond.
  replace (1000 * 1000000) with 1000000000 by reflexivity.
  pose proof (Z.mod_pos_bound t 1000000000 ltac:(lia)) as Hm.
  rewrite Z.quot_div_nonneg by lia.
  pose proof (Z.div_mod t 1000000000 ltac:(lia)) as Hd.
  rewrite Hd at 3.
  replace (1000000000 * (t / 1000000000) + t mod 1000000000)
    with (t mod 1000000000 + (t / 1000000000 * 1000) * 1000000) by lia.
  rewrite Z.div_add by lia. lia.
Qed.

(** Moving an instant by whole seconds moves its timestamp by as many
    thousands of milliseconds. *)
Lemma FromTime_add_seconds (t : Time) (k : Z) :
  FromTime (Time_Add t (k * Second)) = FromTime t + k * 1000.
Proof.
  rewrite !FromTime_millis. unfold Time_Add, Second, Millisecond.
  replace (t + k * (1000 * 1000000)) with (t + (k * 1000) * 1000000) by lia.
  rewrite Z.div_add by lia. reflexivity.
Qed.

Lemma fitsDuration_mul (n : nat) :
  fitsDuration n -> int64_mul Second (Z.of_nat n) = Z.of_nat n * Second.
Proof.
  unfold fitsDuration, int64_mul. intros H.
  rewrite wrap64_small; [lia|].
  unfold min_int64, Second, Millisecond in *. lia.
Qed.

Lemma fitsDuration_le (n m : nat) : (n <= m)%nat -> fitsDuration m -> fitsDuration n.
Proof. unfold fitsDuration, Second, Millisecond. lia. Qed.

Lemma startOf_fits (t : Time) (len : nat) :
  fitsDuration len -> startOf t len = Time_Add t (- Z.of_nat len * Second).
Proof.
  intros H. unfold startOf, UTC. rewrite fitsDuration_mul by exact H.
  unfold int64_neg. rewrite wrap64_small; [f_equal; lia|].
  unfold fitsDuration, min_int64, max_int64, Second, Millisecond in *. lia.
Qed.

(** ** The loop over the bytes *)

Lemma nth_error_combine_seq {A : Type} (l : list A) (i0 i : nat) (x : A) :
  nth_error l i = Some x ->
  nth_error (combine (seq i0 (List.length l)) l) i = Some ((i0 + i)%nat, x).
Proof.
  revert i0 i. induction l as [|y l IH]; intros i0 i H.
  - destruct i; discriminate.
  - destruct i as [|i]; simpl in *.
    + inversion H. subst. now rewrite Nat.add_0_r.
    + rewrite (IH (S i0) i H). f_equal. f_equal. lia.
Qed.

Lemma length_combine_seq {A : Type} (l : list A) (i0 : nat) :
  List.length (combine (seq i0 (List.length l)) l) = List.length l.
Proof.
  rewrite length_combine, length_seq. apply Nat.min_id.
Qed.

Section Builder.
Context {E : Env}.

(** The loop appends, in order, one sample per byte. *)
Lemma range_loop_content (start : Time) (bb : list Byte.byte) :
  forall (i0 : nat) (cs : TimeSeries.t),
    range_loop i0 bb
      (fun i b cs =>
         let offset := int64_mul Second (Z.of_nat i) in
         {| TimeSeries.Labels := TimeSeries.Labels cs;
            TimeSeries.Samples :=
              TimeSeries.Samples cs ++
              [ {| Sample.Value := float64_of_int (byte_to_Z b);
                   Sample.Timestamp := FromTime (Time_Add start offset) |} ] |})
      cs
    = {| TimeSeries.Labels := TimeSeries.Labels cs;
         TimeSeries.Samples :=
           TimeSeries.Samples cs ++
           map (fun p => contentSample start (fst p) (snd p))
               (combine (seq i0 (List.length bb)) bb) |}.
Proof.
  induction bb as [|b bb IH]; intros i0 cs; simpl.
  - rewrite app_nil_r. now destruct cs.
  - rewrite IH. simpl. rewrite <- app_assoc. reflexivity.
Qed.

Lemma buildWriteRequest_reads (name : string) (r : Reader) (w : World) :
  buildWriteRequest name r w =
  match rdErr r with
  | Some e => (Done (None, Some e), w)
  | None => (Done (Some (requestAt name (rdBytes r) (now w)), None), tick w)
  end.
Proof.
  unfold buildWriteRequest, io_ReadAll.
  destruct (rdErr r) as [e|]; [reflexivity|].
  unfold bind, time_Now, ret, requestAt, now, tick, startOf, contentSamples.
  rewrite range_loop_content. reflexivity.
Qed.

Lemma buildWriteRequest_bytes (name : string) (bb : list Byte.byte) (w : World) :
  buildWriteRequest name (bytes_NewReader bb) w =
  (Done (Some (requestAt name bb (now w)), None), tick w).
Proof. now rewrite buildWriteRequest_reads. Qed.

Lemma seriesOf_requestAt (name : string) (bb : list Byte.byte) (t : Time) :
  seriesOf "promkv_file_timestamp_seconds" name (requestAt name bb t)
    = [ nth 0 (WriteRequest.Timeseries (requestAt name bb t))
            {| TimeSeries.Labels := []; TimeSeries.Samples := [] |} ]
  /\ seriesOf "promkv_file_size_bytes" name (requestAt name bb t)
    = [ nth 1 (WriteRequest.Timeseries (requestAt name bb t))
            {| TimeSeries.Labels := []; TimeSeries.Samples := [] |} ]
  /\ seriesOf "promkv_file_content" name (requestAt name bb t)
    = [ nth 2 (WriteRequest.Timeseries (requestAt name bb t))
            {| TimeSeries.Labels := []; TimeSeries.Samples := [] |} ].
Proof.
  unfold seriesOf, requestAt, selects, hasLabel, nameLabels. cbn -[String.eqb contentSamples startOf float64_of_int FromTime].
  rewrite !String.eqb_refl.
  repeat split; reflexivity.
Qed.

End Builder.

(** ** The write request *)

Section WriteRequestProperties.
Context {E : Env}.

Lemma contentSamples_length (start : Time) (bb : list Byte.byte) :
  List.length (contentSamples start bb) = List.length bb.
Proof. unfold contentSamples. now rewrite length_map, length_combine_seq. Qed.

Lemma contentSamples_nth (start : Time) (bb : list Byte.byte) (i : nat) (b : Byte.byte) :
  nth_error bb i = Some b ->
  nth_error (contentSamples start bb) i = Some (contentSample start i b).
Proof.
  intros H. unfold contentSamples.
  rewrite nth_error_map, (nth_error_combine_seq bb 0 i b H). reflexivity.
Qed.

Lemma contentSample_timestamp (start : Time) (i : nat) (b : Byte.byte) :
  fitsDuration i ->
  Sample.Timestamp (contentSample start i b) = FromTime start + Z.of_nat i * 1000.
Proof.
  intros H. unfold contentSample. simpl.
  rewrite fitsDuration_mul by exact H. apply FromTime_add_seconds.
Qed.

Lemma fitsDuration_0 : fitsDuration 0.
Proof. unfold fitsDuration, max_int64. simpl. lia. Qed.

(** C3: for every key and every buffer, the write request holds exactly one
    series for each of the three metrics of the key; the size series has
    exactly one sample, whose value is the length of the buffer, the start
    series has exactly one sample, and the content series has exactly as
    many samples as the buffer has bytes. *)
Theorem buildWriteRequest_sample_counts (name : string) (bb : list Byte.byte) (w : World) :
  exists (req : WriteRequest.t) (sizeS startS contentS : TimeSeries.t)
         (sizeSample startSample : Sample.t),
    fst (buildWriteRequest name (bytes_NewReader bb) w) = Done (Some req, None)
    /\ seriesOf "promkv_file_size_bytes" name req = [sizeS]
    /\ TimeSeries.Samples sizeS = [sizeSample]
    /\ Sample.Value sizeSample = float64_of_int (Z.of_nat (List.length bb))
    /\ (Z.of_nat (List.length bb) < 2 ^ 53 ->
        Sample.Value sizeSample = FNum (inject_Z (Z.of_nat (List.length bb))))
    /\ seriesOf "promkv_file_timestamp_seconds" name req = [startS]
    /\ TimeSeries.Samples startS = [startSample]
    /\ seriesOf "promkv_file_content" name req = [contentS]
    /\ List.length (TimeSeries.Samples contentS) = List.length bb.
Proof.
  rewrite buildWriteRequest_bytes.
  destruct (seriesOf_requestAt name bb (now w)) as (Hstart & Hsize & Hcontent).
  eexists _, _, _, _, _, _.
  split; [reflexivity|].
  split; [exact Hsize|].
  split; [reflexivity|].
  split; [reflexivity|].
  split; [intros Hlt; apply float64_of_int_exact; lia|].
  split; [exact Hstart|].
  split; [reflexivity|].
  split; [exact Hcontent|].
  simpl. apply contentSamples_length.
Qed.

(** C9: for every key and every buffer, the empty one included, the write
    request holds exactly three series, in the order start, size, content,
    each labelled with its metric name and the key; the content series is
    there even without samples; and the metadata are exactly three
    descriptors, one per metric, all gauges. *)
Theorem buildWriteRequest_three_series (name : string) (bb : list Byte.byte) (w : World) :
  exists (startS sizeS contentS : TimeSeries.t) (m1 m2 m3 : MetricMetadata.t),
    fst (buildWriteRequest name (bytes_NewReader bb) w)
      = Done (Some {| WriteRequest.Timeseries := [startS; sizeS; contentS];
                      WriteRequest.Metadata := [m1; m2; m3] |}, None)
    /\ TimeSeries.Labels startS
       = [ {| Label.Name := "__name__"; Label.Value := "promkv_file_timestamp_seconds" |};
           {| Label.Name := "key"; Label.Value := name |} ]
    /\ TimeSeries.Labels sizeS
       = [ {| Label.Name := "__name__"; Label.Value := "promkv_file_size_bytes" |};
           {| Label.Name := "key"; Label.Value := name |} ]
    /\ TimeSeries.Labels contentS
       = [ {| Label.Name := "__name__"; Label.Value := "promkv_file_content" |};
           {| Label.Name := "key"; Label.Value := name |} ]
    /\ (bb = [] -> TimeSeries.Samples contentS = [])
    /\ map MetricMetadata.MetricFamilyName [m1; m2; m3]
       = [ "promkv_file_timestamp_seconds"; "promkv_file_size_bytes";
           "promkv_file_content" ]%string
    /\ map MetricMetadata.Type_ [m1; m2; m3] = [GAUGE; GAUGE; GAUGE].
Proof.
  rewrite buildWriteRequest_bytes. unfold requestAt.
  eexists _, _, _, _, _, _.
  split; [reflexivity|].
  repeat split.
  intros ->. reflexivity.
Qed.

(** C10: [buildWriteRequest] returns an error exactly when reading the
    input fails, and the error is the reader's; with an error the request
    is nil, without one it is not; and on an in-memory byte source it
    always succeeds.  It never panics. *)
Theorem buildWriteRequest_fails_iff_read_fails :
  (forall (name : string) (r : Reader) (w : World),
      exists (req : option WriteRequest.t) (err : option error),
        fst (buildWriteRequest name r w) = Done (req, err)
        /\ err = rdErr r
        /\ (err <> None <-> rdErr r <> None)
        /\ (err <> None -> req = None)
        /\ (err = None -> req <> None))
  /\ (forall (name : string) (bb : list Byte.byte) (w : World),
         exists req : WriteRequest.t,
           fst (buildWriteRequest name (bytes_NewReader bb) w) = Done (Some req, None)).
Proof.
  split.
  - intros name r w. rewrite buildWriteRequest_reads.
    destruct (rdErr r) as [e|]; simpl.
    + exists None, (Some e). repeat split; congruence.
    + eexists (Some _), None. repeat split; congruence.
  - intros name bb w. rewrite buildWriteRequest_bytes. eexists. reflexivity.
Qed.

(** C8: the request built depends on the key, the input and the instant
    the clock shows, and on nothing else: two runs that read the same
    instant return the same result, whatever the rest of the world is; and
    a run performs no network call and leaves the backend as it was. *)
Theorem buildWriteRequest_deterministic (name : string) (r : Reader) (w1 w2 : World) :
  now w1 = now w2 ->
  fst (buildWriteRequest name r w1) = fst (buildWriteRequest name r w2)
  /\ trace (snd (buildWriteRequest name r w1)) = trace w1
  /\ backend (snd (buildWriteRequest name r w1)) = backend w1
  /\ clock (snd (buildWriteRequest name r w1)) = clock w1.
Proof.
  intros Hnow. rewrite !buildWriteRequest_reads.
  destruct (rdErr r) as [e|]; simpl.
  - repeat split.
  - rewrite Hnow. repeat split.
Qed.

(** C2: for every buffer and every index [i] into it, sample [i] of the
    content series has the unsigned value of byte [i], a number between 0
    and 255, and a timestamp [i] seconds (timestamps count milliseconds)
    after that of content sample 0, which is the instant the value of the
    start series encodes.  The index is one whose [Duration] in seconds
    does not overflow. *)
Theorem content_sample_value_and_spacing
  (name : string) (bb : list Byte.byte) (w : World) (i : nat) (b : Byte.byte) :
  nth_error bb i = Some b ->
  fitsDuration i ->
  exists (req : WriteRequest.t) (contentS startS : TimeSeries.t)
         (sample0 sample_i startSample : Sample.t),
    fst (buildWriteRequest name (bytes_NewReader bb) w) = Done (Some req, None)
    /\ seriesOf "promkv_file_content" name req = [contentS]
    /\ nth_error (TimeSeries.Samples contentS) 0 = Some sample0
    /\ nth_error (TimeSeries.Samples contentS) i = Some sample_i
    /\ Sample.Value sample_i = FNum (inject_Z (byte_to_Z b))
    /\ 0 <= byte_to_Z b <= 255
    /\ Sample.Timestamp sample_i = Sample.Timestamp sample0 + Z.of_nat i * 1000
    /\ seriesOf "promkv_file_timestamp_seconds" name req = [startS]
    /\ TimeSeries.Samples startS = [startSample]
    /\ Sample.Value startSample = float64_of_int (Sample.Timestamp sample0).
Proof.
  intros Hb Hfit.
  rewrite buildWriteRequest_bytes.
  destruct (seriesOf_requestAt name bb (now w)) as (Hstart & _ & Hcontent).
  destruct bb as [|b0 bb']; [destruct i; discriminate|].
  set (bb := b0 :: bb') in *.
  set (start := startOf (now w) (List.length bb)).
  exists (requestAt name bb (now w)).
  eexists _, _.
  exists (contentSample start 0 b0), (contentSample start i b).
  eexists.
  split; [reflexivity|].
  split; [exact Hcontent|].
  split; [reflexivity|].
  split; [apply (contentSamples_nth start bb i b Hb)|].
  split.
  { simpl. apply float64_of_int_exact. pose proof (byte_to_Z_range b). lia. }
  split; [apply byte_to_Z_range|].
  split.
  { rewrite !contentSample_timestamp by (exact Hfit || exact fitsDuration_0). lia. }
  split; [exact Hstart|].
  split; [reflexivity|].
  simpl. f_equal.
  fold start.
  change (FromTime start = Sample.Timestamp (contentSample start 0 b0)).
  rewrite contentSample_timestamp by exact fitsDuration_0. lia.
Qed.

End WriteRequestProperties.

(** ** Where the samples are anchored in time *)

Section Anchoring.
Context {E : Env}.

(** The start instant of a write is [len] seconds before the clock's
    reading, in milliseconds. *)
Lemma FromTime_startOf (t : Time) (len : nat) :
  fitsDuration len ->
  FromTime (startOf t len) = FromTime t - Z.of_nat len * 1000.
Proof.
  intros H. rewrite startOf_fits by exact H.
  rewrite FromTime_add_seconds. lia.
Qed.

(** C4, as the code has it: the one sample of the size series and the one
    sample of the start series carry the timestamp of the start instant,
    [len(B)] seconds before the clock's reading (the reading itself only for
    the empty buffer), and content sample [i] carries the timestamp
    [len(B) - i] seconds before the reading.  The length is one whose
    [Duration] in seconds does not overflow. *)
Theorem metadata_samples_stamped_at_start (name : string) (bb : list Byte.byte) (w : World) :
  fitsDuration (List.length bb) ->
  exists (req : WriteRequest.t) (sizeS startS contentS : TimeSeries.t)
         (sizeSample startSample : Sample.t),
    fst (buildWriteRequest name (bytes_NewReader bb) w) = Done (Some req, None)
    /\ seriesOf "promkv_file_size_bytes" name req = [sizeS]
    /\ TimeSeries.Samples sizeS = [sizeSample]
    /\ Sample.Timestamp sizeSample = FromTime (now w) - Z.of_nat (List.length bb) * 1000
    /\ seriesOf "promkv_file_timestamp_seconds" name req = [startS]
    /\ TimeSeries.Samples startS = [startSample]
    /\ Sample.Timestamp startSample = FromTime (now w) - Z.of_nat (List.length bb) * 1000
    /\ seriesOf "promkv_file_content" name req = [contentS]
    /\ (forall (i : nat) (s : Sample.t),
           nth_error (TimeSeries.Samples contentS) i = Some s ->
           Sample.Timestamp s
           = FromTime (now w) - (Z.of_nat (List.length bb) - Z.of_nat i) * 1000).
Proof.
  intros Hfit.
  rewrite buildWriteRequest_bytes.
  destruct (seriesOf_requestAt name bb (now w)) as (Hstart & Hsize & Hcontent).
  eexists _, _, _, _, _, _.
  split; [reflexivity|].
  split; [exact Hsize|].
  split; [reflexivity|].
  split; [simpl; apply FromTime_startOf, Hfit|].
  split; [exact Hstart|].
  split; [reflexivity|].
  split; [simpl; apply FromTime_startOf, Hfit|].
  split; [exact Hcontent|].
  simpl. intros i s Hs.
  assert (Hi : (i < List.length bb)%nat).
  { rewrite <- (contentSamples_length (startOf (now w) (List.length bb))).
    apply nth_error_Some. congruence. }
  destruct (nth_error bb i) as [b|] eqn:Hb;
    [|apply nth_error_None in Hb; lia].
  rewrite (contentSamples_nth _ bb i b Hb) in Hs.
  inversion Hs; subst s.
  rewrite contentSample_timestamp
    by (apply (fitsDuration_le i (List.length bb)); [lia | exact Hfit]).
  rewrite FromTime_startOf by exact Hfit. lia.
Qed.

End Anchoring.

(** ** Runs on concrete inputs *)

(** C4 as stated fails: writing the two bytes "hi" when the clock shows
    1700000000 s stamps the size sample 1699999998000 ms, two seconds before
    the clock's reading. *)
Lemma size_sample_not_stamped_now :
  exists (req : WriteRequest.t) (sizeS : TimeSeries.t) (sizeSample : Sample.t),
    fst (buildWriteRequest "greeting" (bytes_NewReader hi) (Prom.world clock1700))
      = Done (Some req, None)
    /\ seriesOf "promkv_file_size_bytes" "greeting" req = [sizeS]
    /\ TimeSeries.Samples sizeS = [sizeSample]
    /\ Sample.Timestamp sizeSample = 1699999998000
    /\ FromTime (now (Prom.world clock1700)) = 1700000000000
    /\ Sample.Timestamp sizeSample <> FromTime (now (Prom.world clock1700)).
Proof.
  eexists _, _, _.
  split; [vm_compute; reflexivity|].
  split; [vm_compute; reflexivity|].
  split; [reflexivity|].
  split; [reflexivity|].
  split; [reflexivity|].
  vm_compute. discriminate.
Qed.

(** The statement above on the two bytes "hi", the clock at 1700000000 s. *)
Lemma metadata_samples_stamped_at_start_witness :
  fitsDuration (List.length hi)
  /\ exists (req : WriteRequest.t) (sizeS startS contentS : TimeSeries.t)
            (sizeSample startSample : Sample.t),
      fst (buildWriteRequest "greeting" (bytes_NewReader hi) (Prom.world clock1700))
        = Done (Some req, None)
      /\ seriesOf "promkv_file_size_bytes" "greeting" req = [sizeS]
      /\ TimeSeries.Samples sizeS = [sizeSample]
      /\ Sample.Timestamp sizeSample
         = FromTime (now (Prom.world clock1700)) - Z.of_nat (List.length hi) * 1000
      /\ seriesOf "promkv_file_timestamp_seconds" "greeting" req = [startS]
      /\ TimeSeries.Samples startS = [startSample]
      /\ Sample.Timestamp startSample
         = FromTime (now (Prom.world clock1700)) - Z.of_nat (List.length hi) * 1000
      /\ seriesOf "promkv_file_content" "greeting" req = [contentS]
      /\ (forall (i : nat) (s : Sample.t),
             nth_error (TimeSeries.Samples contentS) i = Some s ->
             Sample.Timestamp s
             = FromTime (now (Prom.world clock1700))
               - (Z.of_nat (List.length hi) - Z.of_nat i) * 1000).
Proof.
  assert (Hfit : fitsDuration (List.length hi)) by (vm_compute; discriminate).
  split; [exact Hfit|].
  exact (metadata_samples_stamped_at_start "greeting" hi (Prom.world clock1700) Hfit).
Defined.

(** The second byte of "hi": the value 105, one second after the first. *)
Lemma content_sample_value_and_spacing_witness :
  nth_error hi 1 = Some Byte.x69
  /\ fitsDuration 1
  /\ exists (req : WriteRequest.t) (contentS startS : TimeSeries.t)
            (sample0 sample_i startSample : Sample.t),
      fst (buildWriteRequest "greeting" (bytes_NewReader hi) (Prom.world clock1700))
        = Done (Some req, None)
      /\ seriesOf "promkv_file_content" "greeting" req = [contentS]
      /\ nth_error (TimeSeries.Samples contentS) 0 = Some sample0
      /\ nth_error (TimeSeries.Samples contentS) 1 = Some sample_i
      /\ Sample.Value sample_i = FNum (inject_Z (byte_to_Z Byte.x69))
      /\ 0 <= byte_to_Z Byte.x69 <= 255
      /\ Sample.Timestamp sample_i = Sample.Timestamp sample0 + Z.of_nat 1 * 1000
      /\ seriesOf "promkv_file_timestamp_seconds" "greeting" req = [startS]
      /\ TimeSeries.Samples startS = [startSample]
      /\ Sample.Value startSample = float64_of_int (Sample.Timestamp sample0).
Proof.
  assert (Hb : nth_error hi 1 = Some Byte.x69) by reflexivity.
  assert (Hfit : fitsDuration 1) by (vm_compute; discriminate).
  split; [exact Hb|]. split; [exact Hfit|].
  exact (content_sample_value_and_spacing "greeting" hi (Prom.world clock1700) 1 Byte.x69
           Hb Hfit).
Defined.

(** Two worlds with different backends, traces and clocks, read at the
    same instant. *)
Lemma buildWriteRequest_deterministic_witness :
  now worldA = now worldB
  /\ fst (buildWriteRequest "greeting" (bytes_NewReader hi) worldA)
     = fst (buildWriteRequest "greeting" (bytes_NewReader hi) worldB)
  /\ trace (snd (buildWriteRequest "greeting" (bytes_NewReader hi) worldA)) = trace worldA
  /\ backend (snd (buildWriteRequest "greeting" (bytes_NewReader hi) worldA)) = backend worldA
  /\ clock (snd (buildWriteRequest "greeting" (bytes_NewReader hi) worldA)) = clock worldA.
Proof.
  assert (Hnow : now worldA = now worldB) by reflexivity.
  split; [exact Hnow|].
  exact (buildWriteRequest_deterministic "greeting" (bytes_NewReader hi) worldA worldB Hnow).
Defined.

(** C5 on a run: writing "hi" when the clock shows 1700000000 s anchors
    byte 0 at 1699999998 seconds since the epoch; the value of the sample of
    [promkv_file_timestamp_seconds], whose unit is declared as seconds, is
    1699999998000, the same instant counted in milliseconds. *)
Lemma start_series_value_is_milliseconds :
  exists (req : WriteRequest.t) (startS : TimeSeries.t) (startSample : Sample.t)
         (m : MetricMetadata.t),
    fst (buildWriteRequest "greeting" (bytes_NewReader hi) (Prom.world clock1700))
      = Done (Some req, None)
    /\ seriesOf "promkv_file_timestamp_seconds" "greeting" req = [startS]
    /\ TimeSeries.Samples startS = [startSample]
    /\ Time_Unix (startOf (now (Prom.world clock1700)) (List.length hi)) = 1699999998
    /\ Sample.Value startSample = FNum (inject_Z 1699999998000)
    /\ nth_error (WriteRequest.Metadata req) 0 = Some m
    /\ MetricMetadata.MetricFamilyName m = "promkv_file_timestamp_seconds"%string
    /\ MetricMetadata.Unit m = "seconds"%string.
Proof.
  eexists _, _, _, _.
  split; [vm_compute; reflexivity|].
  repeat split.
Qed.

(** ** The answer of the ingestion endpoint *)

Lemma append_assoc (a b c : string) : ((a ++ b) ++ c = a ++ (b ++ c))%string.
Proof. induction a as [|x a IH]; simpl; [reflexivity | now rewrite IH]. Qed.

Lemma append_empty_r (a : string) : (a ++ EmptyString = a)%string.
Proof. induction a as [|x a IH]; simpl; [reflexivity | now rewrite IH]. Qed.

(** [code/100 != 2] is the negation of "the code is between 200 and 299". *)
Lemma status_class_2xx (code : Z) : int_div code 100 = 2 <-> is2xx code.
Proof.
  unfold int_div, is2xx.
  Z.to_euclidean_division_equations. lia.
Qed.

(** *** The first token of the scanner *)

Lemma length_append (a b : string) :
  String.length (a ++ b) = (String.length a + String.length b)%nat.
Proof. induction a as [|x a IH]; simpl; [reflexivity | now rewrite IH]. Qed.

Lemma append_not_empty (a : string) (c : ascii) (b : string) :
  (a ++ String c b)%string <> EmptyString.
Proof. destruct a; discriminate. Qed.

Lemma hasLF_false (s : string) : hasLF s = false -> noLineFeed s.
Proof.
  intros H a. revert s H.
  induction a as [|x a IH]; intros s H b Heq; subst s.
  - simpl in H. try rewrite Ascii.eqb_refl in H. discriminate.
  - simpl in H. destruct (Ascii.eqb x LF); [discriminate|].
    exact (IH _ H b eq_refl).
Qed.

Lemma untilLF_noLF (s : string) : hasLF (untilLF s) = false.
Proof.
  induction s as [|c s IH]; [reflexivity|].
  simpl. destruct (Ascii.eqb c LF) eqn:Hc; [reflexivity|].
  simpl. now rewrite Hc.
Qed.

Lemma untilLF_split (s : string) :
  hasLF s = true -> exists rest : string, s = (untilLF s ++ String LF rest)%string.
Proof.
  induction s as [|c s IH]; [discriminate|].
  simpl. destruct (Ascii.eqb_spec c LF) as [->|Hc].
  - intros _. now exists s.
  - intros H. destruct (IH H) as (rest & Heq). exists rest. simpl. now rewrite <- Heq.
Qed.

Lemma buffered_split (n : Z) (s : string) :
  0 <= n ->
  exists rest : string,
    s = (buffered n s ++ rest)%string
    /\ Z.of_nat (String.length (buffered n s)) = Z.min n (Z.of_nat (String.length s)).
Proof.
  revert n. induction s as [|c s IH]; intros n Hn.
  - exists EmptyString. split; [reflexivity|]. simpl. lia.
  - simpl. destruct (Z.leb_spec n 0) as [H0|H0].
    + exists (String c s). split; [reflexivity|]. simpl. lia.
    + destruct (IH (n - 1)) as (rest & Heq & Hlen); [lia|].
      exists rest. split; [simpl; now rewrite <- Heq|].
      simpl String.length. lia.
Qed.

Lemma dropCR_spec (s : string) : withoutFinalCR s (dropCR s).
Proof.
  induction s as [|c s IH].
  - right. split; [reflexivity|]. intros a H. symmetry in H.
    exact (append_not_empty _ _ _ H).
  - destruct s as [|d s].
    + simpl. destruct (Ascii.eqb_spec c CR) as [->|Hc].
      * left. reflexivity.
      * right. split; [reflexivity|]. intros [|x a] H; simpl in H.
        -- inversion H. contradiction.
        -- inversion H as [[Hx Ha]]. exact (append_not_empty _ _ _ (eq_sym Ha)).
    + change (dropCR (String c (String d s))) with (String c (dropCR (String d s))).
      destruct IH as [IH|(IH & Hno)].
      * left. cbn [append]. f_equal. exact IH.
      * right. split; [f_equal; exact IH|].
        intros [|x a] H; simpl in H.
        -- discriminate.
        -- inversion H as [[Hx Ha]]. exact (Hno a Ha).
Qed.

Lemma MaxScanTokenSize_pos : 0 < MaxScanTokenSize.
Proof. reflexivity. Qed.

(** The line [Set] reads is the first line of the body when the scanner
    can hold it, and empty otherwise. *)
Lemma diagnosticLine_spec (body : BodyReader) :
  firstLineOf body (diagnosticLine body)
  \/ (firstLineTooLong body /\ diagnosticLine body = EmptyString).
Proof.
  pose proof MaxScanTokenSize_pos as Hpos.
  unfold diagnosticLine, Scanner_Scan, firstLineOf, firstLineTooLong.
  destruct body as [data ends]. cbn [delivered endsWithData].
  generalize dependent MaxScanTokenSize. intros n Hpos.
  destruct (buffered_split n data ltac:(lia)) as (rest & Hsplit & Hlen).
  assert (Hwhole : Z.of_nat (String.length data) <= n -> buffered n data = data).
  { intros Hle. rewrite Hsplit at 2.
    assert (Hr : String.length rest = O).
    { apply (f_equal String.length) in Hsplit. rewrite length_append in Hsplit. lia. }
    destruct rest; [|discriminate]. now rewrite append_empty_r. }
  destruct (hasLF (buffered n data)) eqn:Hlf.
  - left. exists (untilLF (buffered n data)).
    split; [apply hasLF_false, untilLF_noLF|]. split; [apply dropCR_spec|].
    left. destruct (untilLF_split _ Hlf) as (r & Hr).
    exists (r ++ rest)%string. split.
    + rewrite Hsplit at 1. rewrite Hr at 1. rewrite append_assoc. reflexivity.
    + apply (f_equal String.length) in Hr. rewrite length_append in Hr.
      simpl String.length in Hr. lia.
  - destruct (Z.ltb_spec (Z.of_nat (String.length data)) n) as [Hshort|Hlong].
    + left. exists data. rewrite Hwhole in Hlf by lia.
      split; [now apply hasLF_false|]. split.
      * destruct data; [|apply dropCR_spec].
        right. split; [reflexivity|]. intros a H.
        exact (append_not_empty _ _ _ (eq_sym H)).
      * right. split; [reflexivity|]. left. exact Hshort.
    + destruct (Z.eqb_spec (Z.of_nat (String.length data)) n) as [Heq|Hne];
        [destruct ends|]; cbn [andb].
      * left. exists data. rewrite Hwhole in Hlf by lia.
        split; [now apply hasLF_false|]. split; [apply dropCR_spec|].
        right. split; [reflexivity|]. right. split; [exact Heq|reflexivity].
      * right. split; [|reflexivity].
        exists (buffered n data), rest.
        split; [exact Hsplit|]. split; [lia|]. split; [now apply hasLF_false|].
        now right.
      * right. split; [|reflexivity].
        exists (buffered n data), rest.
        split; [exact Hsplit|]. split; [lia|]. split; [now apply hasLF_false|].
        left. intros ->. rewrite append_empty_r in Hsplit.
        rewrite <- Hsplit in Hlen. lia.
Qed.

(** A body has one first line at most. *)
Lemma noLineFeed_tail (c : ascii) (s : string) : noLineFeed (String c s) -> noLineFeed s.
Proof. intros H a b Heq. apply (H (String c a) b). simpl. now rewrite Heq. Qed.

Lemma first_line_feed_unique (s s' r r' : string) :
  noLineFeed s -> noLineFeed s' ->
  (s ++ String LF r)%string = (s' ++ String LF r')%string -> s = s'.
Proof.
  revert s'. induction s as [|c s IH]; intros [|c' s'] Hs Hs' Heq; simpl in Heq.
  - reflexivity.
  - inversion Heq as [[Hc Hr]]. subst c'. exfalso. exact (Hs' EmptyString s' eq_refl).
  - inversion Heq as [[Hc Hr]]. subst c. exfalso. exact (Hs EmptyString s eq_refl).
  - inversion Heq as [[Hc Hr]]. subst c'. f_equal.
    exact (IH s' (noLineFeed_tail _ _ Hs) (noLineFeed_tail _ _ Hs') Hr).
Qed.

Lemma append_final_inj (a b : string) (c : ascii) :
  (a ++ String c EmptyString)%string = (b ++ String c EmptyString)%string -> a = b.
Proof.
  revert b. induction a as [|x a IH]; intros [|y b] Heq; simpl in Heq.
  - reflexivity.
  - inversion Heq as [[Hx Hb]]. exfalso. exact (append_not_empty _ _ _ (eq_sym Hb)).
  - inversion Heq as [[Hx Ha]]. exfalso. exact (append_not_empty _ _ _ Ha).
  - inversion Heq as [[Hx Ha]]. f_equal. exact (IH b Ha).
Qed.

Lemma withoutFinalCR_unique (s l1 l2 : string) :
  withoutFinalCR s l1 -> withoutFinalCR s l2 -> l1 = l2.
Proof.
  intros [H1|(H1 & N1)] [H2|(H2 & N2)].
  - rewrite H1 in H2. exact (append_final_inj _ _ _ H2).
  - exfalso. exact (N2 l1 H1).
  - exfalso. exact (N1 l2 H2).
  - congruence.
Qed.

Lemma firstLineOf_unique (body : BodyReader) (l1 l2 : string) :
  firstLineOf body l1 -> firstLineOf body l2 -> l1 = l2.
Proof.
  intros (s1 & N1 & W1 & D1) (s2 & N2 & W2 & D2).
  assert (s1 = s2) as ->.
  { destruct D1 as [(r1 & E1 & _)|(E1 & _)]; destruct D2 as [(r2 & E2 & _)|(E2 & _)].
    - rewrite E1 in E2. exact (first_line_feed_unique _ _ _ _ N1 N2 E2).
    - exfalso. rewrite E1 in E2. exact (N2 s1 r1 (eq_sym E2)).
    - exfalso. rewrite E2 in E1. exact (N1 s2 r2 (eq_sym E1)).
    - congruence. }
  exact (withoutFinalCR_unique _ _ _ W1 W2).
Qed.

Section SetProperties.
Context {E : Env}.

(** Once the request is built, marshalled and addressed, a run of [Set] is
    one round trip and a look at the answer. *)
Lemma KV_Set_round_trip (db : KV) (name : string) (bb : list Byte.byte) (w : World)
      (pBuf : ProtoBytes) :
  proto_Marshal (requestAt name bb (now w)) = Ok pBuf ->
  url_Parse (WriteURL (opts db)) = None ->
  KV_Set db name (bytes_NewReader bb) w =
  let httpReq := postOf (WriteURL (opts db)) (snappy_Encode pBuf) in
  let ans := http_Do (clientOf db) httpReq (backend w) in
  (Done match fst ans with
        | Err err => Some err
        | Ok httpResp =>
            if negb (int_div (Response.StatusCode httpResp) 100 =? 2) then
              Some (Errorf ("server returned HTTP status "
                              ++ Response.Status httpResp ++ ": "
                              ++ diagnosticLine (Response.Body httpResp)))
            else None
        end,
   {| clock := clock w; ticks := S (ticks w);
      backend := snd ans; trace := trace w ++ [EvPost httpReq] |}).
Proof.
  intros Hm Hu.
  unfold KV_Set, bind. rewrite buildWriteRequest_bytes, Hm.
  unfold http_NewRequest. rewrite Hu.
  unfold client_Do, Header_Add, Header_Set. cbn [Request.Header Request.Method Request.URL Request.Body Header_lookup Header_put app tick backend clock ticks trace].
  change (match Client (opts db) with
          | Some c => c
          | None => http_DefaultClient
          end) with (clientOf db).
  cbv [String.eqb Ascii.eqb Bool.eqb Header_put Header_lookup app].
  fold (postOf (WriteURL (opts db)) (snappy_Encode pBuf)).
  destruct (http_Do (clientOf db) (postOf (WriteURL (opts db)) (snappy_Encode pBuf))
                    (backend w)) as [[httpResp|err] b]; cbn [fst snd].
  - destruct (negb (int_div (Response.StatusCode httpResp) 100 =? 2)); unfold ret.
    + reflexivity.
    + reflexivity.
  - reflexivity.
Qed.

(** C7, as the code has it: once the request is on its way to the
    ingestion endpoint, [Set] returns the network error unchanged when the
    round trip fails; for an answer whose status code is not between 200
    and 299 it returns the error "server returned HTTP status <status>:
    <line>", which contains the status and the line: the first line of the
    body (the bytes before its first line feed, without a carriage return
    at their end) when the scanner can hold it, that is when it ends within
    [MaxScanTokenSize] bytes, and nothing when it cannot; and for an answer
    between 200 and 299 it returns nil. *)
Theorem Set_handles_the_response
        (db : KV) (name : string) (bb : list Byte.byte) (w : World) (pBuf : ProtoBytes) :
  proto_Marshal (requestAt name bb (now w)) = Ok pBuf ->
  url_Parse (WriteURL (opts db)) = None ->
  exists httpReq : Request.t,
    httpReq = postOf (WriteURL (opts db)) (snappy_Encode pBuf)
    /\ trace (snd (KV_Set db name (bytes_NewReader bb) w)) = trace w ++ [EvPost httpReq]
    /\ (forall (err : error) (b : Backend),
           http_Do (clientOf db) httpReq (backend w) = (Err err, b) ->
           fst (KV_Set db name (bytes_NewReader bb) w) = Done (Some err))
    /\ (forall (httpResp : Response.t) (b : Backend),
           http_Do (clientOf db) httpReq (backend w) = (Ok httpResp, b) ->
           ~ is2xx (Response.StatusCode httpResp) ->
           exists line msg : string,
             fst (KV_Set db name (bytes_NewReader bb) w) = Done (Some (Errorf msg))
             /\ msg = ("server returned HTTP status " ++ Response.Status httpResp ++ ": "
                         ++ line)%string
             /\ isSubstring (Response.Status httpResp) msg
             /\ isSubstring line msg
             /\ (firstLineOf (Response.Body httpResp) line
                 \/ (firstLineTooLong (Response.Body httpResp) /\ line = EmptyString)))
    /\ (forall (httpResp : Response.t) (b : Backend),
           http_Do (clientOf db) httpReq (backend w) = (Ok httpResp, b) ->
           is2xx (Response.StatusCode httpResp) ->
           fst (KV_Set db name (bytes_NewReader bb) w) = Done None).
Proof.
  intros Hm Hu.
  rewrite (KV_Set_round_trip db name bb w pBuf Hm Hu). cbn zeta.
  eexists. split; [reflexivity|]. split; [reflexivity|].
  cbn [fst snd].
  split; [|split].
  - intros err b ->. reflexivity.
  - intros httpResp b -> Hcode. cbn [fst].
    destruct (Z.eqb_spec (int_div (Response.StatusCode httpResp) 100) 2) as [Heq|Hne].
    + apply status_class_2xx in Heq. contradiction.
    + cbn [negb]. exists (diagnosticLine (Response.Body httpResp)).
      eexists. split; [reflexivity|]. split; [reflexivity|]. split; [|split].
      * exists "server returned HTTP status "%string,
               (": " ++ diagnosticLine (Response.Body httpResp))%string.
        reflexivity.
      * exists ("server returned HTTP status " ++ Response.Status httpResp ++ ": ")%string,
               EmptyString.
        rewrite append_empty_r, !append_assoc. reflexivity.
      * apply diagnosticLine_spec.
  - intros httpResp b -> Hcode. cbn [fst].
    apply status_class_2xx in Hcode. rewrite Hcode. reflexivity.
Qed.

End SetProperties.

(** The failure scenario of the specification: the endpoint answers 500
    with the body "out of memory". *)
Example Set_500_out_of_memory :
  fst (@KV_Set env500 kv500 "greeting" (bytes_NewReader hi) world500)
  = Done (Some (Errorf "server returned HTTP status 500 Internal Server Error: out of memory")).
Proof. vm_compute. reflexivity. Qed.

(** A network-level error comes back as it is. *)
Example Set_connection_refused :
  fst (@KV_Set envDown (@New envDown (@Build_Options envDown "http://localhost:9090"
                                         "http://localhost:9090/api/v1/write" None))
                "greeting" (bytes_NewReader hi) (@Build_World envDown clock1700 O [] []))
  = Done (Some (ErrOpaque "dial tcp: connection refused")).
Proof. vm_compute. reflexivity. Qed.

(** The statement above for the endpoint that answers 500. *)
Lemma Set_handles_the_response_witness :
  @proto_Marshal env500 (requestAt "greeting" hi (@now env500 world500))
    = Ok (proto_Marshalled (requestAt "greeting" hi (@now env500 world500)))
  /\ @url_Parse env500 (@WriteURL env500 (@opts env500 kv500)) = None
  /\ exists httpReq : Request.t,
      httpReq = postOf (@WriteURL env500 (@opts env500 kv500))
                       (snappy_Encode
                          (proto_Marshalled (requestAt "greeting" hi (@now env500 world500))))
      /\ @trace env500 (snd (@KV_Set env500 kv500 "greeting" (bytes_NewReader hi) world500))
         = @trace env500 world500 ++ [EvPost httpReq]
      /\ (forall (err : error) (b : @Backend env500),
             @http_Do env500 (@clientOf env500 kv500) httpReq (@backend env500 world500)
               = (Err err, b) ->
             fst (@KV_Set env500 kv500 "greeting" (bytes_NewReader hi) world500)
               = Done (Some err))
      /\ (forall (httpResp : Response.t) (b : @Backend env500),
             @http_Do env500 (@clientOf env500 kv500) httpReq (@backend env500 world500)
               = (Ok httpResp, b) ->
             ~ is2xx (Response.StatusCode httpResp) ->
             exists line msg : string,
               fst (@KV_Set env500 kv500 "greeting" (bytes_NewReader hi) world500)
                 = Done (Some (Errorf msg))
               /\ msg = ("server returned HTTP status " ++ Response.Status httpResp ++ ": "
                           ++ line)%string
               /\ isSubstring (Response.Status httpResp) msg
               /\ isSubstring line msg
               /\ (firstLineOf (Response.Body httpResp) line
                   \/ (firstLineTooLong (Response.Body httpResp) /\ line = EmptyString)))
      /\ (forall (httpResp : Response.t) (b : @Backend env500),
             @http_Do env500 (@clientOf env500 kv500) httpReq (@backend env500 world500)
               = (Ok httpResp, b) ->
             is2xx (Response.StatusCode httpResp) ->
             fst (@KV_Set env500 kv500 "greeting" (bytes_NewReader hi) world500)
               = Done None).
Proof.
  assert (Hm : @proto_Marshal env500 (requestAt "greeting" hi (@now env500 world500))
               = Ok (proto_Marshalled (requestAt "greeting" hi (@now env500 world500))))
    by reflexivity.
  assert (Hu : @url_Parse env500 (@WriteURL env500 (@opts env500 kv500)) = None)
    by reflexivity.
  split; [exact Hm|]. split; [exact Hu|].
  exact (@Set_handles_the_response env500 kv500 "greeting" hi world500 _ Hm Hu).
Defined.

Lemma isSubstring_length (sub s : string) :
  isSubstring sub s -> (String.length sub <= String.length s)%nat.
Proof.
  intros (pre & post & ->). rewrite !length_append. lia.
Qed.

(** C7 as stated fails for a first line that the scanner cannot hold: the
    endpoint answers 500 with a body of one line of 65537 bytes; [Set]
    returns an error with the status and an empty line, which does not
    contain the line of the body. *)
Lemma Set_drops_a_first_line_over_64K :
  fst (@KV_Set envLongLine kvLongLine "greeting" (bytes_NewReader hi) worldLongLine)
    = Done (Some (Errorf "server returned HTTP status 500 Internal Server Error: "))
  /\ noLineFeed longLine
  /\ Z.of_nat (String.length longLine) = 65537
  /\ ~ isSubstring longLine "server returned HTTP status 500 Internal Server Error: ".
Proof.
  split; [vm_compute; reflexivity|].
  split; [apply hasLF_false; vm_compute; reflexivity|].
  split; [vm_compute; reflexivity|].
  intros H. apply isSubstring_length in H.
  apply Nat.leb_le in H. vm_compute in H. discriminate.
Qed.

(** ** Reading the answers of the backend *)

Lemma fold_left_snoc {A B : Type} (f : A -> B) (l : list A) :
  forall acc : list B, fold_left (fun acc x => acc ++ [f x]) l acc = acc ++ map f l.
Proof.
  induction l as [|x l IH]; intros acc; simpl.
  - now rewrite app_nil_r.
  - rewrite IH, <- app_assoc. reflexivity.
Qed.

Lemma byte_to_of_Z (z : Z) : 0 <= z < 256 -> byte_to_Z (byte_of_Z z) = z.
Proof.
  intros H. unfold byte_of_Z, byte_to_Z. rewrite Z.mod_small by lia.
  destruct (Byte.of_N (Z.to_N z)) as [b|] eqn:Hb.
  - apply Byte.to_of_N in Hb. rewrite Hb. lia.
  - apply Byte.of_N_None_iff in Hb. lia.
Qed.

(** A value between 0 and 256 is converted to the byte of its integer
    part. *)
Lemma uint8_of_float64_floor (q : Q) :
  (0 <= q)%Q -> (q < 256)%Q -> byte_to_Z (uint8_of_float64 (FNum q)) = Qfloor q.
Proof.
  destruct q as [n d]. unfold Qle, Qlt, Qfloor. simpl. intros H0 H256.
  assert (Hn : 0 <= n) by lia.
  assert (Hq : 0 <= n / Z.pos d < 256).
  { split; [apply Z.div_pos; lia | apply Z.div_lt_upper_bound; lia]. }
  unfold uint8_of_float64, int32_of_float64, truncQ. simpl.
  rewrite Z.quot_div_nonneg by lia.
  unfold min_int32, max_int32.
  destruct (Z.leb_spec (- 2 ^ 31) (n / Z.pos d)); [|lia].
  destruct (Z.leb_spec (n / Z.pos d) (2 ^ 31 - 1)); [|lia].
  simpl. apply byte_to_of_Z. exact Hq.
Qed.

Section GetProperties.
Context {E : Env}.

Lemma go_index_last {A : Type} (earlier : list A) (x : A) :
  go_index (earlier ++ [x]) (Z.of_nat (List.length (earlier ++ [x])) - 1) = Done x.
Proof.
  unfold go_index. rewrite last_length.
  destruct (Z.ltb_spec (Z.of_nat (S (List.length earlier)) - 1) 0); [lia|].
  destruct (Z.leb_spec (Z.of_nat (S (List.length earlier)))
                       (Z.of_nat (S (List.length earlier)) - 1)); [lia|].
  simpl "||".
  replace (Z.to_nat (Z.of_nat (S (List.length earlier)) - 1)) with (List.length earlier) by lia.
  rewrite nth_error_app2 by lia. rewrite Nat.sub_diag. reflexivity.
Qed.

Lemma go_index_empty {A : Type} :
  go_index (@nil A) (Z.of_nat (List.length (@nil A)) - 1) = Panic "index out of range".
Proof. reflexivity. Qed.

Lemma getValues_last (earlier : Matrix) (stream : SampleStream.t) :
  getValues (ValMatrix (earlier ++ [stream]))
  = Done (map SamplePair.Value (SampleStream.Values stream)).
Proof.
  unfold getValues. rewrite go_index_last, fold_left_snoc. reflexivity.
Qed.

Lemma getLastValue_last (earlier : Matrix) (stream : SampleStream.t)
      (before : list SamplePair.t) (sample : SamplePair.t) :
  SampleStream.Values stream = before ++ [sample] ->
  getLastValue (ValMatrix (earlier ++ [stream])) = Done (SamplePair.Value sample).
Proof.
  intros H. unfold getLastValue. rewrite go_index_last, H, go_index_last. reflexivity.
Qed.

Lemma cap_of_ge (n : nat) : (n <= cap_of n)%nat.
Proof. destruct n; simpl; [lia | apply append_cap_ge]. Qed.

(** Within its length, [s[:k]] is the first [k] elements of [s]. *)
Lemma go_slice_to_within (s : list float64) (k : Z) :
  0 <= k <= Z.of_nat (List.length s) ->
  go_slice_to s k = Done (firstn (Z.to_nat k) s).
Proof.
  intros H. unfold go_slice_to.
  pose proof (cap_of_ge (List.length s)) as Hcap.
  destruct (Z.ltb_spec k 0); [lia|].
  destruct (Z.ltb_spec (Z.of_nat (cap_of (List.length s))) k); [lia|].
  simpl "||". f_equal.
  rewrite firstn_app.
  replace (Z.to_nat k - List.length s)%nat with O by lia.
  simpl. now rewrite app_nil_r.
Qed.

(** What holds of the last stage: when the content answer holds at least
    one series and the last series holds at least [fileSizeBytes] values
    ([fileSizeBytes] not negative), the last stage of [Get] does not panic;
    it returns the first [fileSizeBytes] values of the last series, in
    order, each converted to a byte, so a buffer of exactly [fileSizeBytes]
    bytes, also when the series holds more values; and a value between 0
    and 256 becomes the byte of its integer part. *)
Theorem Get_bytes_truncates
        (earlier : Matrix) (stream : SampleStream.t) (fileSizeBytes : float64) :
  0 <= int64_of_float64 fileSizeBytes
       <= Z.of_nat (List.length (SampleStream.Values stream)) ->
  exists bb : list Byte.byte,
    Get_bytes (ValMatrix (earlier ++ [stream])) fileSizeBytes = Done bb
    /\ bb = map uint8_of_float64
                (firstn (Z.to_nat (int64_of_float64 fileSizeBytes))
                        (map SamplePair.Value (SampleStream.Values stream)))
    /\ Z.of_nat (List.length bb) = int64_of_float64 fileSizeBytes
    /\ (forall (i : nat) (sample : SamplePair.t) (q : Q),
           Z.of_nat i < int64_of_float64 fileSizeBytes ->
           nth_error (SampleStream.Values stream) i = Some sample ->
           SamplePair.Value sample = FNum q ->
           (0 <= q)%Q -> (q < 256)%Q ->
           exists b : Byte.byte, nth_error bb i = Some b /\ byte_to_Z b = Qfloor q).
Proof.
  intros Hn.
  set (n := int64_of_float64 fileSizeBytes) in *.
  unfold Get_bytes. rewrite getValues_last.
  rewrite go_slice_to_within by (rewrite length_map; exact Hn).
  fold n. rewrite fold_left_snoc. simpl app.
  eexists. split; [reflexivity|]. split; [reflexivity|]. split.
  - rewrite length_map, length_firstn, length_map. lia.
  - intros i sample q Hi Hs Hq H0 H256.
    exists (uint8_of_float64 (FNum q)). split.
    + rewrite nth_error_map, nth_error_firstn.
      destruct (Nat.ltb_spec i (Z.to_nat n)); [|lia].
      rewrite nth_error_map, Hs. simpl. now rewrite Hq.
    + now apply uint8_of_float64_floor.
Qed.

End GetProperties.

(** The last stage alone: on an answer without series it indexes an empty
    matrix, and on a last series of one value with [fileSizeBytes = 3] the
    slice expression exceeds the capacity; both panic. *)
Lemma Get_bytes_can_panic :
  @Get_bytes Prom.env (ValMatrix []) (FNum 0) = Panic "index out of range"
  /\ @Get_bytes Prom.env
       (ValMatrix [ {| SampleStream.Metric := nameLabels "promkv_file_content" "greeting";
                       SampleStream.Values :=
                         [ {| SamplePair.Timestamp := 1699999998000;
                              SamplePair.Value := FNum 104 |} ] |} ])
       (FNum 3)
     = Panic "slice bounds out of range".
Proof. split; vm_compute; reflexivity. Qed.

(** Three values answered, two bytes expected. *)
Lemma Get_bytes_truncates_witness :
  0 <= int64_of_float64 (FNum 2) <= Z.of_nat (List.length (SampleStream.Values hiStream))
  /\ exists bb : list Byte.byte,
      @Get_bytes Prom.env (ValMatrix ([] ++ [hiStream])) (FNum 2) = Done bb
      /\ bb = map uint8_of_float64
                  (firstn (Z.to_nat (int64_of_float64 (FNum 2)))
                          (map SamplePair.Value (SampleStream.Values hiStream)))
      /\ Z.of_nat (List.length bb) = int64_of_float64 (FNum 2)
      /\ (forall (i : nat) (sample : SamplePair.t) (q : Q),
             Z.of_nat i < int64_of_float64 (FNum 2) ->
             nth_error (SampleStream.Values hiStream) i = Some sample ->
             SamplePair.Value sample = FNum q ->
             (0 <= q)%Q -> (q < 256)%Q ->
             exists b : Byte.byte, nth_error bb i = Some b /\ byte_to_Z b = Qfloor q).
Proof.
  assert (Hn : 0 <= int64_of_float64 (FNum 2)
               <= Z.of_nat (List.length (SampleStream.Values hiStream)))
    by (vm_compute; split; discriminate).
  split; [exact Hn|].
  exact (@Get_bytes_truncates Prom.env [] hiStream (FNum 2) Hn).
Defined.

Example Get_bytes_hi :
  @Get_bytes Prom.env (ValMatrix [hiStream]) (FNum 2) = Done hi.
Proof. vm_compute. reflexivity. Qed.

(** ** Writing, then reading *)

Example roundtrip_hi :
  Prom.setThenGet clock1700 "greeting" hi = (None, Done (Ok hi)).
Proof. vm_compute. reflexivity. Qed.

Section GetRuns.
Context {E : Env}.

(** A run of [Get] whose three queries are answered: the result is that of
    the last stage on the content answer and the size read. *)
Lemma KV_Get_run (db : KV) (name : string) (w : World)
      (sizeVal startVal contentVal : model_Value) (fileSizeBytes timestampSeconds : float64) :
  url_Parse (APIURL (opts db)) = None ->
  api_QueryRange (Client (opts db)) (APIURL (opts db)) (sizeQuery name)
                 (lookback (clock w (ticks w)) (clock w (1 + ticks w))) (backend w)
    = Ok sizeVal ->
  getLastValue sizeVal = Done fileSizeBytes ->
  api_QueryRange (Client (opts db)) (APIURL (opts db)) (startQuery name)
                 (lookback (clock w (2 + ticks w)) (clock w (3 + ticks w))) (backend w)
    = Ok startVal ->
  getLastValue startVal = Done timestampSeconds ->
  api_QueryRange (Client (opts db)) (APIURL (opts db)) (contentQuery name)
                 (dataRangeOf timestampSeconds fileSizeBytes) (backend w)
    = Ok contentVal ->
  fst (KV_Get db name w)
  = match Get_bytes contentVal fileSizeBytes with
    | Done bb => Done (Ok bb)
    | Panic msg => Panic msg
    end.
Proof.
  intros Hu H1 L1 H2 L2 H3.
  unfold lookback, dataRangeOf, sizeQuery, startQuery, contentQuery in *.
  cbn [Nat.add] in *.
  unfold KV_Get, api_NewClient. rewrite Hu.
  unfold bind, time_Now, QueryRange, lift, ret.
  cbn [clock ticks backend trace fst snd].
  rewrite H1, L1.
  cbn [clock ticks backend trace fst snd].
  rewrite H2, L2.
  cbn [clock ticks backend trace fst snd].
  rewrite H3.
  destruct (Get_bytes contentVal fileSizeBytes); reflexivity.
Qed.

(** C6, a defect of the code: the last stage of [Get] is not guarded.  In
    a run of [Get] that reaches the content query, an answer without series
    makes [getValues] index an empty matrix, and an answer whose last series
    holds fewer values than [int(fileSizeBytes)], beyond the capacity of
    their slice, or a negative [int(fileSizeBytes)], makes the slice
    expression exceed its bounds: [Get] panics, it returns neither a buffer
    of [fileSizeBytes] bytes nor an error. *)
Theorem Get_panics_on_a_short_content_answer
        (db : KV) (name : string) (w : World)
        (sizeVal startVal contentVal : model_Value)
        (fileSizeBytes timestampSeconds : float64) :
  url_Parse (APIURL (opts db)) = None ->
  api_QueryRange (Client (opts db)) (APIURL (opts db)) (sizeQuery name)
                 (lookback (clock w (ticks w)) (clock w (1 + ticks w))) (backend w)
    = Ok sizeVal ->
  getLastValue sizeVal = Done fileSizeBytes ->
  api_QueryRange (Client (opts db)) (APIURL (opts db)) (startQuery name)
                 (lookback (clock w (2 + ticks w)) (clock w (3 + ticks w))) (backend w)
    = Ok startVal ->
  getLastValue startVal = Done timestampSeconds ->
  api_QueryRange (Client (opts db)) (APIURL (opts db)) (contentQuery name)
                 (dataRangeOf timestampSeconds fileSizeBytes) (backend w)
    = Ok contentVal ->
  (contentVal = ValMatrix [] ->
   fst (KV_Get db name w) = Panic "index out of range")
  /\ (forall (earlier : Matrix) (stream : SampleStream.t),
         contentVal = ValMatrix (earlier ++ [stream]) ->
         int64_of_float64 fileSizeBytes < 0
         \/ Z.of_nat (cap_of (List.length (SampleStream.Values stream)))
            < int64_of_float64 fileSizeBytes ->
         fst (KV_Get db name w) = Panic "slice bounds out of range").
Proof.
  intros Hu H1 L1 H2 L2 H3.
  rewrite (KV_Get_run db name w sizeVal startVal contentVal fileSizeBytes timestampSeconds
             Hu H1 L1 H2 L2 H3).
  split.
  - intros ->. reflexivity.
  - intros earlier stream -> Hk.
    unfold Get_bytes. rewrite getValues_last. unfold go_slice_to. rewrite length_map.
    destruct (Z.ltb_spec (int64_of_float64 fileSizeBytes) 0) as [Hneg|Hnn];
      [reflexivity|].
    destruct (Z.ltb_spec (Z.of_nat (cap_of (List.length (SampleStream.Values stream))))
                         (int64_of_float64 fileSizeBytes)) as [Hbig|Hfit];
      [reflexivity|].
    lia.
Qed.

End GetRuns.

(** The content series lost the samples of the first two bytes of three:
    the answer holds two points, and [Get] panics. *)
Lemma Get_panics_on_a_short_content_answer_witness :
  @url_Parse Prom.env (@APIURL Prom.env (@opts Prom.env Prom.kv)) = None
  /\ @api_QueryRange Prom.env (@Client Prom.env (@opts Prom.env Prom.kv))
       (@APIURL Prom.env (@opts Prom.env Prom.kv)) (sizeQuery "greeting")
       (lookback (clock shortWorld (ticks shortWorld))
                 (clock shortWorld (1 + ticks shortWorld)))
       (backend shortWorld) = Ok shortSizeVal
  /\ getLastValue shortSizeVal = Done (FNum 3)
  /\ @api_QueryRange Prom.env (@Client Prom.env (@opts Prom.env Prom.kv))
       (@APIURL Prom.env (@opts Prom.env Prom.kv)) (startQuery "greeting")
       (lookback (clock shortWorld (2 + ticks shortWorld))
                 (clock shortWorld (3 + ticks shortWorld)))
       (backend shortWorld) = Ok shortStartVal
  /\ getLastValue shortStartVal = Done (FNum 1699999997000)
  /\ @api_QueryRange Prom.env (@Client Prom.env (@opts Prom.env Prom.kv))
       (@APIURL Prom.env (@opts Prom.env Prom.kv)) (contentQuery "greeting")
       (dataRangeOf (FNum 1699999997000) (FNum 3))
       (backend shortWorld) = Ok (ValMatrix ([] ++ [shortStream]))
  /\ Z.of_nat (@cap_of Prom.env (List.length (SampleStream.Values shortStream)))
       < int64_of_float64 (FNum 3)
  /\ fst (@KV_Get Prom.env Prom.kv "greeting" shortWorld)
     = Panic "slice bounds out of range".
Proof.
  assert (Hu : @url_Parse Prom.env (@APIURL Prom.env (@opts Prom.env Prom.kv)) = None)
    by reflexivity.
  assert (H1 : @api_QueryRange Prom.env (@Client Prom.env (@opts Prom.env Prom.kv))
                 (@APIURL Prom.env (@opts Prom.env Prom.kv)) (sizeQuery "greeting")
                 (lookback (clock shortWorld (ticks shortWorld))
                           (clock shortWorld (1 + ticks shortWorld)))
                 (backend shortWorld) = Ok shortSizeVal)
    by (vm_compute; reflexivity).
  assert (L1 : getLastValue shortSizeVal = Done (FNum 3)) by reflexivity.
  assert (H2 : @api_QueryRange Prom.env (@Client Prom.env (@opts Prom.env Prom.kv))
                 (@APIURL Prom.env (@opts Prom.env Prom.kv)) (startQuery "greeting")
                 (lookback (clock shortWorld (2 + ticks shortWorld))
                           (clock shortWorld (3 + ticks shortWorld)))
                 (backend shortWorld) = Ok shortStartVal)
    by (vm_compute; reflexivity).
  assert (L2 : getLastValue shortStartVal = Done (FNum 1699999997000)) by reflexivity.
  assert (H3 : @api_QueryRange Prom.env (@Client Prom.env (@opts Prom.env Prom.kv))
                 (@APIURL Prom.env (@opts Prom.env Prom.kv)) (contentQuery "greeting")
                 (dataRangeOf (FNum 1699999997000) (FNum 3))
                 (backend shortWorld) = Ok (ValMatrix ([] ++ [shortStream])))
    by (vm_compute; reflexivity).
  assert (Hk : Z.of_nat (@cap_of Prom.env (List.length (SampleStream.Values shortStream)))
               < int64_of_float64 (FNum 3))
    by (vm_compute; reflexivity).
  split; [exact Hu|]. split; [exact H1|]. split; [exact L1|]. split; [exact H2|].
  split; [exact L2|]. split; [exact H3|]. split; [exact Hk|].
  exact (proj2 (@Get_panics_on_a_short_content_answer Prom.env Prom.kv "greeting"
                  shortWorld shortSizeVal shortStartVal (ValMatrix ([] ++ [shortStream]))
                  (FNum 3) (FNum 1699999997000) Hu H1 L1 H2 L2 H3)
               [] shortStream eq_refl (or_intror Hk)).
Defined.

Lemma map_snd_combine_seq {A : Type} (l : list A) (i0 : nat) :
  map snd (combine (seq i0 (List.length l)) l) = l.
Proof.
  revert i0. induction l as [|x l IH]; intros i0; simpl; [reflexivity|].
  now rewrite IH.
Qed.

(** Converting the values of the content samples back gives the bytes. *)
Lemma contentSamples_decode (start : Time) (bb : list Byte.byte) :
  map uint8_of_float64 (map Sample.Value (contentSamples start bb)) = bb.
Proof.
  unfold contentSamples. rewrite !map_map. simpl.
  transitivity (map snd (combine (seq 0 (List.length bb)) bb));
    [|apply map_snd_combine_seq].
  apply map_ext. intros [i b]. simpl. apply uint8_of_float64_of_byte.
Qed.

Section Decoding.
Context {E : Env}.

(** The last stage of [Get] on an answer that starts with the values of
    the content samples returns the bytes. *)
Lemma Get_bytes_decodes (earlier : Matrix) (stream : SampleStream.t)
      (extra : list float64) (start : Time) (bb : list Byte.byte) :
  Z.of_nat (List.length bb) < 2 ^ 53 ->
  map SamplePair.Value (SampleStream.Values stream)
    = map Sample.Value (contentSamples start bb) ++ extra ->
  Get_bytes (ValMatrix (earlier ++ [stream])) (float64_of_int (Z.of_nat (List.length bb)))
  = Done bb.
Proof.
  intros Hn Hvals.
  unfold Get_bytes. rewrite getValues_last, Hvals.
  rewrite int64_of_float64_of_int by lia.
  rewrite go_slice_to_within.
  - rewrite Nat2Z.id, firstn_app, length_map, contentSamples_length, Nat.sub_diag.
    rewrite firstn_all2 by (rewrite length_map, contentSamples_length; lia).
    simpl firstn. rewrite app_nil_r, fold_left_snoc. simpl app.
    now rewrite contentSamples_decode.
  - rewrite length_app, length_map, contentSamples_length. lia.
Qed.

(** The decoder inverts the encoder: when the three queries of [Get]
    surface what [buildWriteRequest] built at the instant [t0] (the size and
    the start as the last values of their answers, the content values as
    the first values of the last series of the content answer, whatever
    follows them), [Get] returns the bytes written, the empty buffer
    included. *)
Theorem Get_decodes_what_was_written
        (db : KV) (name : string) (w : World) (bb : list Byte.byte) (t0 : Time)
        (sizeVal startVal : model_Value) (earlier : Matrix) (stream : SampleStream.t)
        (extra : list float64) :
  url_Parse (APIURL (opts db)) = None ->
  Z.of_nat (List.length bb) < 2 ^ 53 ->
  Z.abs (FromTime (startOf t0 (List.length bb))) < 2 ^ 53 ->
  api_QueryRange (Client (opts db)) (APIURL (opts db)) (sizeQuery name)
                 (lookback (clock w (ticks w)) (clock w (1 + ticks w))) (backend w)
    = Ok sizeVal ->
  getLastValue sizeVal = Done (float64_of_int (Z.of_nat (List.length bb))) ->
  api_QueryRange (Client (opts db)) (APIURL (opts db)) (startQuery name)
                 (lookback (clock w (2 + ticks w)) (clock w (3 + ticks w))) (backend w)
    = Ok startVal ->
  getLastValue startVal
    = Done (float64_of_int (FromTime (startOf t0 (List.length bb)))) ->
  api_QueryRange (Client (opts db)) (APIURL (opts db)) (contentQuery name)
                 (dataRangeOf (float64_of_int (FromTime (startOf t0 (List.length bb))))
                              (float64_of_int (Z.of_nat (List.length bb))))
                 (backend w)
    = Ok (ValMatrix (earlier ++ [stream])) ->
  map SamplePair.Value (SampleStream.Values stream)
    = map Sample.Value (contentSamples (startOf t0 (List.length bb)) bb) ++ extra ->
  fst (KV_Get db name w) = Done (Ok bb).
Proof.
  intros Hu Hn Hs H1 L1 H2 L2 H3 Hvals.
  rewrite (KV_Get_run db name w _ _ _ _ _ Hu H1 L1 H2 L2 H3).
  rewrite (Get_bytes_decodes earlier stream extra _ bb Hn Hvals).
  reflexivity.
Qed.

End Decoding.

(** ** The storing backend answers the queries of [Get] *)

Lemma instantValue_single (s : Sample.t) (t : Z) :
  Prom.instantValue [s] t = if Prom.visible t s then Some s else None.
Proof. unfold Prom.instantValue. simpl. now destruct (Prom.visible t s). Qed.

Lemma evalRange_single (s : Sample.t) (start end_ step : Z) :
  Prom.evalRange [s] start end_ step
  = map (fun t => {| SamplePair.Timestamp := t; SamplePair.Value := Sample.Value s |})
        (filter (fun t => Prom.visible t s) (Prom.steps start end_ step)).
Proof.
  unfold Prom.evalRange.
  induction (Prom.steps start end_ step) as [|t ts IH]; simpl; [reflexivity|].
  rewrite instantValue_single, IH.
  now destruct (Prom.visible t s).
Qed.

Lemma In_steps (start end_ step : Z) (j : Z) :
  0 < step -> 0 <= j -> start + j * step <= end_ ->
  In (start + j * step) (Prom.steps start end_ step).
Proof.
  intros Hstep Hj Hle. unfold Prom.steps.
  apply in_map_iff. exists (Z.to_nat j). split; [f_equal; lia|].
  apply in_seq. split; [lia|]. simpl.
  assert (j <= (end_ - start) / step) by (apply Z.div_le_lower_bound; lia).
  lia.
Qed.

Section LastValue.
Context {E : Env}.

(** The last value of a one-series answer all of whose points carry the
    same value. *)
Lemma getLastValue_constant (metric : list Label.t) (points : list SamplePair.t) (v : float64) :
  points <> [] ->
  Forall (fun p => SamplePair.Value p = v) points ->
  getLastValue (ValMatrix [ {| SampleStream.Metric := metric;
                               SampleStream.Values := points |} ]) = Done v.
Proof.
  intros Hne Hall.
  destruct (exists_last Hne) as (before & sample & Heq).
  pose proof (getLastValue_last []
                {| SampleStream.Metric := metric; SampleStream.Values := points |}
                before sample Heq) as Hlast.
  simpl app in Hlast. rewrite Hlast.
  f_equal. rewrite Forall_forall in Hall. apply Hall.
  rewrite Heq. apply in_or_app. right. now left.
Qed.

End LastValue.

(** A query over a series of one stored sample, seen from some step of the
    range, is answered, and the last value of the answer is the sample's. *)
Lemma queryRange_one_sample (q : Query) (r : Range.t) (db : Prom.TSDB) (s : Sample.t) (t : Z) :
  Prom.samplesOf db q = [s] ->
  0 < int_div (Range.Step r) Millisecond ->
  FromTime (Range.Start r) <= FromTime (Range.End_ r) ->
  In t (Prom.steps (FromTime (Range.Start r)) (FromTime (Range.End_ r))
                   (int_div (Range.Step r) Millisecond)) ->
  Prom.visible t s = true ->
  exists val : model_Value,
    Prom.queryRange q r db = Ok val
    /\ getLastValue val = Done (Sample.Value s).
Proof.
  intros Hs Hstep Hle Hin Hvis.
  unfold Prom.queryRange. rewrite Hs.
  destruct (Z.leb_spec (int_div (Range.Step r) Millisecond) 0); [lia|].
  destruct (Z.ltb_spec (FromTime (Range.End_ r)) (FromTime (Range.Start r))); [lia|].
  rewrite evalRange_single.
  set (ts := filter (fun t => Prom.visible t s) _).
  assert (Hne : ts <> []).
  { intros Hnil. assert (Hin' : In t ts) by (apply filter_In; now split).
    rewrite Hnil in Hin'. destruct Hin'. }
  destruct ts as [|t0 ts']; [congruence|].
  cbn [map]. eexists. split; [reflexivity|].
  apply getLastValue_constant; [discriminate|].
  constructor; [reflexivity|].
  apply Forall_forall. intros p Hp. apply in_map_iff in Hp.
  destruct Hp as (t' & <- & _). reflexivity.
Qed.

(** [FromTime] is monotone. *)
Lemma FromTime_mono (t u : Time) : t <= u -> FromTime t <= FromTime u.
Proof.
  intros H. rewrite !FromTime_millis. apply Z.div_le_mono; [reflexivity | exact H].
Qed.

(** Some step of the last hour, taken minute by minute, sees a sample
    stamped within the last sixty-five minutes. *)
Lemma lookback_sees (start end_ : Time) (s : Sample.t) :
  start <= end_ ->
  FromTime start - 3900000 < Sample.Timestamp s <= FromTime start ->
  0 < int_div (Range.Step (lookback start end_)) Millisecond
  /\ FromTime (Range.Start (lookback start end_))
     <= FromTime (Range.End_ (lookback start end_))
  /\ exists t : Z,
      In t (Prom.steps (FromTime (Range.Start (lookback start end_)))
                       (FromTime (Range.End_ (lookback start end_)))
                       (int_div (Range.Step (lookback start end_)) Millisecond))
      /\ Prom.visible t s = true.
Proof.
  intros Hle Hs.
  pose proof (FromTime_mono start end_ Hle) as Hmono.
  unfold lookback, UTC. cbn [Range.Start Range.End_ Range.Step].
  change (- Hour) with ((- 3600) * Second).
  rewrite FromTime_add_seconds.
  change (int_div Minute Millisecond) with 60000.
  split; [lia|]. split; [lia|].
  set (A := FromTime start + -3600 * 1000).
  set (S := Sample.Timestamp s) in *.
  set (j := if S <=? A then 0 else (S - A + 59999) / 60000).
  assert (Hj : 0 <= j <= 60 /\ A + j * 60000 - 300000 < S <= A + j * 60000).
  { subst j A. destruct (Z.leb_spec S (FromTime start + -3600 * 1000)).
    - lia.
    - Z.to_euclidean_division_equations. lia. }
  exists (A + j * 60000). split.
  - apply In_steps; lia.
  - unfold Prom.visible, Prom.lookbackDelta. fold S.
    apply andb_true_iff. split; [apply Z.ltb_lt | apply Z.leb_le]; lia.
Qed.

(** What the instant query returns is a stored sample seen from the
    instant, and none seen from it is more recent. *)
Lemma instantValue_fold (t : Z) (ss : list Sample.t) :
  forall (seen : list Sample.t) (best : option Sample.t),
    match best with
    | Some s => In s seen /\ Prom.visible t s = true
                /\ (forall s', In s' seen -> Prom.visible t s' = true ->
                               Sample.Timestamp s' <= Sample.Timestamp s)
    | None => forall s', In s' seen -> Prom.visible t s' = false
    end ->
    match fold_left (fun best s => if Prom.visible t s then Prom.later best s else best)
                    ss best with
    | Some s => In s (seen ++ ss) /\ Prom.visible t s = true
                /\ (forall s', In s' (seen ++ ss) -> Prom.visible t s' = true ->
                               Sample.Timestamp s' <= Sample.Timestamp s)
    | None => forall s', In s' (seen ++ ss) -> Prom.visible t s' = false
    end.
Proof.
  induction ss as [|x ss IH]; intros seen best Hinv.
  - simpl. rewrite app_nil_r. exact Hinv.
  - simpl. replace (seen ++ x :: ss) with ((seen ++ [x]) ++ ss)
      by (rewrite <- app_assoc; reflexivity).
    apply IH.
    destruct (Prom.visible t x) eqn:Hx.
    + destruct best as [b|]; unfold Prom.later.
      * destruct Hinv as (Hin & Hvis & Hmax).
        destruct (Z.leb_spec (Sample.Timestamp b) (Sample.Timestamp x)).
        -- split; [apply in_or_app; right; now left|]. split; [exact Hx|].
           intros s' Hs' Hv. apply in_app_or in Hs'. destruct Hs' as [Hs'|[<-|[]]].
           ++ specialize (Hmax s' Hs' Hv). lia.
           ++ lia.
        -- split; [apply in_or_app; now left|]. split; [exact Hvis|].
           intros s' Hs' Hv. apply in_app_or in Hs'. destruct Hs' as [Hs'|[<-|[]]].
           ++ now apply Hmax.
           ++ lia.
      * split; [apply in_or_app; right; now left|]. split; [exact Hx|].
        intros s' Hs' Hv. apply in_app_or in Hs'. destruct Hs' as [Hs'|[<-|[]]].
        -- rewrite (Hinv s' Hs') in Hv. discriminate.
        -- lia.
    + destruct best as [b|].
      * destruct Hinv as (Hin & Hvis & Hmax).
        split; [apply in_or_app; now left|]. split; [exact Hvis|].
        intros s' Hs' Hv. apply in_app_or in Hs'. destruct Hs' as [Hs'|[<-|[]]].
        -- now apply Hmax.
        -- congruence.
      * intros s' Hs'. apply in_app_or in Hs'. destruct Hs' as [Hs'|[<-|[]]].
        -- now apply Hinv.
        -- exact Hx.
Qed.

Lemma instantValue_spec (ss : list Sample.t) (t : Z) :
  match Prom.instantValue ss t with
  | Some s => In s ss /\ Prom.visible t s = true
              /\ (forall s', In s' ss -> Prom.visible t s' = true ->
                             Sample.Timestamp s' <= Sample.Timestamp s)
  | None => forall s', In s' ss -> Prom.visible t s' = false
  end.
Proof.
  unfold Prom.instantValue.
  apply (instantValue_fold t ss [] None). intros s' [].
Qed.

Lemma visible_iff (t : Z) (s : Sample.t) :
  Prom.visible t s = true <-> t - 300000 < Sample.Timestamp s <= t.
Proof.
  unfold Prom.visible, Prom.lookbackDelta.
  rewrite andb_true_iff, Z.ltb_lt, Z.leb_le. reflexivity.
Qed.

Lemma In_contentSamples (start : Time) (bb : list Byte.byte) (s : Sample.t) :
  In s (contentSamples start bb) ->
  exists (i : nat) (b : Byte.byte), nth_error bb i = Some b /\ s = contentSample start i b.
Proof.
  intros Hin. apply In_nth_error in Hin. destruct Hin as (i & Hi).
  assert (Hlt : (i < List.length bb)%nat).
  { rewrite <- (contentSamples_length start). apply nth_error_Some. congruence. }
  destruct (nth_error bb i) as [b|] eqn:Hb; [|apply nth_error_None in Hb; lia].
  exists i, b. split; [exact Hb|].
  rewrite (contentSamples_nth start bb i b Hb) in Hi. congruence.
Qed.

(** At the instant of byte [j] the content series shows byte [j]. *)
Lemma instantValue_content (start : Time) (bb : list Byte.byte) (j : nat) (b : Byte.byte) :
  fitsDuration (List.length bb) ->
  nth_error bb j = Some b ->
  exists s : Sample.t,
    Prom.instantValue (contentSamples start bb) (FromTime start + Z.of_nat j * 1000) = Some s
    /\ Sample.Value s = float64_of_int (byte_to_Z b).
Proof.
  intros Hfit Hb.
  assert (Hj : (j < List.length bb)%nat) by (apply nth_error_Some; congruence).
  assert (Hin : In (contentSample start j b) (contentSamples start bb)).
  { eapply nth_error_In. apply contentSamples_nth, Hb. }
  assert (Hts : Sample.Timestamp (contentSample start j b)
                = FromTime start + Z.of_nat j * 1000).
  { apply contentSample_timestamp. apply (fitsDuration_le j (List.length bb)); [lia|exact Hfit]. }
  assert (Hvis : Prom.visible (FromTime start + Z.of_nat j * 1000) (contentSample start j b) = true).
  { apply visible_iff. rewrite Hts. lia. }
  pose proof (instantValue_spec (contentSamples start bb) (FromTime start + Z.of_nat j * 1000))
    as Hspec.
  destruct (Prom.instantValue (contentSamples start bb) (FromTime start + Z.of_nat j * 1000))
    as [s|].
  - exists s. split; [reflexivity|].
    destruct Hspec as (Hs & Hsv & Hmax).
    specialize (Hmax _ Hin Hvis). apply visible_iff in Hsv.
    destruct (In_contentSamples start bb s Hs) as (i & b' & Hb' & ->).
    assert (Hi : (i < List.length bb)%nat) by (apply nth_error_Some; congruence).
    rewrite Hts in Hmax.
    rewrite (contentSample_timestamp start i b') in Hsv, Hmax
      by (apply (fitsDuration_le i (List.length bb)); [lia|exact Hfit]).
    assert (i = j) by lia. subst i.
    rewrite Hb in Hb'. inversion Hb'. reflexivity.
  - rewrite (Hspec _ Hin) in Hvis. discriminate.
Qed.

(** One second after the last byte the content series still shows a
    value. *)
Lemma instantValue_content_end (start : Time) (bb : list Byte.byte) :
  fitsDuration (List.length bb) ->
  bb <> [] ->
  exists s : Sample.t,
    Prom.instantValue (contentSamples start bb)
                      (FromTime start + Z.of_nat (List.length bb) * 1000) = Some s.
Proof.
  intros Hfit Hne.
  destruct (exists_last Hne) as (before & b & Heq).
  assert (Hlen : List.length bb = S (List.length before)).
  { rewrite Heq. apply last_length. }
  assert (Hb : nth_error bb (List.length before) = Some b).
  { rewrite Heq, nth_error_app2, Nat.sub_diag by lia. reflexivity. }
  set (j := List.length before) in *.
  assert (Hin : In (contentSample start j b) (contentSamples start bb)).
  { eapply nth_error_In. apply contentSamples_nth, Hb. }
  assert (Hts : Sample.Timestamp (contentSample start j b)
                = FromTime start + Z.of_nat j * 1000).
  { apply contentSample_timestamp. apply (fitsDuration_le j (List.length bb)); [lia|exact Hfit]. }
  pose proof (instantValue_spec (contentSamples start bb)
                (FromTime start + Z.of_nat (List.length bb) * 1000)) as Hspec.
  destruct (Prom.instantValue (contentSamples start bb)
              (FromTime start + Z.of_nat (List.length bb) * 1000)) as [s|].
  - now exists s.
  - assert (Hvis : Prom.visible (FromTime start + Z.of_nat (List.length bb) * 1000)
                                (contentSample start j b) = true).
    { apply visible_iff. rewrite Hts. lia. }
    rewrite (Hspec _ Hin) in Hvis. discriminate.
Qed.

Lemma map_seq_nth {A B : Type} (g : A -> B) (d : A) (l : list A) :
  map (fun j => g (nth j l d)) (seq 0 (List.length l)) = map g l.
Proof.
  induction l as [|x l IH]; [reflexivity|].
  simpl. f_equal. rewrite <- seq_shift, map_map. exact IH.
Qed.

Lemma contentSamples_values (start : Time) (bb : list Byte.byte) :
  map Sample.Value (contentSamples start bb)
  = map (fun b => float64_of_int (byte_to_Z b)) bb.
Proof.
  unfold contentSamples. rewrite map_map. simpl.
  rewrite <- (map_map snd (fun b => float64_of_int (byte_to_Z b))).
  now rewrite map_snd_combine_seq.
Qed.

(** The points of the content series at the instants of the bytes. *)
Lemma evalRange_content_prefix (start : Time) (bb : list Byte.byte) (js : list nat) :
  fitsDuration (List.length bb) ->
  (forall j, In j js -> (j < List.length bb)%nat) ->
  map SamplePair.Value
      (flat_map
         (fun t => match Prom.instantValue (contentSamples start bb) t with
                   | Some s => [ {| SamplePair.Timestamp := t;
                                    SamplePair.Value := Sample.Value s |} ]
                   | None => []
                   end)
         (map (fun j => FromTime start + Z.of_nat j * 1000) js))
  = map (fun j => float64_of_int (byte_to_Z (nth j bb Byte.x00))) js.
Proof.
  intros Hfit. induction js as [|j js IH]; intros Hjs; [reflexivity|].
  cbn [map flat_map].
  assert (Hj : (j < List.length bb)%nat) by (apply Hjs; now left).
  destruct (instantValue_content start bb j (nth j bb Byte.x00) Hfit
              (nth_error_nth' bb Byte.x00 Hj)) as (s & -> & Hv).
  cbn [app map SamplePair.Value]. rewrite Hv. f_equal.
  apply IH. intros j' Hj'. apply Hjs. now right.
Qed.

(** The content query over the seconds of a value returns the value of each
    byte, in order, and one more point. *)
Lemma evalRange_content (start : Time) (bb : list Byte.byte) :
  fitsDuration (List.length bb) ->
  bb <> [] ->
  exists vlast : float64,
    map SamplePair.Value
        (Prom.evalRange (contentSamples start bb) (FromTime start)
                        (FromTime start + Z.of_nat (List.length bb) * 1000) 1000)
    = map Sample.Value (contentSamples start bb) ++ [vlast].
Proof.
  intros Hfit Hne.
  unfold Prom.evalRange, Prom.steps.
  replace (FromTime start + Z.of_nat (List.length bb) * 1000 - FromTime start)
    with (Z.of_nat (List.length bb) * 1000) by lia.
  rewrite Z.div_mul by lia. rewrite Nat2Z.id.
  rewrite seq_S, map_app, flat_map_app, map_app. cbn [Nat.add map flat_map].
  rewrite (evalRange_content_prefix start bb (seq 0 (List.length bb)) Hfit)
    by (intros j Hj; apply in_seq in Hj; lia).
  rewrite (map_seq_nth (fun b => float64_of_int (byte_to_Z b)) Byte.x00 bb).
  rewrite contentSamples_values.
  destruct (instantValue_content_end start bb Hfit Hne) as (s & ->).
  rewrite app_nil_r. cbn [map]. eexists. reflexivity.
Qed.

Lemma FromTime_timestamp_Time (ts : Z) : FromTime (timestamp_Time ts) = ts.
Proof.
  rewrite FromTime_millis. unfold timestamp_Time, UTC, time_Unix, int_div, Second, Millisecond.
  pose proof (Z.quot_rem' ts 1000) as H.
  replace (ts ÷ 1000 * (1000 * 1000000) + Z.rem ts 1000 * 1000000)
    with (ts * 1000000) by lia.
  apply Z.div_mul. lia.
Qed.

(** The range of the content query: from the start instant, as many seconds
    as the value has bytes, second by second. *)
Lemma dataRangeOf_written (ts : Z) (n : nat) :
  Z.abs ts < 2 ^ 53 ->
  fitsDuration n ->
  FromTime (Range.Start (dataRangeOf (float64_of_int ts) (float64_of_int (Z.of_nat n)))) = ts
  /\ FromTime (Range.End_ (dataRangeOf (float64_of_int ts) (float64_of_int (Z.of_nat n))))
     = ts + Z.of_nat n * 1000
  /\ int_div (Range.Step (dataRangeOf (float64_of_int ts) (float64_of_int (Z.of_nat n))))
             Millisecond = 1000.
Proof.
  intros Hts Hfit.
  assert (Hn : Z.abs (Z.of_nat n) < 2 ^ 53).
  { unfold fitsDuration, max_int64, Second, Millisecond in Hfit. lia. }
  unfold dataRangeOf. cbn [Range.Start Range.End_ Range.Step].
  rewrite !int64_of_float64_of_int by assumption.
  rewrite fitsDuration_mul by exact Hfit.
  rewrite FromTime_add_seconds, FromTime_timestamp_Time.
  repeat split.
Qed.

Lemma filter_selects_none (q : Query) (db : Prom.TSDB) :
  Prom.holdsNoSeriesOf (qKey q) db -> filter (selects q) db = [].
Proof.
  induction 1 as [|ts db Hts _ IH]; [reflexivity|].
  simpl. unfold selects at 1. rewrite Hts, andb_false_r. exact IH.
Qed.

(** What the backend shows of a key after a first write to it. *)
Lemma samplesOf_written (db0 : Prom.TSDB) (name : string) (bb : list Byte.byte) (t0 : Time) :
  Prom.holdsNoSeriesOf name db0 ->
  Prom.samplesOf (db0 ++ WriteRequest.Timeseries (requestAt name bb t0)) (sizeQuery name)
  = [ {| Sample.Value := float64_of_int (Z.of_nat (List.length bb));
         Sample.Timestamp := FromTime (startOf t0 (List.length bb)) |} ]
  /\ Prom.samplesOf (db0 ++ WriteRequest.Timeseries (requestAt name bb t0)) (startQuery name)
     = [ {| Sample.Value := float64_of_int (FromTime (startOf t0 (List.length bb)));
            Sample.Timestamp := FromTime (startOf t0 (List.length bb)) |} ]
  /\ Prom.samplesOf (db0 ++ WriteRequest.Timeseries (requestAt name bb t0)) (contentQuery name)
     = contentSamples (startOf t0 (List.length bb)) bb.
Proof.
  intros Hnone.
  destruct (seriesOf_requestAt name bb t0) as (Hstart & Hsize & Hcontent).
  unfold seriesOf in *. unfold Prom.samplesOf.
  rewrite !filter_app.
  rewrite (filter_selects_none (sizeQuery name) db0 Hnone),
          (filter_selects_none (startQuery name) db0 Hnone),
          (filter_selects_none (contentQuery name) db0 Hnone).
  unfold sizeQuery, startQuery, contentQuery. cbn [app].
  rewrite Hstart, Hsize, Hcontent. cbn [flat_map]. rewrite !app_nil_r.
  repeat split.
Qed.

(** The round trip on non-empty values: against a backend that holds no
    series of the key yet and stores the samples it is sent, [Set] of a
    non-empty buffer followed by [Get] of the same key returns the buffer,
    provided the two look-back windows of [Get] see the start instant of
    the write: [clk 0] is the reading of the clock during [Set], [clk 1]
    to [clk 4] those during [Get]. *)
Theorem Set_then_Get_returns_the_bytes
        (db0 : Prom.TSDB) (clk : nat -> Time) (name : string) (bb : list Byte.byte) :
  Prom.holdsNoSeriesOf name db0 ->
  bb <> [] ->
  fitsDuration (List.length bb) ->
  Z.abs (FromTime (clk 0%nat) - Z.of_nat (List.length bb) * 1000) < 2 ^ 53 ->
  clk 1%nat <= clk 2%nat ->
  FromTime (clk 1%nat) - 3900000
    < FromTime (clk 0%nat) - Z.of_nat (List.length bb) * 1000 <= FromTime (clk 1%nat) ->
  clk 3%nat <= clk 4%nat ->
  FromTime (clk 3%nat) - 3900000
    < FromTime (clk 0%nat) - Z.of_nat (List.length bb) * 1000 <= FromTime (clk 3%nat) ->
  Prom.setThenGetFrom db0 clk name bb = (None, Done (Ok bb)).
Proof.
  intros Hnone Hne Hfit Habs Hc1 Hw1 Hc3 Hw3.
  rewrite <- (FromTime_startOf (clk 0%nat) (List.length bb) Hfit) in Habs, Hw1, Hw3.
  destruct (samplesOf_written db0 name bb (clk 0%nat) Hnone) as (Hsize & Hstart & Hcontent).
  set (start := startOf (clk 0%nat) (List.length bb)) in *.
  set (db := db0 ++ WriteRequest.Timeseries (requestAt name bb (clk 0%nat))) in *.
  (* the size query *)
  destruct (lookback_sees (clk 1%nat) (clk 2%nat)
              {| Sample.Value := float64_of_int (Z.of_nat (List.length bb));
                 Sample.Timestamp := FromTime start |} Hc1 Hw1)
    as (Hs1 & Hl1 & t1 & Hin1 & Hv1).
  destruct (queryRange_one_sample _ _ db _ t1 Hsize Hs1 Hl1 Hin1 Hv1) as (sizeVal & Q1 & L1).
  (* the start query *)
  destruct (lookback_sees (clk 3%nat) (clk 4%nat)
              {| Sample.Value := float64_of_int (FromTime start);
                 Sample.Timestamp := FromTime start |} Hc3 Hw3)
    as (Hs2 & Hl2 & t2 & Hin2 & Hv2).
  destruct (queryRange_one_sample _ _ db _ t2 Hstart Hs2 Hl2 Hin2 Hv2) as (startVal & Q2 & L2).
  cbn [Sample.Value] in L1, L2.
  (* the content query *)
  destruct (dataRangeOf_written (FromTime start) (List.length bb) Habs Hfit)
    as (Rs & Re & Rstep).
  destruct (evalRange_content start bb Hfit Hne) as (vlast & Hvals).
  assert (Q3 : exists stream : SampleStream.t,
             Prom.queryRange (contentQuery name)
               (dataRangeOf (float64_of_int (FromTime start))
                            (float64_of_int (Z.of_nat (List.length bb)))) db
             = Ok (ValMatrix ([] ++ [stream]))
             /\ map SamplePair.Value (SampleStream.Values stream)
                = map Sample.Value (contentSamples start bb) ++ [vlast]).
  { unfold Prom.queryRange. rewrite Rs, Re, Rstep, Hcontent.
    destruct (Z.leb_spec 1000 0); [lia|].
    destruct (Z.ltb_spec (FromTime start + Z.of_nat (List.length bb) * 1000) (FromTime start));
      [lia|].
    destruct (Prom.evalRange (contentSamples start bb) (FromTime start)
                (FromTime start + Z.of_nat (List.length bb) * 1000) 1000) as [|p ps] eqn:Hpts.
    - destruct (map Sample.Value (contentSamples start bb)); discriminate.
    - eexists. split; [reflexivity|]. exact Hvals. }
  destruct Q3 as (stream & Q3 & Hstream).
  (* the run *)
  unfold Prom.setThenGetFrom.
  rewrite (@KV_Set_round_trip Prom.env Prom.kv name bb (Prom.worldWith db0 clk)
             (proto_Marshalled (requestAt name bb (clk 0%nat))) eq_refl eq_refl).
  cbn -[KV_Get requestAt].
  f_equal.
  assert (Hn : Z.of_nat (List.length bb) < 2 ^ 53).
  { unfold fitsDuration, max_int64, Second, Millisecond in Hfit. lia. }
  match goal with
  | |- fst (KV_Get _ _ ?w) = _ =>
      rewrite (@KV_Get_run Prom.env Prom.kv name w sizeVal startVal
                 (ValMatrix ([] ++ [stream]))
                 (float64_of_int (Z.of_nat (List.length bb)))
                 (float64_of_int (FromTime start))
                 eq_refl Q1 L1 Q2 L2 Q3)
  end.
  rewrite (@Get_bytes_decodes Prom.env [] stream [vlast] start bb Hn Hstream).
  reflexivity.
Qed.

(** "hi" written and read back while another key is stored. *)
Lemma Set_then_Get_returns_the_bytes_witness :
  Prom.holdsNoSeriesOf "greeting" otherData
  /\ hi <> []
  /\ fitsDuration (List.length hi)
  /\ Z.abs (FromTime (clock1700 0%nat) - Z.of_nat (List.length hi) * 1000) < 2 ^ 53
  /\ clock1700 1%nat <= clock1700 2%nat
  /\ FromTime (clock1700 1%nat) - 3900000
       < FromTime (clock1700 0%nat) - Z.of_nat (List.length hi) * 1000
       <= FromTime (clock1700 1%nat)
  /\ clock1700 3%nat <= clock1700 4%nat
  /\ FromTime (clock1700 3%nat) - 3900000
       < FromTime (clock1700 0%nat) - Z.of_nat (List.length hi) * 1000
       <= FromTime (clock1700 3%nat)
  /\ Prom.setThenGetFrom otherData clock1700 "greeting" hi = (None, Done (Ok hi)).
Proof.
  assert (H0 : Prom.holdsNoSeriesOf "greeting" otherData)
    by (repeat constructor).
  assert (H1 : hi <> []) by discriminate.
  assert (H2 : fitsDuration (List.length hi)) by (vm_compute; discriminate).
  assert (H3 : Z.abs (FromTime (clock1700 0%nat) - Z.of_nat (List.length hi) * 1000) < 2 ^ 53)
    by (vm_compute; reflexivity).
  assert (H4 : clock1700 1%nat <= clock1700 2%nat) by (vm_compute; discriminate).
  assert (H5 : FromTime (clock1700 1%nat) - 3900000
               < FromTime (clock1700 0%nat) - Z.of_nat (List.length hi) * 1000
               <= FromTime (clock1700 1%nat))
    by (vm_compute; split; [reflexivity | discriminate]).
  assert (H6 : clock1700 3%nat <= clock1700 4%nat) by (vm_compute; discriminate).
  assert (H7 : FromTime (clock1700 3%nat) - 3900000
               < FromTime (clock1700 0%nat) - Z.of_nat (List.length hi) * 1000
               <= FromTime (clock1700 3%nat))
    by (vm_compute; split; [reflexivity | discriminate]).
  split; [exact H0|]. split; [exact H1|]. split; [exact H2|]. split; [exact H3|].
  split; [exact H4|]. split; [exact H5|]. split; [exact H6|]. split; [exact H7|].
  exact (Set_then_Get_returns_the_bytes otherData clock1700 "greeting" hi
           H0 H1 H2 H3 H4 H5 H6 H7).
Defined.

(** ** The empty value *)

Lemma evalRange_nil (start end_ step : Z) : Prom.evalRange [] start end_ step = [].
Proof.
  unfold Prom.evalRange.
  induction (Prom.steps start end_ step) as [|t ts IH]; [reflexivity|exact IH].
Qed.

Lemma startOf_0 (t : Time) : startOf t 0 = t.
Proof.
  unfold startOf, UTC, Time_Add.
  change (int64_neg (int64_mul Second (Z.of_nat 0))) with 0. lia.
Qed.

(** C1 on the empty buffer, for every key and every instant: against a
    backend that holds no series of the key yet and stores the samples it
    is sent, [Set] of the empty value succeeds, and the [Get] that follows
    reads the size 0 and the start instant, receives a content answer
    without series (no content sample was stored) and panics on indexing
    it.  The clock shows the instant [t] throughout. *)
Theorem Set_then_Get_of_empty_panics (db0 : Prom.TSDB) (t : Time) (name : string) :
  Prom.holdsNoSeriesOf name db0 ->
  Z.abs (FromTime t) < 2 ^ 53 ->
  Prom.setThenGetFrom db0 (fun _ => t) name [] = (None, Panic "index out of range").
Proof.
  intros Hnone Habs.
  destruct (samplesOf_written db0 name [] t Hnone) as (Hsize & Hstart & Hcontent).
  cbn [List.length] in *. rewrite startOf_0 in *.
  set (db := db0 ++ WriteRequest.Timeseries (requestAt name [] t)) in *.
  assert (Hw : FromTime t - 3900000 < FromTime t <= FromTime t) by lia.
  destruct (lookback_sees t t
              {| Sample.Value := float64_of_int (Z.of_nat 0);
                 Sample.Timestamp := FromTime t |} (Z.le_refl t) Hw)
    as (Hs1 & Hl1 & t1 & Hin1 & Hv1).
  destruct (queryRange_one_sample _ _ db _ t1 Hsize Hs1 Hl1 Hin1 Hv1) as (sizeVal & Q1 & L1).
  destruct (lookback_sees t t
              {| Sample.Value := float64_of_int (FromTime t);
                 Sample.Timestamp := FromTime t |} (Z.le_refl t) Hw)
    as (Hs2 & Hl2 & t2 & Hin2 & Hv2).
  destruct (queryRange_one_sample _ _ db _ t2 Hstart Hs2 Hl2 Hin2 Hv2) as (startVal & Q2 & L2).
  cbn [Sample.Value] in L1, L2.
  assert (Hfit : fitsDuration 0) by exact fitsDuration_0.
  destruct (dataRangeOf_written (FromTime t) 0 Habs Hfit) as (Rs & Re & Rstep).
  assert (Q3 : Prom.queryRange (contentQuery name)
                 (dataRangeOf (float64_of_int (FromTime t)) (float64_of_int (Z.of_nat 0))) db
               = Ok (ValMatrix [])).
  { unfold Prom.queryRange. rewrite Rs, Re, Rstep, Hcontent.
    destruct (Z.leb_spec 1000 0); [lia|].
    destruct (Z.ltb_spec (FromTime t + Z.of_nat 0 * 1000) (FromTime t)); [lia|].
    now rewrite evalRange_nil. }
  unfold Prom.setThenGetFrom.
  rewrite (@KV_Set_round_trip Prom.env Prom.kv name [] (Prom.worldWith db0 (fun _ => t))
             (proto_Marshalled (requestAt name [] t)) eq_refl eq_refl).
  cbn -[KV_Get requestAt].
  f_equal.
  match goal with
  | |- fst (KV_Get _ _ ?w) = _ =>
      rewrite (@KV_Get_run Prom.env Prom.kv name w sizeVal startVal (ValMatrix [])
                 (float64_of_int (Z.of_nat 0)) (float64_of_int (FromTime t))
                 eq_refl Q1 L1 Q2 L2 Q3)
  end.
  reflexivity.
Qed.

(** The empty value under the key "greeting", the clock at 1700000000 s. *)
Lemma Set_then_Get_of_empty_panics_witness :
  Prom.holdsNoSeriesOf "greeting" []
  /\ Z.abs (FromTime (1700000000 * Second)) < 2 ^ 53
  /\ Prom.setThenGetFrom [] (fun _ => 1700000000 * Second) "greeting" []
     = (None, Panic "index out of range").
Proof.
  assert (H0 : Prom.holdsNoSeriesOf "greeting" []) by constructor.
  assert (H : Z.abs (FromTime (1700000000 * Second)) < 2 ^ 53) by (vm_compute; reflexivity).
  split; [exact H0|]. split; [exact H|].
  exact (Set_then_Get_of_empty_panics [] (1700000000 * Second) "greeting" H0 H).
Defined.

Section EmptyValue.
Context {E : Env}.

(** The request built from the empty buffer: no content sample, the size 0,
    and a start instant that is the clock's reading. *)
Theorem buildWriteRequest_of_empty (name : string) (w : World) :
  exists (startS sizeS contentS : TimeSeries.t) (md : list MetricMetadata.t),
    fst (buildWriteRequest name (bytes_NewReader []) w)
      = Done (Some {| WriteRequest.Timeseries := [startS; sizeS; contentS];
                      WriteRequest.Metadata := md |}, None)
    /\ TimeSeries.Samples contentS = []
    /\ TimeSeries.Samples sizeS
       = [ {| Sample.Value := FNum (inject_Z 0); Sample.Timestamp := FromTime (now w) |} ]
    /\ TimeSeries.Samples startS
       = [ {| Sample.Value := float64_of_int (FromTime (now w));
              Sample.Timestamp := FromTime (now w) |} ].
Proof.
  rewrite buildWriteRequest_bytes. unfold requestAt. cbn [List.length].
  rewrite startOf_0.
  eexists _, _, _, _. split; [reflexivity|]. repeat split.
Qed.

End EmptyValue.

(** The answers of the storing backend after "hi" was written. *)
Lemma Get_decodes_what_was_written_witness :
  @url_Parse Prom.env (APIURL (opts Prom.kv)) = None
  /\ Z.of_nat (List.length hi) < 2 ^ 53
  /\ Z.abs (FromTime (startOf (clock1700 0%nat) (List.length hi))) < 2 ^ 53
  /\ @api_QueryRange Prom.env (Client (opts Prom.kv)) (APIURL (opts Prom.kv))
       (sizeQuery "greeting")
       (lookback (clock hiWorld (ticks hiWorld)) (clock hiWorld (1 + ticks hiWorld)))
       (backend hiWorld) = Ok hiSizeVal
  /\ getLastValue hiSizeVal = Done (float64_of_int (Z.of_nat (List.length hi)))
  /\ @api_QueryRange Prom.env (Client (opts Prom.kv)) (APIURL (opts Prom.kv))
       (startQuery "greeting")
       (lookback (clock hiWorld (2 + ticks hiWorld)) (clock hiWorld (3 + ticks hiWorld)))
       (backend hiWorld) = Ok hiStartVal
  /\ getLastValue hiStartVal
     = Done (float64_of_int (FromTime (startOf (clock1700 0%nat) (List.length hi))))
  /\ @api_QueryRange Prom.env (Client (opts Prom.kv)) (APIURL (opts Prom.kv))
       (contentQuery "greeting")
       (dataRangeOf (float64_of_int (FromTime (startOf (clock1700 0%nat) (List.length hi))))
                    (float64_of_int (Z.of_nat (List.length hi))))
       (backend hiWorld) = Ok (ValMatrix ([] ++ [hiStream]))
  /\ map SamplePair.Value (SampleStream.Values hiStream)
     = map Sample.Value (contentSamples (startOf (clock1700 0%nat) (List.length hi)) hi)
       ++ [FNum 105]
  /\ fst (KV_Get Prom.kv "greeting" hiWorld) = Done (Ok hi).
Proof.
  assert (H1 : @url_Parse Prom.env (APIURL (opts Prom.kv)) = None) by reflexivity.
  assert (H2 : Z.of_nat (List.length hi) < 2 ^ 53) by (vm_compute; reflexivity).
  assert (H3 : Z.abs (FromTime (startOf (clock1700 0%nat) (List.length hi))) < 2 ^ 53)
    by (vm_compute; reflexivity).
  assert (H4 : @api_QueryRange Prom.env (Client (opts Prom.kv)) (APIURL (opts Prom.kv))
                 (sizeQuery "greeting")
                 (lookback (clock hiWorld (ticks hiWorld)) (clock hiWorld (1 + ticks hiWorld)))
                 (backend hiWorld) = Ok hiSizeVal) by (vm_compute; reflexivity).
  assert (H5 : getLastValue hiSizeVal = Done (float64_of_int (Z.of_nat (List.length hi))))
    by (vm_compute; reflexivity).
  assert (H6 : @api_QueryRange Prom.env (Client (opts Prom.kv)) (APIURL (opts Prom.kv))
                 (startQuery "greeting")
                 (lookback (clock hiWorld (2 + ticks hiWorld)) (clock hiWorld (3 + ticks hiWorld)))
                 (backend hiWorld) = Ok hiStartVal) by (vm_compute; reflexivity).
  assert (H7 : getLastValue hiStartVal
               = Done (float64_of_int (FromTime (startOf (clock1700 0%nat) (List.length hi)))))
    by (vm_compute; reflexivity).
  assert (H8 : @api_QueryRange Prom.env (Client (opts Prom.kv)) (APIURL (opts Prom.kv))
                 (contentQuery "greeting")
                 (dataRangeOf
                    (float64_of_int (FromTime (startOf (clock1700 0%nat) (List.length hi))))
                    (float64_of_int (Z.of_nat (List.length hi))))
                 (backend hiWorld) = Ok (ValMatrix ([] ++ [hiStream])))
    by (vm_compute; reflexivity).
  assert (H9 : map SamplePair.Value (SampleStream.Values hiStream)
               = map Sample.Value
                     (contentSamples (startOf (clock1700 0%nat) (List.length hi)) hi)
                 ++ [FNum 105]) by (vm_compute; reflexivity).
  repeat (split; [assumption|]).
  exact (@Get_decodes_what_was_written Prom.env Prom.kv "greeting" hiWorld hi
           (clock1700 0%nat) hiSizeVal hiStartVal [] hiStream [FNum 105]
           H1 H2 H3 H4 H5 H6 H7 H8 H9).
Defined.

(** ** A second write to the same key *)

(** The samples of the size and of the start series are stamped at the
    start instant of their write, so a value written to a key fewer seconds
    after an earlier one than it has bytes starts before it and does not
    shadow it: one byte "a" is written at 1700000000.5 s, "hello, world" to
    the same key 9.5 s later; both writes succeed, and a read one second
    later returns "a". *)
Theorem longer_value_written_soon_after_is_not_read :
  Prom.setSetGet clockTwoWrites "greeting" [Byte.x61] helloWorld
  = (None, None, Done (Ok [Byte.x61])).
Proof. vm_compute. reflexivity. Qed.

(** * Further properties of the code *)

(** ** The two helpers that read an answer *)

Lemma go_index_map {A B : Type} (f : A -> B) (l : list A) (i : Z) :
  go_index (map f l) i
  = match go_index l i with
    | Done x => Done (f x)
    | Panic msg => Panic msg
    end.
Proof.
  unfold go_index. rewrite length_map, nth_error_map.
  destruct ((i <? 0) || (Z.of_nat (List.length l) <=? i)); [reflexivity|].
  destruct (nth_error l (Z.to_nat i)); reflexivity.
Qed.

(** [getLastValue] returns the last of the values [getValues] returns: it
    panics when [getValues] panics, with the same message, and when
    [getValues] returns no value at all. *)
Theorem getLastValue_is_the_last_of_getValues (val : model_Value) :
  getLastValue val
  = match getValues val with
    | Done points => go_index points (Z.of_nat (List.length points) - 1)
    | Panic msg => Panic msg
    end.
Proof.
  destruct val as [m| | | |]; try reflexivity.
  unfold getLastValue, getValues.
  destruct (go_index m (Z.of_nat (List.length m) - 1)) as [stream|msg]; [|reflexivity].
  rewrite fold_left_snoc. simpl app.
  rewrite go_index_map, length_map. reflexivity.
Qed.

(** Of an answer with several series only the last one is read: the series
    before it change neither the values [getValues] returns nor the value
    [getLastValue] returns. *)
Theorem only_the_last_series_is_read (earlier : Matrix) (stream : SampleStream.t) :
  getValues (ValMatrix (earlier ++ [stream]))
    = Done (map SamplePair.Value (SampleStream.Values stream))
  /\ getValues (ValMatrix (earlier ++ [stream])) = getValues (ValMatrix [stream])
  /\ getLastValue (ValMatrix (earlier ++ [stream])) = getLastValue (ValMatrix [stream]).
Proof.
  assert (H : forall e : Matrix,
             getValues (ValMatrix (e ++ [stream]))
             = Done (map SamplePair.Value (SampleStream.Values stream))).
  { intros e. unfold getValues. rewrite go_index_last, fold_left_snoc. reflexivity. }
  split; [apply H|]. split.
  - rewrite (H earlier). symmetry. apply (H []).
  - unfold getLastValue. rewrite go_index_last.
    change [stream] with ([] ++ [stream]). rewrite go_index_last. reflexivity.
Qed.

(** ** The last stage of [Get], case by case *)

Section LastStage.
Context {E : Env}.

Lemma uint8_of_zero : uint8_of_float64 (FNum 0) = Byte.x00.
Proof. reflexivity. Qed.

Lemma firstn_app_repeat {A : Type} (l : list A) (x : A) (k extra : nat) :
  (List.length l <= k)%nat -> (k <= List.length l + extra)%nat ->
  firstn k (l ++ repeat x extra) = l ++ repeat x (k - List.length l).
Proof.
  intros Hl Hk. rewrite firstn_app. rewrite (@firstn_all2 A k l) by lia. f_equal.
  assert (G : forall m n : nat, (m <= n)%nat -> firstn m (repeat x n) = repeat x m).
  { induction m as [|m IH]; intros [|n] Hle; simpl; try reflexivity; try lia.
    f_equal. apply IH. lia. }
  apply G. lia.
Qed.

(** When the last series holds fewer values than [fileSizeBytes] but the
    slice of its values has the capacity for them, [Get] does not fail: it
    returns the bytes of the values followed by zero bytes, up to
    [fileSizeBytes] bytes in all. *)
Theorem Get_bytes_pads_with_zeros
        (earlier : Matrix) (stream : SampleStream.t) (fileSizeBytes : float64) :
  Z.of_nat (List.length (SampleStream.Values stream)) < int64_of_float64 fileSizeBytes ->
  int64_of_float64 fileSizeBytes
    <= Z.of_nat (cap_of (List.length (SampleStream.Values stream))) ->
  Get_bytes (ValMatrix (earlier ++ [stream])) fileSizeBytes
  = Done (map uint8_of_float64 (map SamplePair.Value (SampleStream.Values stream))
          ++ repeat Byte.x00
               (Z.to_nat (int64_of_float64 fileSizeBytes)
                - List.length (SampleStream.Values stream))).
Proof.
  intros Hlt Hcap.
  set (k := int64_of_float64 fileSizeBytes) in *.
  unfold Get_bytes. rewrite getValues_last.
  unfold go_slice_to. rewrite length_map. fold k.
  destruct (Z.ltb_spec k 0); [lia|].
  destruct (Z.ltb_spec (Z.of_nat (cap_of (List.length (SampleStream.Values stream)))) k);
    [lia|].
  simpl "||".
  rewrite firstn_app_repeat by (rewrite length_map; lia).
  rewrite fold_left_snoc. simpl app. rewrite map_app, length_map.
  f_equal. f_equal.
  induction (Z.to_nat k - List.length (SampleStream.Values stream))%nat as [|m IH];
    [reflexivity|].
  simpl. now rewrite IH.
Qed.

Lemma nil_or_last {A : Type} (l : list A) :
  l = [] \/ exists (earlier : list A) (x : A), l = earlier ++ [x].
Proof.
  destruct l as [|y l]; [now left|]. right.
  destruct (@exists_last A (y :: l)) as (earlier & x & H); [discriminate|].
  now exists earlier, x.
Qed.

(** The last stage of [Get] panics in exactly three cases: the answer is
    not a matrix, the matrix has no series, or [fileSizeBytes] is negative
    or beyond the capacity of the slice of values. *)
Theorem Get_bytes_panics_exactly_when (val : model_Value) (fileSizeBytes : float64) :
  (exists msg : string, Get_bytes val fileSizeBytes = Panic msg)
  <-> ((forall m : Matrix, val <> ValMatrix m)
       \/ val = ValMatrix []
       \/ exists (earlier : Matrix) (stream : SampleStream.t),
            val = ValMatrix (earlier ++ [stream])
            /\ (int64_of_float64 fileSizeBytes < 0
                \/ Z.of_nat (cap_of (List.length (SampleStream.Values stream)))
                   < int64_of_float64 fileSizeBytes)).
Proof.
  destruct val as [m| | | |];
    try (split; [intros _; left; intros m; discriminate
                | intros _; eexists; reflexivity]).
  destruct (nil_or_last m) as [->|(earlier & stream & ->)].
  - split; [intros _; right; left; reflexivity | intros _; eexists; reflexivity].
  - unfold Get_bytes. rewrite getValues_last. unfold go_slice_to. rewrite length_map.
    set (k := int64_of_float64 fileSizeBytes).
    destruct (Z.ltb_spec k 0) as [Hneg|Hnn].
    + simpl "||". split; [|intros _; eexists; reflexivity].
      intros _. right. right. exists earlier, stream. split; [reflexivity|]. now left.
    + destruct (Z.ltb_spec (Z.of_nat (cap_of (List.length (SampleStream.Values stream)))) k)
        as [Hbig|Hfit]; simpl "||".
      * split; [|intros _; eexists; reflexivity].
        intros _. right. right. exists earlier, stream. split; [reflexivity|]. now right.
      * split.
        -- intros (msg & Hmsg). discriminate.
        -- intros [Hm|[Hnil|(e' & s' & Heq & Hk)]].
           ++ exfalso. eapply Hm. reflexivity.
           ++ exfalso. inversion Hnil as [Hn]. destruct earlier; discriminate.
           ++ exfalso. inversion Heq as [Heq'].
              apply app_inj_tail in Heq'. destruct Heq' as (_ & <-). lia.
Qed.

End LastStage.

(** ** The runs of [Get], step by step *)

Section GetSteps.
Context {E : Env}.

Ltac get_step :=
  unfold KV_Get, api_NewClient, bind, time_Now, QueryRange, lift, ret,
         advance, sizeEvent, startEvent, contentEvent,
         lookback, dataRangeOf, sizeQuery, startQuery, contentQuery in *;
  cbn [Nat.add clock ticks backend trace fst snd] in *.

(** A run of [Get] ends at the first step that fails, with the error of
    that step and without any later query: at once when the address of the
    API does not parse, and after one, two or three queries when that query
    is answered with an error. *)
Theorem Get_returns_the_first_error (db : KV) (name : string) (w : World) :
  (forall err : error,
      url_Parse (APIURL (opts db)) = Some err ->
      KV_Get db name w = (Done (Err err), w))
  /\ (forall err : error,
         url_Parse (APIURL (opts db)) = None ->
         api_QueryRange (Client (opts db)) (APIURL (opts db)) (sizeQuery name)
           (lookback (clock w (ticks w)) (clock w (1 + ticks w))) (backend w) = Err err ->
         KV_Get db name w = (Done (Err err), advance w 2 [sizeEvent name w]))
  /\ (forall (err : error) (sizeVal : model_Value) (fileSizeBytes : float64),
         url_Parse (APIURL (opts db)) = None ->
         api_QueryRange (Client (opts db)) (APIURL (opts db)) (sizeQuery name)
           (lookback (clock w (ticks w)) (clock w (1 + ticks w))) (backend w) = Ok sizeVal ->
         getLastValue sizeVal = Done fileSizeBytes ->
         api_QueryRange (Client (opts db)) (APIURL (opts db)) (startQuery name)
           (lookback (clock w (2 + ticks w)) (clock w (3 + ticks w))) (backend w) = Err err ->
         KV_Get db name w
         = (Done (Err err), advance w 4 [sizeEvent name w; startEvent name w]))
  /\ (forall (err : error) (sizeVal startVal : model_Value)
             (fileSizeBytes timestampSeconds : float64),
         url_Parse (APIURL (opts db)) = None ->
         api_QueryRange (Client (opts db)) (APIURL (opts db)) (sizeQuery name)
           (lookback (clock w (ticks w)) (clock w (1 + ticks w))) (backend w) = Ok sizeVal ->
         getLastValue sizeVal = Done fileSizeBytes ->
         api_QueryRange (Client (opts db)) (APIURL (opts db)) (startQuery name)
           (lookback (clock w (2 + ticks w)) (clock w (3 + ticks w))) (backend w)
           = Ok startVal ->
         getLastValue startVal = Done timestampSeconds ->
         api_QueryRange (Client (opts db)) (APIURL (opts db)) (contentQuery name)
           (dataRangeOf timestampSeconds fileSizeBytes) (backend w) = Err err ->
         KV_Get db name w
         = (Done (Err err),
            advance w 4 [sizeEvent name w; startEvent name w;
                         contentEvent name timestampSeconds fileSizeBytes])).
Proof.
  split; [|split; [|split]].
  - intros err Hu. unfold KV_Get, api_NewClient. rewrite Hu. reflexivity.
  - intros err Hu H1. get_step. rewrite Hu. cbn [clock ticks backend trace fst snd].
    rewrite H1. reflexivity.
  - intros err sizeVal fileSizeBytes Hu H1 L1 H2. get_step. rewrite Hu.
    cbn [clock ticks backend trace fst snd]. rewrite H1, L1.
    cbn [clock ticks backend trace fst snd]. rewrite H2.
    rewrite <- app_assoc. reflexivity.
  - intros err sizeVal startVal fileSizeBytes timestampSeconds Hu H1 L1 H2 L2 H3.
    get_step. rewrite Hu.
    cbn [clock ticks backend trace fst snd]. rewrite H1, L1.
    cbn [clock ticks backend trace fst snd]. rewrite H2, L2.
    cbn [clock ticks backend trace fst snd]. rewrite H3.
    rewrite <- !app_assoc. reflexivity.
Qed.

(** A panic of [getLastValue] is a panic of [Get]: when the answer to the
    size query has no value to return (it is not a matrix, it has no series,
    or its last series has no sample), [Get] panics after that one query;
    the same for the answer to the start query, after two. *)
Theorem Get_panics_on_an_answer_without_value (db : KV) (name : string) (w : World) :
  (forall (sizeVal : model_Value) (msg : string),
      url_Parse (APIURL (opts db)) = None ->
      api_QueryRange (Client (opts db)) (APIURL (opts db)) (sizeQuery name)
        (lookback (clock w (ticks w)) (clock w (1 + ticks w))) (backend w) = Ok sizeVal ->
      getLastValue sizeVal = Panic msg ->
      KV_Get db name w = (Panic msg, advance w 2 [sizeEvent name w]))
  /\ (forall (sizeVal startVal : model_Value) (fileSizeBytes : float64) (msg : string),
         url_Parse (APIURL (opts db)) = None ->
         api_QueryRange (Client (opts db)) (APIURL (opts db)) (sizeQuery name)
           (lookback (clock w (ticks w)) (clock w (1 + ticks w))) (backend w) = Ok sizeVal ->
         getLastValue sizeVal = Done fileSizeBytes ->
         api_QueryRange (Client (opts db)) (APIURL (opts db)) (startQuery name)
           (lookback (clock w (2 + ticks w)) (clock w (3 + ticks w))) (backend w)
           = Ok startVal ->
         getLastValue startVal = Panic msg ->
         KV_Get db name w
         = (Panic msg, advance w 4 [sizeEvent name w; startEvent name w])).
Proof.
  split.
  - intros sizeVal msg Hu H1 L1. get_step. rewrite Hu.
    cbn [clock ticks backend trace fst snd]. rewrite H1, L1. reflexivity.
  - intros sizeVal startVal fileSizeBytes msg Hu H1 L1 H2 L2. get_step. rewrite Hu.
    cbn [clock ticks backend trace fst snd]. rewrite H1, L1.
    cbn [clock ticks backend trace fst snd]. rewrite H2, L2.
    rewrite <- app_assoc. reflexivity.
Qed.

(** [Get] only reads: whatever it returns, it leaves the backend and the
    clock as they were, posts nothing, and sends at most the three range
    queries, in the order size, start, content, after two clock readings for
    each of the first two. *)
Theorem Get_only_reads (db : KV) (name : string) (w : World) :
  exists (k : nat) (timestampSeconds fileSizeBytes : float64),
    (k <= 3)%nat
    /\ snd (KV_Get db name w)
       = advance w (2 * Nat.min k 2)
           (firstn k [sizeEvent name w; startEvent name w;
                      contentEvent name timestampSeconds fileSizeBytes]).
Proof.
  get_step.
  destruct (url_Parse (APIURL (opts db))) as [e|].
  { exists 0%nat, FNaN, FNaN. split; [lia|]. cbn. rewrite app_nil_r. now destruct w. }
  cbn [clock ticks backend trace fst snd].
  destruct (api_QueryRange _ _ _ _ _) as [sizeVal|e].
  2:{ exists 1%nat, FNaN, FNaN. split; [lia|]. reflexivity. }
  destruct (getLastValue sizeVal) as [fileSizeBytes|msg].
  2:{ exists 1%nat, FNaN, FNaN. split; [lia|]. reflexivity. }
  cbn [clock ticks backend trace fst snd].
  destruct (api_QueryRange _ _ _ _ _) as [startVal|e].
  2:{ exists 2%nat, FNaN, FNaN. split; [lia|]. cbn. now rewrite <- app_assoc. }
  destruct (getLastValue startVal) as [timestampSeconds|msg].
  2:{ exists 2%nat, FNaN, FNaN. split; [lia|]. cbn. now rewrite <- app_assoc. }
  cbn [clock ticks backend trace fst snd].
  exists 3%nat, timestampSeconds, fileSizeBytes. split; [lia|].
  destruct (api_QueryRange _ _ _ _ _) as [contentVal|e].
  2:{ cbn. now rewrite <- !app_assoc. }
  destruct (Get_bytes contentVal fileSizeBytes); cbn; now rewrite <- !app_assoc.
Qed.

End GetSteps.

(** ** The runs of [Set], step by step *)

Section SetSteps.
Context {E : Env}.

Lemma Reader_eta (r : Reader) : rdErr r = None -> r = bytes_NewReader (rdBytes r).
Proof. destruct r as [b e]. simpl. intros ->. reflexivity. Qed.

(** [Set] returns the first local failure unchanged and sends nothing: the
    error of the reader, before the clock is read; the error of the
    marshaller; the error of parsing the write URL. *)
Theorem Set_fails_before_sending (db : KV) (name : string) (r : Reader) (w : World) :
  (forall err : error,
      rdErr r = Some err ->
      KV_Set db name r w = (Done (Some err), w))
  /\ (forall err : error,
         rdErr r = None ->
         proto_Marshal (requestAt name (rdBytes r) (now w)) = Err err ->
         KV_Set db name r w = (Done (Some err), advance w 1 []))
  /\ (forall (err : error) (pBuf : ProtoBytes),
         rdErr r = None ->
         proto_Marshal (requestAt name (rdBytes r) (now w)) = Ok pBuf ->
         url_Parse (WriteURL (opts db)) = Some err ->
         KV_Set db name r w = (Done (Some err), advance w 1 [])).
Proof.
  assert (Hadv : advance w 1 [] = tick w).
  { unfold advance, tick. cbn. now rewrite app_nil_r. }
  split; [|split].
  - intros err Hr. unfold KV_Set, bind. rewrite buildWriteRequest_reads, Hr. reflexivity.
  - intros err Hr Hm. unfold KV_Set, bind. rewrite buildWriteRequest_reads, Hr, Hm, Hadv.
    reflexivity.
  - intros err pBuf Hr Hm Hu. unfold KV_Set, bind, http_NewRequest.
    rewrite buildWriteRequest_reads, Hr, Hm, Hu, Hadv. reflexivity.
Qed.

(** [Set] never panics, never queries, and posts at most once.  When it
    posts, it is after one reading of the clock, with the configured client
    (the default one without), and the request is a POST to the write URL
    whose body is the compressed, marshalled request built from the input,
    with one value for each of the four headers; the backend is then what
    the endpoint made of it. *)
Theorem Set_posts_at_most_once (db : KV) (name : string) (r : Reader) (w : World) :
  exists err : option error,
    fst (KV_Set db name r w) = Done err
    /\ (snd (KV_Set db name r w) = w
        \/ snd (KV_Set db name r w) = advance w 1 []
        \/ exists (pBuf : ProtoBytes) (req : Request.t),
             rdErr r = None
             /\ proto_Marshal (requestAt name (rdBytes r) (now w)) = Ok pBuf
             /\ Request.Method req = "POST"%string
             /\ Request.URL req = WriteURL (opts db)
             /\ Request.Body req = snappy_Encode pBuf
             /\ Header_lookup (Request.Header req) "Content-Encoding" = ["snappy"%string]
             /\ Header_lookup (Request.Header req) "Content-Type"
                = ["application/x-protobuf"%string]
             /\ Header_lookup (Request.Header req) "User-Agent" = ["promkv/v0.0.0"%string]
             /\ Header_lookup (Request.Header req) "X-Prometheus-Remote-Write-Version"
                = ["0.1.0"%string]
             /\ List.length (Request.Header req) = 4%nat
             /\ snd (KV_Set db name r w)
                = {| clock := clock w; ticks := S (ticks w);
                     backend := snd (http_Do (clientOf db) req (backend w));
                     trace := trace w ++ [EvPost req] |}).
Proof.
  assert (Hadv : tick w = advance w 1 []).
  { unfold advance, tick. cbn. now rewrite app_nil_r. }
  destruct (rdErr r) as [e|] eqn:Hr.
  { exists (Some e). unfold KV_Set, bind. rewrite buildWriteRequest_reads, Hr.
    split; [reflexivity|]. now left. }
  destruct (proto_Marshal (requestAt name (rdBytes r) (now w))) as [pBuf|e] eqn:Hm.
  2:{ exists (Some e). unfold KV_Set, bind. rewrite buildWriteRequest_reads, Hr, Hm.
      split; [reflexivity|]. right. left. exact Hadv. }
  destruct (url_Parse (WriteURL (opts db))) as [e|] eqn:Hu.
  { exists (Some e). unfold KV_Set, bind, http_NewRequest.
    rewrite buildWriteRequest_reads, Hr, Hm, Hu.
    split; [reflexivity|]. right. left. exact Hadv. }
  rewrite (Reader_eta r Hr).
  rewrite (KV_Set_round_trip db name (rdBytes r) w pBuf Hm Hu). cbn zeta. cbn [fst snd].
  eexists. split; [reflexivity|]. right. right.
  exists pBuf, (postOf (WriteURL (opts db)) (snappy_Encode pBuf)).
  repeat split.
Qed.

End SetSteps.

(** ** The storing backend, whatever it holds *)

Lemma flat_map_nil_all {A B : Type} (f : A -> list B) (l : list A) :
  (forall x, In x l -> f x = []) -> flat_map f l = [].
Proof.
  induction l as [|x l IH]; intros H; [reflexivity|].
  simpl. rewrite (H x) by now left. apply IH. intros y Hy. apply H. now right.
Qed.

Lemma seq_split_at (j n : nat) :
  (j <= n)%nat -> seq 0 (S n) = seq 0 j ++ j :: seq (S j) (n - j).
Proof.
  intros H. replace (S n) with (j + S (n - j))%nat by lia.
  rewrite seq_app. reflexivity.
Qed.

Lemma instantValue_none (ss : list Sample.t) (t : Z) :
  (forall s, In s ss -> Prom.visible t s = false) -> Prom.instantValue ss t = None.
Proof.
  intros H. pose proof (instantValue_spec ss t) as Hspec.
  destruct (Prom.instantValue ss t) as [s|]; [|reflexivity].
  destruct Hspec as (Hin & Hvis & _). rewrite (H s Hin) in Hvis. discriminate.
Qed.

(** The last value of a look-back query is that of the most recently
    stamped sample of the series, when that sample is at most sixty-five
    minutes old and not later than the first reading of the clock. *)
Lemma queryRange_latest (q : Query) (db : Prom.TSDB) (s : Sample.t) (start end_ : Time) :
  In s (Prom.samplesOf db q) ->
  (forall s', In s' (Prom.samplesOf db q) -> Sample.Timestamp s' <= Sample.Timestamp s) ->
  (forall s', In s' (Prom.samplesOf db q) -> Sample.Timestamp s' = Sample.Timestamp s ->
              Sample.Value s' = Sample.Value s) ->
  start <= end_ ->
  FromTime start - 3900000 < Sample.Timestamp s <= FromTime start ->
  exists val : model_Value,
    Prom.queryRange q (lookback start end_) db = Ok val
    /\ getLastValue val = Done (Sample.Value s).
Proof.
  intros Hin Hmax Hval Hle Hs.
  pose proof (FromTime_mono start end_ Hle) as Hmono.
  set (ss := Prom.samplesOf db q) in *.
  unfold Prom.queryRange. fold ss.
  unfold lookback, UTC. cbn [Range.Start Range.End_ Range.Step].
  change (- Hour) with ((- 3600) * Second).
  rewrite FromTime_add_seconds.
  change (int_div Minute Millisecond) with 60000.
  set (A := FromTime start + -3600 * 1000).
  set (B := FromTime end_) in *.
  set (T := Sample.Timestamp s) in *.
  destruct (Z.leb_spec 60000 0); [lia|].
  destruct (Z.ltb_spec B A); [lia|].
  set (jz := Z.min ((B - A) / 60000) ((T + 299999 - A) / 60000)).
  assert (Hjz : 0 <= jz <= (B - A) / 60000
                /\ A + jz * 60000 - 300000 < T <= A + jz * 60000
                /\ forall j' : Z, jz < j' -> j' <= (B - A) / 60000 ->
                                  T + 300000 <= A + j' * 60000).
  { subst jz. split; [|split].
    - Z.to_euclidean_division_equations. lia.
    - Z.to_euclidean_division_equations. lia.
    - intros j' Hlt Hle'. Z.to_euclidean_division_equations. lia. }
  destruct Hjz as (Hj0 & Hjvis & Hjlast).
  set (F := fun t : Z =>
              match Prom.instantValue ss t with
              | Some s0 => [ {| SamplePair.Timestamp := t;
                                SamplePair.Value := Sample.Value s0 |} ]
              | None => []
              end).
  assert (Hpoints : exists before p,
             Prom.evalRange ss A B 60000 = before ++ [p]
             /\ SamplePair.Value p = Sample.Value s).
  { unfold Prom.evalRange, Prom.steps. fold F.
    rewrite (seq_split_at (Z.to_nat jz) (Z.to_nat ((B - A) / 60000))) by lia.
    rewrite map_app, flat_map_app. cbn [map flat_map].
    rewrite (flat_map_nil_all F
               (map (fun j : nat => A + Z.of_nat j * 60000)
                    (seq (S (Z.to_nat jz)) (Z.to_nat ((B - A) / 60000) - Z.to_nat jz)))).
    - rewrite app_nil_r. rewrite Z2Nat.id by lia.
      assert (Hvis : Prom.visible (A + jz * 60000) s = true) by (apply visible_iff; lia).
      pose proof (instantValue_spec ss (A + jz * 60000)) as Hspec.
      unfold F at 2.
      destruct (Prom.instantValue ss (A + jz * 60000)) as [s0|].
      + destruct Hspec as (Hin0 & Hvis0 & Hmax0).
        eexists _, _. split; [reflexivity|]. cbn [SamplePair.Value].
        apply Hval; [exact Hin0|].
        specialize (Hmax0 s Hin Hvis). specialize (Hmax s0 Hin0). fold T in Hmax0, Hmax. lia.
      + rewrite (Hspec s Hin) in Hvis. discriminate.
    - intros t Ht. apply in_map_iff in Ht. destruct Ht as (j' & <- & Hj').
      apply in_seq in Hj'. unfold F.
      rewrite instantValue_none; [reflexivity|].
      intros s0 Hs0. specialize (Hmax s0 Hs0). fold T in Hmax.
      assert (Hlate : T + 300000 <= A + Z.of_nat j' * 60000) by (apply Hjlast; lia).
      destruct (Prom.visible (A + Z.of_nat j' * 60000) s0) eqn:Hv; [|reflexivity].
      apply visible_iff in Hv. lia. }
  destruct Hpoints as (before & p & Hpts & Hp).
  rewrite Hpts.
  destruct (before ++ [p]) as [|p0 rest] eqn:Heq.
  { destruct before; discriminate. }
  eexists. split; [reflexivity|].
  rewrite <- Hp.
  apply (getLastValue_last [] _ before p). cbn [SampleStream.Values]. symmetry. exact Heq.
Qed.

(** The content query over the seconds of a value, on a series that holds
    the value's samples among others. *)
Lemma evalRange_content_among (ss : list Sample.t) (start : Time) (bb : list Byte.byte) :
  fitsDuration (List.length bb) ->
  bb <> [] ->
  showsContent ss start bb ->
  exists vlast : float64,
    map SamplePair.Value
        (Prom.evalRange ss (FromTime start)
                        (FromTime start + Z.of_nat (List.length bb) * 1000) 1000)
    = map Sample.Value (contentSamples start bb) ++ [vlast].
Proof.
  intros Hfit Hne (Hhas & Honly).
  assert (Hts : forall j b, (j < List.length bb)%nat ->
                  Sample.Timestamp (contentSample start j b)
                  = FromTime start + Z.of_nat j * 1000).
  { intros j b Hj. apply contentSample_timestamp.
    apply (fitsDuration_le j (List.length bb)); [lia|exact Hfit]. }
  assert (Hstep : forall j b, nth_error bb j = Some b ->
             exists s, Prom.instantValue ss (FromTime start + Z.of_nat j * 1000) = Some s
                       /\ Sample.Value s = float64_of_int (byte_to_Z b)).
  { intros j b Hb.
    assert (Hj : (j < List.length bb)%nat) by (apply nth_error_Some; congruence).
    pose proof (Hhas j b Hb) as Hin.
    assert (Hvis : Prom.visible (FromTime start + Z.of_nat j * 1000)
                                (contentSample start j b) = true).
    { apply visible_iff. rewrite (Hts j b Hj). lia. }
    pose proof (instantValue_spec ss (FromTime start + Z.of_nat j * 1000)) as Hspec.
    destruct (Prom.instantValue ss (FromTime start + Z.of_nat j * 1000)) as [s|].
    - exists s. split; [reflexivity|].
      destruct Hspec as (Hs & Hsv & Hmax).
      specialize (Hmax _ Hin Hvis). rewrite (Hts j b Hj) in Hmax.
      apply visible_iff in Hsv.
      apply (Honly s j b Hs Hb). lia.
    - rewrite (Hspec _ Hin) in Hvis. discriminate. }
  assert (Hend : exists s, Prom.instantValue ss
                             (FromTime start + Z.of_nat (List.length bb) * 1000) = Some s).
  { destruct (exists_last Hne) as (before & b & Heq).
    assert (Hlen : List.length bb = S (List.length before)) by (rewrite Heq; apply last_length).
    assert (Hb : nth_error bb (List.length before) = Some b).
    { rewrite Heq, nth_error_app2, Nat.sub_diag by lia. reflexivity. }
    pose proof (Hhas _ b Hb) as Hin.
    pose proof (instantValue_spec ss (FromTime start + Z.of_nat (List.length bb) * 1000))
      as Hspec.
    destruct (Prom.instantValue ss (FromTime start + Z.of_nat (List.length bb) * 1000))
      as [s|]; [now exists s|].
    assert (Hvis : Prom.visible (FromTime start + Z.of_nat (List.length bb) * 1000)
                                (contentSample start (List.length before) b) = true).
    { apply visible_iff. rewrite (Hts _ b) by lia. lia. }
    rewrite (Hspec _ Hin) in Hvis. discriminate. }
  unfold Prom.evalRange, Prom.steps.
  replace (FromTime start + Z.of_nat (List.length bb) * 1000 - FromTime start)
    with (Z.of_nat (List.length bb) * 1000) by lia.
  rewrite Z.div_mul by lia. rewrite Nat2Z.id.
  rewrite seq_S, map_app, flat_map_app, map_app. cbn [Nat.add map flat_map].
  destruct Hend as (s & ->). rewrite app_nil_r. cbn [map].
  exists (Sample.Value s). f_equal.
  rewrite contentSamples_values, <- (map_seq_nth (fun b => float64_of_int (byte_to_Z b)) Byte.x00 bb).
  assert (G : forall js : list nat,
             (forall j, In j js -> (j < List.length bb)%nat) ->
             map SamplePair.Value
               (flat_map
                  (fun t => match Prom.instantValue ss t with
                            | Some s0 => [ {| SamplePair.Timestamp := t;
                                              SamplePair.Value := Sample.Value s0 |} ]
                            | None => []
                            end)
                  (map (fun j => FromTime start + Z.of_nat j * 1000) js))
             = map (fun j => float64_of_int (byte_to_Z (nth j bb Byte.x00))) js).
  { induction js as [|j js IH]; intros Hjs; [reflexivity|].
    cbn [map flat_map].
    assert (Hj : (j < List.length bb)%nat) by (apply Hjs; now left).
    destruct (Hstep j (nth j bb Byte.x00) (nth_error_nth' bb Byte.x00 Hj)) as (s0 & -> & Hv).
    cbn [app map SamplePair.Value]. rewrite Hv. f_equal.
    apply IH. intros j' Hj'. apply Hjs. now right. }
  apply G. intros j Hj. apply in_seq in Hj. lia.
Qed.

(** The content samples of a write show its content. *)
Lemma showsContent_own (start : Time) (bb : list Byte.byte) :
  fitsDuration (List.length bb) -> showsContent (contentSamples start bb) start bb.
Proof.
  intros Hfit. split.
  - intros i b Hb. eapply nth_error_In. apply contentSamples_nth, Hb.
  - intros s' j b Hs' Hb Hts.
    destruct (In_contentSamples start bb s' Hs') as (i & b' & Hb' & ->).
    assert (Hi : (i < List.length bb)%nat) by (apply nth_error_Some; congruence).
    rewrite contentSample_timestamp in Hts
      by (apply (fitsDuration_le i (List.length bb)); [lia|exact Hfit]).
    assert (i = j) by lia. subst i. rewrite Hb in Hb'. now inversion Hb'.
Qed.

(** [Get] against the storing backend returns the non-empty value whose
    size and start samples are the most recently stamped of the key and
    whose content samples the content series shows, when the two look-back
    windows see the start of the value. *)
Lemma Prom_Get_reads (db : @KV Prom.env) (name : string) (w : @World Prom.env)
      (bb : list Byte.byte) (start : Time) :
  bb <> [] ->
  fitsDuration (List.length bb) ->
  Z.abs (FromTime start) < 2 ^ 53 ->
  latestIn (Prom.samplesOf (backend w) (sizeQuery name))
           {| Sample.Value := float64_of_int (Z.of_nat (List.length bb));
              Sample.Timestamp := FromTime start |} ->
  latestIn (Prom.samplesOf (backend w) (startQuery name))
           {| Sample.Value := float64_of_int (FromTime start);
              Sample.Timestamp := FromTime start |} ->
  showsContent (Prom.samplesOf (backend w) (contentQuery name)) start bb ->
  seenFrom (FromTime start) (clock w (ticks w)) (clock w (1 + ticks w)) ->
  seenFrom (FromTime start) (clock w (2 + ticks w)) (clock w (3 + ticks w)) ->
  fst (KV_Get db name w) = Done (Ok bb).
Proof.
  intros Hne Hfit Habs (Hin1 & Hmax1 & Hval1) (Hin2 & Hmax2 & Hval2) Hcontent
         (Hc1 & Hw1) (Hc2 & Hw2).
  destruct (queryRange_latest _ _ _ _ _ Hin1 Hmax1 Hval1 Hc1 Hw1) as (sizeVal & Q1 & L1).
  destruct (queryRange_latest _ _ _ _ _ Hin2 Hmax2 Hval2 Hc2 Hw2) as (startVal & Q2 & L2).
  cbn [Sample.Value] in L1, L2.
  destruct (dataRangeOf_written (FromTime start) (List.length bb) Habs Hfit)
    as (Rs & Re & Rstep).
  destruct (evalRange_content_among _ start bb Hfit Hne Hcontent) as (vlast & Hvals).
  assert (Q3 : exists stream : SampleStream.t,
             Prom.queryRange (contentQuery name)
               (dataRangeOf (float64_of_int (FromTime start))
                            (float64_of_int (Z.of_nat (List.length bb)))) (backend w)
             = Ok (ValMatrix ([] ++ [stream]))
             /\ map SamplePair.Value (SampleStream.Values stream)
                = map Sample.Value (contentSamples start bb) ++ [vlast]).
  { unfold Prom.queryRange. rewrite Rs, Re, Rstep.
    destruct (Z.leb_spec 1000 0); [lia|].
    destruct (Z.ltb_spec (FromTime start + Z.of_nat (List.length bb) * 1000) (FromTime start));
      [lia|].
    destruct (Prom.evalRange _ (FromTime start)
                (FromTime start + Z.of_nat (List.length bb) * 1000) 1000) as [|p ps] eqn:Hpts.
    - destruct (map Sample.Value (contentSamples start bb)); discriminate.
    - eexists. split; [reflexivity|]. exact Hvals. }
  destruct Q3 as (stream & Q3 & Hstream).
  assert (Hn : Z.of_nat (List.length bb) < 2 ^ 53).
  { unfold fitsDuration, max_int64, Second, Millisecond in Hfit. lia. }
  rewrite (@KV_Get_run Prom.env db name w sizeVal startVal
             (ValMatrix ([] ++ [stream]))
             (float64_of_int (Z.of_nat (List.length bb)))
             (float64_of_int (FromTime start))
             eq_refl Q1 L1 Q2 L2 Q3).
  rewrite (@Get_bytes_decodes Prom.env [] stream [vlast] start bb Hn Hstream).
  reflexivity.
Qed.

(** ** Two writes to one key *)

Lemma samplesOf_app (db1 db2 : Prom.TSDB) (q : Query) :
  Prom.samplesOf (db1 ++ db2) q = Prom.samplesOf db1 q ++ Prom.samplesOf db2 q.
Proof. unfold Prom.samplesOf. now rewrite filter_app, flat_map_app. Qed.

Lemma latestIn_pair_r (a b : Sample.t) :
  Sample.Timestamp a < Sample.Timestamp b -> latestIn [a; b] b.
Proof.
  intros Hlt. repeat split.
  - right. now left.
  - intros s' [<-|[<-|[]]]; lia.
  - intros s' [<-|[<-|[]]] Hts; [lia|reflexivity].
Qed.

Lemma latestIn_pair_l (a b : Sample.t) :
  Sample.Timestamp b < Sample.Timestamp a -> latestIn [a; b] a.
Proof.
  intros Hlt. repeat split.
  - now left.
  - intros s' [<-|[<-|[]]]; lia.
  - intros s' [<-|[<-|[]]] Hts; [reflexivity|lia].
Qed.

(** Content samples of another write, none of them stamped at an instant
    of the value, do not change what the series shows of the value. *)
Lemma showsContent_among (own other1 other2 : list Sample.t) (start : Time)
      (bb : list Byte.byte) :
  showsContent own start bb ->
  (forall (s' : Sample.t) (j : nat),
      In s' (other1 ++ other2) -> (j < List.length bb)%nat ->
      Sample.Timestamp s' <> FromTime start + Z.of_nat j * 1000) ->
  showsContent (other1 ++ own ++ other2) start bb.
Proof.
  intros (Hhas & Honly) Hother. split.
  - intros i b Hb. apply in_or_app. right. apply in_or_app. left. now apply Hhas.
  - intros s' j b Hs' Hb Hts.
    assert (Hj : (j < List.length bb)%nat) by (apply nth_error_Some; congruence).
    apply in_app_or in Hs'. destruct Hs' as [Hs'|Hs'].
    + exfalso. apply (Hother s' j); [apply in_or_app; now left|exact Hj|exact Hts].
    + apply in_app_or in Hs'. destruct Hs' as [Hs'|Hs'].
      * now apply (Honly s' j b).
      * exfalso. apply (Hother s' j); [apply in_or_app; now right|exact Hj|exact Hts].
Qed.

(** The stamps of the content samples of a write. *)
Lemma contentSamples_stamp (start : Time) (bb : list Byte.byte) (s' : Sample.t) :
  fitsDuration (List.length bb) ->
  In s' (contentSamples start bb) ->
  exists i : nat, (i < List.length bb)%nat
                  /\ Sample.Timestamp s' = FromTime start + Z.of_nat i * 1000.
Proof.
  intros Hfit Hs'.
  destruct (In_contentSamples start bb s' Hs') as (i & b & Hb & ->).
  assert (Hi : (i < List.length bb)%nat) by (apply nth_error_Some; congruence).
  exists i. split; [exact Hi|].
  apply contentSample_timestamp.
  apply (fitsDuration_le i (List.length bb)); [lia|exact Hfit].
Qed.

(** What the backend shows of a key after two writes to it. *)
Lemma samplesOf_two_writes (db0 : Prom.TSDB) (name : string) (bb1 bb2 : list Byte.byte)
      (t1 t2 : Time) :
  Prom.holdsNoSeriesOf name db0 ->
  let db := (db0 ++ WriteRequest.Timeseries (requestAt name bb1 t1))
              ++ WriteRequest.Timeseries (requestAt name bb2 t2) in
  Prom.samplesOf db (sizeQuery name)
  = [ {| Sample.Value := float64_of_int (Z.of_nat (List.length bb1));
         Sample.Timestamp := FromTime (startOf t1 (List.length bb1)) |};
      {| Sample.Value := float64_of_int (Z.of_nat (List.length bb2));
         Sample.Timestamp := FromTime (startOf t2 (List.length bb2)) |} ]
  /\ Prom.samplesOf db (startQuery name)
     = [ {| Sample.Value := float64_of_int (FromTime (startOf t1 (List.length bb1)));
            Sample.Timestamp := FromTime (startOf t1 (List.length bb1)) |};
         {| Sample.Value := float64_of_int (FromTime (startOf t2 (List.length bb2)));
            Sample.Timestamp := FromTime (startOf t2 (List.length bb2)) |} ]
  /\ Prom.samplesOf db (contentQuery name)
     = contentSamples (startOf t1 (List.length bb1)) bb1
       ++ contentSamples (startOf t2 (List.length bb2)) bb2.
Proof.
  intros Hnone db. subst db.
  destruct (samplesOf_written db0 name bb1 t1 Hnone) as (A1 & A2 & A3).
  destruct (samplesOf_written [] name bb2 t2 (Forall_nil _)) as (B1 & B2 & B3).
  cbn [app] in B1, B2, B3.
  rewrite !(samplesOf_app (db0 ++ _)), A1, A2, A3, B1, B2, B3.
  repeat split.
Qed.

(** Two writes to one key, then a read of it, against a backend that
    stores every sample it is sent and held no series of the key: both
    writes succeed, and the read returns the value whose write STARTS
    later, that is the one for which the reading of the clock less one
    second for each byte is greater, whichever was written last.  The two
    starts are not a whole number of seconds apart, so that no two content
    samples fall on one instant; the value read is not empty, and the two
    look-back windows of [Get] see its start.  [clk 0] and [clk 1] are the
    readings of the clock during the two [Set], [clk 2] to [clk 5] those
    during [Get]. *)
Theorem Get_after_two_writes
        (db0 : Prom.TSDB) (clk : nat -> Time) (name : string) (bb1 bb2 : list Byte.byte) :
  Prom.holdsNoSeriesOf name db0 ->
  fitsDuration (List.length bb1) ->
  fitsDuration (List.length bb2) ->
  (startMillis (clk 0%nat) (List.length bb1)
   - startMillis (clk 1%nat) (List.length bb2)) mod 1000 <> 0 ->
  (if startMillis (clk 0%nat) (List.length bb1) <? startMillis (clk 1%nat) (List.length bb2)
   then bb2 else bb1) <> [] ->
  Z.abs (Z.max (startMillis (clk 0%nat) (List.length bb1))
               (startMillis (clk 1%nat) (List.length bb2))) < 2 ^ 53 ->
  seenFrom (Z.max (startMillis (clk 0%nat) (List.length bb1))
                  (startMillis (clk 1%nat) (List.length bb2)))
           (clk 2%nat) (clk 3%nat) ->
  seenFrom (Z.max (startMillis (clk 0%nat) (List.length bb1))
                  (startMillis (clk 1%nat) (List.length bb2)))
           (clk 4%nat) (clk 5%nat) ->
  Prom.setSetGetFrom db0 clk name bb1 bb2
  = (None, None,
     Done (Ok (if startMillis (clk 0%nat) (List.length bb1)
                  <? startMillis (clk 1%nat) (List.length bb2)
               then bb2 else bb1))).
Proof.
  intros Hnone Hfit1 Hfit2 Hmod Hne Habs Hw1 Hw2.
  unfold startMillis in *.
  rewrite <- (FromTime_startOf (clk 0%nat) (List.length bb1) Hfit1) in *.
  rewrite <- (FromTime_startOf (clk 1%nat) (List.length bb2) Hfit2) in *.
  destruct (samplesOf_two_writes db0 name bb1 bb2 (clk 0%nat) (clk 1%nat) Hnone)
    as (Hsize & Hstart & Hcontent).
  set (S1 := startOf (clk 0%nat) (List.length bb1)) in *.
  set (S2 := startOf (clk 1%nat) (List.length bb2)) in *.
  unfold Prom.setSetGetFrom.
  rewrite (@KV_Set_round_trip Prom.env Prom.kv name bb1 (Prom.worldWith db0 clk)
             (proto_Marshalled (requestAt name bb1 (clk 0%nat))) eq_refl eq_refl).
  cbn -[KV_Get KV_Set requestAt Z.ltb].
  match goal with
  | |- context [KV_Set _ _ _ ?w] =>
      rewrite (@KV_Set_round_trip Prom.env Prom.kv name bb2 w
                 (proto_Marshalled (requestAt name bb2 (clk 1%nat))) eq_refl eq_refl)
  end.
  cbn -[KV_Get requestAt Z.ltb].
  f_equal.
  assert (Hapart : forall i j : nat,
             FromTime S1 + Z.of_nat i * 1000 <> FromTime S2 + Z.of_nat j * 1000).
  { intros i j Heq. apply Hmod.
    replace (FromTime S1 - FromTime S2) with ((Z.of_nat j - Z.of_nat i) * 1000) by lia.
    apply Z.mod_mul. lia. }
  assert (Hneq : FromTime S1 <> FromTime S2).
  { intros Heq. apply (Hapart O O). lia. }
  destruct (Z.ltb_spec (FromTime S1) (FromTime S2)) as [Hlt|Hge].
  - rewrite Z.max_r in Habs, Hw1, Hw2 by lia.
    apply (Prom_Get_reads _ name _ bb2 S2 Hne Hfit2 Habs);
      cbn [backend clock ticks Nat.add].
    + rewrite Hsize. apply latestIn_pair_r. exact Hlt.
    + rewrite Hstart. apply latestIn_pair_r. exact Hlt.
    + rewrite Hcontent.
      rewrite <- (app_nil_r (contentSamples S2 bb2)).
      apply showsContent_among; [now apply showsContent_own|].
      intros s' j Hs' _ Hts. rewrite app_nil_r in Hs'.
      destruct (contentSamples_stamp S1 bb1 s' Hfit1 Hs') as (i & _ & Hi).
      apply (Hapart i j). lia.
    + exact Hw1.
    + exact Hw2.
  - rewrite Z.max_l in Habs, Hw1, Hw2 by lia.
    apply (Prom_Get_reads _ name _ bb1 S1 Hne Hfit1 Habs);
      cbn [backend clock ticks Nat.add].
    + rewrite Hsize. apply latestIn_pair_l. cbn [Sample.Timestamp]. lia.
    + rewrite Hstart. apply latestIn_pair_l. cbn [Sample.Timestamp]. lia.
    + rewrite Hcontent.
      change (contentSamples S1 bb1 ++ contentSamples S2 bb2)
        with ([] ++ contentSamples S1 bb1 ++ contentSamples S2 bb2).
      apply showsContent_among; [now apply showsContent_own|].
      intros s' j Hs' _ Hts. cbn [app] in Hs'.
      destruct (contentSamples_stamp S2 bb2 s' Hfit2 Hs') as (i & _ & Hi).
      apply (Hapart j i). lia.
    + exact Hw1.
    + exact Hw2.
Qed.

(** The witness: "a" at 1700000000.5 s, then "hello, world" 9.5 s later,
    which starts 1.5 s before "a" does; the read returns "a". *)
Lemma Get_after_two_writes_witness :
  Prom.holdsNoSeriesOf "greeting" otherData
  /\ fitsDuration (List.length [Byte.x61])
  /\ fitsDuration (List.length helloWorld)
  /\ (startMillis (clockTwoWrites 0%nat) (List.length [Byte.x61])
      - startMillis (clockTwoWrites 1%nat) (List.length helloWorld)) mod 1000 <> 0
  /\ Prom.setSetGetFrom otherData clockTwoWrites "greeting" [Byte.x61] helloWorld
     = (None, None, Done (Ok [Byte.x61])).
Proof.
  assert (H0 : Prom.holdsNoSeriesOf "greeting" otherData) by (repeat constructor).
  assert (H1 : fitsDuration (List.length [Byte.x61])) by (vm_compute; discriminate).
  assert (H2 : fitsDuration (List.length helloWorld)) by (vm_compute; discriminate).
  assert (H3 : (startMillis (clockTwoWrites 0%nat) (List.length [Byte.x61])
                - startMillis (clockTwoWrites 1%nat) (List.length helloWorld)) mod 1000 <> 0)
    by (vm_compute; discriminate).
  split; [exact H0|]. split; [exact H1|]. split; [exact H2|]. split; [exact H3|].
  refine (Get_after_two_writes otherData clockTwoWrites "greeting" [Byte.x61] helloWorld
            H0 H1 H2 H3 _ _ _ _).
  - vm_compute. discriminate.
  - vm_compute. reflexivity.
  - vm_compute. repeat split; discriminate.
  - vm_compute. repeat split; discriminate.
Defined.

(** ** What [Get] does not see *)

(** A look-back query sees nothing of a series whose samples are all
    stamped sixty-five minutes or more before the first reading of the
    clock, or after the second one. *)
Lemma lookback_sees_nothing (q : Query) (db : Prom.TSDB) (start end_ : Time) :
  start <= end_ ->
  (forall s, In s (Prom.samplesOf db q) ->
             Sample.Timestamp s <= FromTime start - 3900000
             \/ FromTime end_ < Sample.Timestamp s) ->
  Prom.queryRange q (lookback start end_) db = Ok (ValMatrix []).
Proof.
  intros Hle Hout.
  pose proof (FromTime_mono start end_ Hle) as Hmono.
  unfold Prom.queryRange, lookback. cbn [Range.Start Range.End_ Range.Step].
  unfold UTC.
  replace (- Hour) with (int64_mul Second (-3600)) by reflexivity.
  replace (Time_Add start (int64_mul Second (-3600)))
    with (Time_Add start (-3600 * Second)) by reflexivity.
  assert (HA : FromTime (Time_Add start (-3600 * Second)) = FromTime start - 3600000).
  { rewrite !FromTime_millis. unfold Time_Add, Second, Millisecond.
    replace (start + -3600 * (1000 * 1000000)) with (start + (-3600000) * 1000000) by lia.
    rewrite Z.div_add by lia. lia. }
  rewrite HA.
  change (int_div Minute Millisecond) with 60000.
  destruct (Z.leb_spec 60000 0); [lia|].
  destruct (Z.ltb_spec (FromTime end_) (FromTime start - 3600000)); [lia|].
  assert (Hnil : Prom.evalRange (Prom.samplesOf db q) (FromTime start - 3600000)
                                (FromTime end_) 60000 = []).
  { unfold Prom.evalRange. apply flat_map_nil_all. intros t Ht.
    rewrite instantValue_none; [reflexivity|].
    intros s Hs. unfold Prom.steps in Ht. apply in_map_iff in Ht.
    destruct Ht as (j & <- & Hj). apply in_seq in Hj.
    assert (Hq : 0 <= (FromTime end_ - (FromTime start - 3600000)) / 60000)
      by (apply Z.div_pos; lia).
    assert (Ht : FromTime start - 3600000 + Z.of_nat j * 60000 <= FromTime end_).
    { set (Q := (FromTime end_ - (FromTime start - 3600000)) / 60000) in *.
      assert (Hjz : Z.of_nat j <= Q) by lia.
      assert (HQ : Q * 60000 <= FromTime end_ - (FromTime start - 3600000)).
      { subst Q. Z.to_euclidean_division_equations. lia. }
      nia. }
    destruct (Prom.visible _ s) eqn:Hvis; [|reflexivity].
    apply visible_iff in Hvis. destruct (Hout s Hs); lia. }
  rewrite Hnil. reflexivity.
Qed.

(** [Get] against the storing backend panics after the size query when the
    look-back window of that query sees no sample of the size series. *)
Lemma Prom_Get_sees_nothing (db : @KV Prom.env) (name : string) (w : @World Prom.env) :
  clock w (ticks w) <= clock w (1 + ticks w) ->
  (forall s, In s (Prom.samplesOf (backend w) (sizeQuery name)) ->
             Sample.Timestamp s <= FromTime (clock w (ticks w)) - 3900000
             \/ FromTime (clock w (1 + ticks w)) < Sample.Timestamp s) ->
  KV_Get db name w = (Panic "index out of range", advance w 2 [sizeEvent name w]).
Proof.
  intros Hle Hout.
  pose proof (lookback_sees_nothing (sizeQuery name) (backend w) _ _ Hle Hout) as Q.
  unfold KV_Get, api_NewClient, bind, time_Now, QueryRange, lift, ret,
         advance, sizeEvent, lookback, sizeQuery in *.
  cbn [Nat.add clock ticks backend trace fst snd url_Parse Prom.env Prom.envWith
       api_QueryRange] in *.
  rewrite Q. reflexivity.
Qed.

(** A key that was never written: against the storing backend, [Get] does
    not return an error, it panics with "index out of range" after the size
    query, and the command [promkv get <name>] ends with status 2 and
    prints nothing.  The clock does not go back between the two readings of
    the size query. *)
Theorem Get_of_a_key_never_written
        (db : @KV Prom.env) (name : string) (w : @World Prom.env) (out : Stdout) :
  Prom.holdsNoSeriesOf name (backend w) ->
  clock w (ticks w) <= clock w (1 + ticks w) ->
  KV_Get db name w = (Panic "index out of range", advance w 2 [sizeEvent name w])
  /\ promkv_get Prom.getenv Prom.basicAuth [name] (w, out)
     = (2, (advance w 2 [sizeEvent name w], out)).
Proof.
  intros Hnone Hle.
  assert (Hrun : forall db' : @KV Prom.env,
             KV_Get db' name w
             = (Panic "index out of range", advance w 2 [sizeEvent name w])).
  { intros db'. apply Prom_Get_sees_nothing; [exact Hle|].
    intros s Hs. exfalso. unfold Prom.samplesOf in Hs.
    rewrite (filter_selects_none (sizeQuery name) (backend w) Hnone) in Hs.
    exact Hs. }
  split; [apply Hrun|].
  unfold promkv_get, runCommand, getCmd_RunE, bind, lift, onWorld.
  cbn [cobra_ExactArgs List.length Nat.eqb go_index orb Z.ltb Z.leb Z.of_nat
       Pos.of_succ_nat Z.compare Pos.compare Pos.compare_cont nth_error Z.to_nat fst snd].
  rewrite Hrun. reflexivity.
Qed.

Lemma Get_of_a_key_never_written_witness :
  Prom.holdsNoSeriesOf "greeting" (backend (Prom.worldWith otherData clock1700))
  /\ clock (Prom.worldWith otherData clock1700) (ticks (Prom.worldWith otherData clock1700))
     <= clock (Prom.worldWith otherData clock1700)
              (1 + ticks (Prom.worldWith otherData clock1700))
  /\ promkv_get Prom.getenv Prom.basicAuth ["greeting"%string]
                (Prom.worldWith otherData clock1700, {| written := []; room := None |})
     = (2, (advance (Prom.worldWith otherData clock1700) 2
                    [sizeEvent "greeting" (Prom.worldWith otherData clock1700)],
            {| written := []; room := None |})).
Proof.
  assert (H0 : Prom.holdsNoSeriesOf "greeting"
                 (backend (Prom.worldWith otherData clock1700)))
    by (repeat constructor).
  assert (H1 : clock (Prom.worldWith otherData clock1700)
                     (ticks (Prom.worldWith otherData clock1700))
               <= clock (Prom.worldWith otherData clock1700)
                        (1 + ticks (Prom.worldWith otherData clock1700)))
    by (vm_compute; discriminate).
  split; [exact H0|]. split; [exact H1|].
  exact (proj2 (Get_of_a_key_never_written Prom.kv "greeting"
                  (Prom.worldWith otherData clock1700)
                  {| written := []; room := None |} H0 H1)).
Defined.

(** A value can be read for sixty-five minutes from its start, which is
    one second for each of its bytes before the write.  Against the storing
    backend, [Set] of a value to a key with no series succeeds, and [Get]
    then panics with "index out of range" once the first reading of the
    clock in [Get] is sixty-five minutes or more after the start of the
    value; so a value of 3900 bytes or more can never be read back, however
    soon [Get] follows [Set].  [clk 0] is the reading of the clock during
    [Set], [clk 1] and [clk 2] the first two during [Get]. *)
Theorem a_value_cannot_be_read_65_minutes_after_its_start
        (db0 : Prom.TSDB) (clk : nat -> Time) (name : string) (bb : list Byte.byte) :
  Prom.holdsNoSeriesOf name db0 ->
  fitsDuration (List.length bb) ->
  clk 1%nat <= clk 2%nat ->
  (startMillis (clk 0%nat) (List.length bb) <= FromTime (clk 1%nat) - 3900000 ->
   Prom.setThenGetFrom db0 clk name bb = (None, Panic "index out of range"))
  /\ ((3900 <= List.length bb)%nat -> clk 0%nat <= clk 1%nat ->
      Prom.setThenGetFrom db0 clk name bb = (None, Panic "index out of range")).
Proof.
  intros Hnone Hfit Hle.
  assert (Hold : startMillis (clk 0%nat) (List.length bb) <= FromTime (clk 1%nat) - 3900000 ->
                 Prom.setThenGetFrom db0 clk name bb = (None, Panic "index out of range")).
  { intros Hstart. unfold startMillis in Hstart.
    rewrite <- (FromTime_startOf (clk 0%nat) (List.length bb) Hfit) in Hstart.
    destruct (samplesOf_written db0 name bb (clk 0%nat) Hnone) as (Hsize & _ & _).
    unfold Prom.setThenGetFrom.
    rewrite (@KV_Set_round_trip Prom.env Prom.kv name bb (Prom.worldWith db0 clk)
               (proto_Marshalled (requestAt name bb (clk 0%nat))) eq_refl eq_refl).
    cbn -[KV_Get requestAt].
    f_equal.
    match goal with
    | |- fst (KV_Get _ _ ?w) = _ =>
        rewrite (Prom_Get_sees_nothing Prom.kv name w)
    end.
    - reflexivity.
    - exact Hle.
    - cbn [backend clock ticks Nat.add]. rewrite Hsize.
      intros s [<-|[]]. left. exact Hstart. }
  split; [exact Hold|].
  intros Hlong Hmono. apply Hold.
  pose proof (FromTime_mono _ _ Hmono). unfold startMillis. lia.
Qed.

(** Two bytes written at 1700000000 s and read from 1700004000 s on. *)
Lemma a_value_cannot_be_read_65_minutes_after_its_start_witness :
  Prom.holdsNoSeriesOf "greeting" otherData
  /\ fitsDuration (List.length hi)
  /\ clockSlow 1%nat <= clockSlow 2%nat
  /\ startMillis (clockSlow 0%nat) (List.length hi) <= FromTime (clockSlow 1%nat) - 3900000
  /\ Prom.setThenGetFrom otherData clockSlow "greeting" hi
     = (None, Panic "index out of range").
Proof.
  assert (H0 : Prom.holdsNoSeriesOf "greeting" otherData) by (repeat constructor).
  assert (H1 : fitsDuration (List.length hi)) by (vm_compute; discriminate).
  assert (H2 : clockSlow 1%nat <= clockSlow 2%nat) by (vm_compute; discriminate).
  assert (H3 : startMillis (clockSlow 0%nat) (List.length hi)
               <= FromTime (clockSlow 1%nat) - 3900000) by (vm_compute; discriminate).
  split; [exact H0|]. split; [exact H1|]. split; [exact H2|]. split; [exact H3|].
  exact (proj1 (a_value_cannot_be_read_65_minutes_after_its_start
                  otherData clockSlow "greeting" hi H0 H1 H2) H3).
Defined.

(** ** Keys do not interfere *)

Lemma selects_other_key (q : Query) (name : string) (bb : list Byte.byte) (t : Time) :
  qKey q <> name ->
  filter (selects q) (WriteRequest.Timeseries (requestAt name bb t)) = [].
Proof.
  intros Hneq.
  assert (Hk : String.eqb name (qKey q) = false)
    by (apply String.eqb_neq; congruence).
  unfold requestAt, selects, hasLabel, nameLabels.
  cbn -[String.eqb contentSamples startOf float64_of_int FromTime].
  rewrite Hk, !andb_false_r. reflexivity.
Qed.

Lemma KV_Set_backend (db : @KV Prom.env) (name : string) (r : Reader) (w : @World Prom.env) :
  backend (snd (KV_Set db name r w)) = backend w
  \/ backend (snd (KV_Set db name r w))
     = backend w ++ WriteRequest.Timeseries (requestAt name (rdBytes r) (now w)).
Proof.
  destruct (rdErr r) as [e|] eqn:Hr.
  - left. unfold KV_Set, bind. rewrite buildWriteRequest_reads, Hr. reflexivity.
  - right. rewrite (Reader_eta r Hr) at 1.
    rewrite (@KV_Set_round_trip Prom.env db name (rdBytes r) w
               (proto_Marshalled (requestAt name (rdBytes r) (now w))) eq_refl eq_refl).
    reflexivity.
Qed.

(** A write to one key does not change what is read of another: whatever
    [Set] of the key [name] does to the storing backend, [Get] of a key
    [other] returns from the backend after it what it returns from the
    backend before it, at the same readings of the clock. *)
Theorem Set_does_not_change_what_Get_reads_of_other_keys
        (sdb gdb : @KV Prom.env) (name other : string) (r : Reader) (w : @World Prom.env)
        (clk : nat -> Time) (n : nat) (tr : list IOEvent) :
  name <> other ->
  fst (KV_Get gdb other
         {| clock := clk; ticks := n;
            backend := backend (snd (KV_Set sdb name r w)); trace := tr |})
  = fst (KV_Get gdb other
           {| clock := clk; ticks := n; backend := backend w; trace := tr |}).
Proof.
  intros Hneq.
  assert (Hq : forall (q : Query) (rg : Range.t),
             qKey q = other ->
             Prom.queryRange q rg (backend (snd (KV_Set sdb name r w)))
             = Prom.queryRange q rg (backend w)).
  { intros q rg Hk.
    destruct (KV_Set_backend sdb name r w) as [->| ->]; [reflexivity|].
    unfold Prom.queryRange, Prom.samplesOf.
    rewrite filter_app, selects_other_key by congruence.
    now rewrite app_nil_r. }
  unfold KV_Get, api_NewClient, bind, time_Now, QueryRange, lift, ret.
  cbn [Nat.add clock ticks backend trace fst snd url_Parse Prom.env Prom.envWith
       api_QueryRange].
  rewrite Hq by reflexivity.
  destruct (Prom.queryRange _ _ (backend w)) as [sizeVal|e]; [|reflexivity].
  destruct (getLastValue sizeVal) as [fileSizeBytes|msg]; [|reflexivity].
  cbn [clock ticks backend trace fst snd].
  rewrite Hq by reflexivity.
  destruct (Prom.queryRange _ _ (backend w)) as [startVal|e]; [|reflexivity].
  destruct (getLastValue startVal) as [timestampSeconds|msg]; [|reflexivity].
  cbn [clock ticks backend trace fst snd].
  rewrite Hq by reflexivity.
  destruct (Prom.queryRange _ _ (backend w)) as [contentVal|e]; [|reflexivity].
  destruct (Get_bytes contentVal fileSizeBytes); reflexivity.
Qed.

(** "hi" is written under "greeting" while "other" holds one byte. *)
Lemma Set_does_not_change_what_Get_reads_of_other_keys_witness :
  "greeting"%string <> "other"%string
  /\ fst (KV_Get Prom.kv "other"
            {| clock := clock1700; ticks := 1;
               backend := backend (snd (KV_Set Prom.kv "greeting" (bytes_NewReader hi)
                                               (Prom.worldWith otherData clock1700)));
               trace := [] |})
     = fst (KV_Get Prom.kv "other"
              {| clock := clock1700; ticks := 1;
                 backend := backend (Prom.worldWith otherData clock1700); trace := [] |}).
Proof.
  assert (H0 : "greeting"%string <> "other"%string) by discriminate.
  split; [exact H0|].
  exact (Set_does_not_change_what_Get_reads_of_other_keys
           Prom.kv Prom.kv "greeting" "other" (bytes_NewReader hi)
           (Prom.worldWith otherData clock1700) clock1700 1 [] H0).
Defined.

(** ** The size of what [Get] returns *)

Section ResultSize.
Context {E : Env}.

(** Whenever the last stage of [Get] returns, it returns exactly
    [int(fileSizeBytes)] bytes, whatever the content answer holds. *)
Theorem Get_bytes_returns_as_many_bytes_as_the_size_says
        (val : model_Value) (fileSizeBytes : float64) (bb : list Byte.byte) :
  Get_bytes val fileSizeBytes = Done bb ->
  Z.of_nat (List.length bb) = int64_of_float64 fileSizeBytes.
Proof.
  unfold Get_bytes.
  destruct (getValues val) as [points|msg]; [|discriminate].
  unfold go_slice_to.
  set (k := int64_of_float64 fileSizeBytes).
  destruct (Z.ltb_spec k 0) as [Hneg|Hnn]; [discriminate|].
  destruct (Z.ltb_spec (Z.of_nat (cap_of (List.length points))) k) as [Hbig|Hfit];
    [discriminate|].
  simpl "||". intros H. inversion H as [Hbb]. clear H Hbb.
  rewrite fold_left_snoc. simpl app.
  rewrite length_map, length_firstn, length_app, repeat_length.
  pose proof (cap_of_ge (List.length points)). lia.
Qed.

End ResultSize.

Lemma Get_bytes_returns_as_many_bytes_as_the_size_says_witness :
  @Get_bytes Prom.env (ValMatrix [hiStream]) (FNum 2) = Done hi
  /\ Z.of_nat (List.length hi) = int64_of_float64 (FNum 2).
Proof.
  assert (H0 : @Get_bytes Prom.env (ValMatrix [hiStream]) (FNum 2) = Done hi)
    by (vm_compute; reflexivity).
  split; [exact H0|].
  exact (@Get_bytes_returns_as_many_bytes_as_the_size_says
           Prom.env (ValMatrix [hiStream]) (FNum 2) hi H0).
Defined.

(** Two values, a size of four: the slice has room for four. *)
Lemma Get_bytes_pads_with_zeros_witness :
  Z.of_nat (List.length (SampleStream.Values
                           {| SampleStream.Metric := [];
                              SampleStream.Values :=
                                [ {| SamplePair.Timestamp := 0; SamplePair.Value := FNum 104 |};
                                  {| SamplePair.Timestamp := 1000; SamplePair.Value := FNum 105 |};
                                  {| SamplePair.Timestamp := 2000; SamplePair.Value := FNum 33 |} ] |}))
    < int64_of_float64 (FNum 4)
  /\ @Get_bytes Prom.env
       (ValMatrix ([] ++ [ {| SampleStream.Metric := [];
                              SampleStream.Values :=
                                [ {| SamplePair.Timestamp := 0; SamplePair.Value := FNum 104 |};
                                  {| SamplePair.Timestamp := 1000; SamplePair.Value := FNum 105 |};
                                  {| SamplePair.Timestamp := 2000; SamplePair.Value := FNum 33 |} ] |} ]))
       (FNum 4)
     = Done [Byte.x68; Byte.x69; Byte.x21; Byte.x00].
Proof.
  split; [vm_compute; reflexivity|].
  refine (eq_trans
            (@Get_bytes_pads_with_zeros Prom.env []
               {| SampleStream.Metric := [];
                  SampleStream.Values :=
                    [ {| SamplePair.Timestamp := 0; SamplePair.Value := FNum 104 |};
                      {| SamplePair.Timestamp := 1000; SamplePair.Value := FNum 105 |};
                      {| SamplePair.Timestamp := 2000; SamplePair.Value := FNum 33 |} ] |}
               (FNum 4) _ _) _).
  - vm_compute. reflexivity.
  - vm_compute. discriminate.
  - vm_compute. reflexivity.
Defined.

(** ** The two commands *)

Lemma latestIn_single (s : Sample.t) : latestIn [s] s.
Proof.
  repeat split.
  - now left.
  - intros s' [<-|[]]. lia.
  - intros s' [<-|[]] _. reflexivity.
Qed.

(** The two commands, one after the other: against the storing backend,
    with no series of the key yet, [promkv set <name>] of a non-empty value
    followed by [promkv get <name>] ends twice with status 0 and prints
    exactly the value, when the two look-back windows of [Get] see the start
    of the value.  [clk 0] is the reading of the clock during [set], [clk 1]
    to [clk 4] those during [get]. *)
Theorem set_command_then_get_command_prints_the_value
        (db0 : Prom.TSDB) (clk : nat -> Time) (name : string) (value : list Byte.byte) :
  Prom.holdsNoSeriesOf name db0 ->
  value <> [] ->
  fitsDuration (List.length value) ->
  Z.abs (startMillis (clk 0%nat) (List.length value)) < 2 ^ 53 ->
  seenFrom (startMillis (clk 0%nat) (List.length value)) (clk 1%nat) (clk 2%nat) ->
  seenFrom (startMillis (clk 0%nat) (List.length value)) (clk 3%nat) (clk 4%nat) ->
  Prom.setThenGetCommands db0 clk name value = (0, 0, value).
Proof.
  intros Hnone Hne Hfit Habs Hw1 Hw2.
  unfold startMillis in *.
  rewrite <- (FromTime_startOf (clk 0%nat) (List.length value) Hfit) in *.
  destruct (samplesOf_written db0 name value (clk 0%nat) Hnone)
    as (Hsize & Hstart & Hcontent).
  unfold Prom.setThenGetCommands, promkv_set, promkv_get, runCommand,
         setCmd_RunE, getCmd_RunE, bind, lift, onWorld, onStdout, ret.
  cbn [cobra_ExactArgs List.length Nat.eqb go_index orb Z.ltb Z.leb Z.of_nat
       Pos.of_succ_nat Z.compare Pos.compare Pos.compare_cont nth_error Z.to_nat fst snd].
  rewrite (@KV_Set_round_trip Prom.env (main_db Prom.getenv Prom.basicAuth) name value
             (Prom.worldWith db0 clk)
             (proto_Marshalled (requestAt name value (clk 0%nat))) eq_refl eq_refl).
  cbn -[KV_Get requestAt main_db].
  match goal with
  | |- context [KV_Get ?db _ ?w] =>
      pose proof (Prom_Get_reads db name w value (startOf (clk 0%nat) (List.length value))
                    Hne Hfit Habs) as Hget;
      destruct (KV_Get db name w) as [o w'] eqn:HG
  end.
  cbn [backend clock ticks Nat.add fst] in Hget.
  rewrite Hsize, Hstart, Hcontent in Hget.
  rewrite (Hget (latestIn_single _) (latestIn_single _) (showsContent_own _ _ Hfit) Hw1 Hw2).
  cbn. reflexivity.
Qed.

(** "hi" written and printed while another key is stored. *)
Lemma set_command_then_get_command_prints_the_value_witness :
  Prom.holdsNoSeriesOf "greeting" otherData
  /\ hi <> []
  /\ fitsDuration (List.length hi)
  /\ Prom.setThenGetCommands otherData clock1700 "greeting" hi = (0, 0, hi).
Proof.
  assert (H0 : Prom.holdsNoSeriesOf "greeting" otherData) by (repeat constructor).
  assert (H1 : hi <> []) by discriminate.
  assert (H2 : fitsDuration (List.length hi)) by (vm_compute; discriminate).
  split; [exact H0|]. split; [exact H1|]. split; [exact H2|].
  refine (set_command_then_get_command_prints_the_value otherData clock1700 "greeting" hi
            H0 H1 H2 _ _ _).
  - vm_compute. reflexivity.
  - vm_compute. repeat split; discriminate.
  - vm_compute. repeat split; discriminate.
Defined.
